(** * BatchSizeFinder: a shallow embedding of
      [pytorch_lightning/callbacks/batch_size_finder.py]

    The callback searches for the largest batch size that runs without an
    out-of-memory error.  Python objects are records, the mutable trainer and
    the callback instance live in one [World] that every method threads
    through a state-and-exception monad, and the collaborators that the file
    imports (the loops, the checkpoint connector, the data-loader hooks, the
    out-of-memory classifier) are the fields of [Externals]. *)

From Stdlib Require Import ZArith Lia Bool List String.
From stdpp Require Import gmap strings list fin_maps.
Import ListNotations.
Local Open Scope string_scope.
Local Open Scope list_scope.
Local Open Scope Z_scope.

(** ** Data model *)

(** [pytorch_lightning.trainer.states.TrainerFn]. *)
Inductive TrainerFn := FITTING | VALIDATING | TESTING | PREDICTING | TUNING.

(** A logger is either the user's or the no-op [DummyLogger()]. *)
Inductive Logger := UserLogger (id : nat) | DummyLogger.

(** Callbacks are only stored and given back, never inspected. *)
Definition Callback := nat.

(** A loop object.  [current_epoch] and [progress] (the batch index and the
    other internal counters) make up [state_dict(force_save_progress=True)],
    [verbose] is [None] when the loop has no such attribute ([hasattr] is false);
    the step counters are the ones the finder touches on [trainer.fit_loop]. *)
Record Loop := mkLoop {
  progress : list Z;
  verbose : option bool;
  global_step : Z;
  current_epoch : Z;
  max_steps : Z }.

(** What the finder asks of a [DataLoader]: [has_len_all_ranks(dataloader, ...)],
    [len(dataloader)] (a number of batches) and [len(dataloader.dataset)]. *)
Record DataLoader := mkDataLoader {
  has_len_all_ranks : bool;
  len_dataloader : Z;
  len_dataset : Z }.

(** The attributes of the LightningModule and of its [hparams] collection,
    by name; [hparams = None] when the module has no [hparams]. *)
Record LightningModule := mkModule {
  attrs : gmap string Z;
  hparams : option (gmap string Z) }.

Record Trainer := mkTrainer {
  fast_dev_run : bool;
  logger : option Logger;
  callbacks : list Callback;
  state_fn : TrainerFn;
  fit_loop : Loop;
  validate_loop : Loop;
  test_loop : Loop;
  predict_loop : Loop;
  limit_val_batches : Z;
  limit_test_batches : Z;
  limit_predict_batches : Z;
  is_global_zero : bool;
  progress_bar_callback : option bool;
  lightning_module : LightningModule;
  train_dataloader_source_is_module : bool;
  train_dataloader : DataLoader;
  val_dataloaders : DataLoader;
  test_dataloaders : DataLoader;
  predict_dataloaders : DataLoader;
  default_root_dir : string }.

(** The state dictionary of a loop: its epoch and its other progress
    counters. *)
Definition LoopState : Type := Z * list Z.

(** The [_BatchSizeFinderDumpedParams] dictionary: a key is present exactly
    when its field is [Some]. *)
Record DumpedParams := mkDumped {
  dp_logger : option (option Logger);
  dp_callbacks : option (list Callback);
  dp_global_step : option Z;
  dp_max_steps : option Z;
  dp_limit_val_batches : option Z;
  dp_limit_eval_batches : option Z;
  dp_loop_state_dict : option LoopState;
  dp_loop_verbose : option bool }.

(** The callback instance ([self]). *)
Record BatchSizeFinder := mkFinder {
  mode : string;
  steps_per_trial : Z;
  init_val : Z;
  max_trials : Z;
  batch_arg_name : string;
  optimal_batch_size : Z;
  _early_exit : bool;
  _dumped_params : DumpedParams }.

Inductive Misconfiguration :=
  | FieldNotFound (name : string)
  | DataloadersPassedDirectly.

Inductive Exception :=
  | MisconfigurationException (m : Misconfiguration)
  | RuntimeError (args : string)
  | AttributeError (name : string)
  | KeyError (key : string)
  | UnboundLocalError (var : string)
  | OverflowError
  | FileNotFoundError
  | _TunerExitException
  | OtherException (name : string).

Inductive Warning :=
  | SkippingFastDevRun
  | MutuallyExclusiveFields (name : string).

(** The temporary checkpoint path: [default_root_dir] joined with
    [.scale_batch_size_temp_model_<uuid>.ckpt]. *)
Definition Path : Type := string * nat.

(** One executed trial, recorded for the statements about trial counts: the
    batch size read from the module when [loop.run()] started, and the
    exception it raised, if any. *)
Definition Trial : Type := option Z * option Exception.

(** Everything a method can read or write.  [fs] is the file system of the
    checkpoints (a saved checkpoint is the trainer it was taken from),
    [uuid_supply] the source of [uuid.uuid4()], [warnings] and [stdout] what
    [rank_zero_warn] and [print] emitted, [trial_log] the trials run so far. *)
Record World := mkWorld {
  trainer : Trainer;
  self : BatchSizeFinder;
  fs : gmap Path Trainer;
  uuid_supply : nat;
  warnings : list Warning;
  stdout : list Z;
  trial_log : list Trial }.

(** ** Attribute assignment *)

Definition set_progress (v : list Z) (r : Loop) : Loop :=
  {| progress := v; verbose := verbose r; global_step := global_step r; current_epoch := current_epoch r; max_steps := max_steps r |}.

Definition set_verbose (v : option bool) (r : Loop) : Loop :=
  {| progress := progress r; verbose := v; global_step := global_step r; current_epoch := current_epoch r; max_steps := max_steps r |}.

Definition set_global_step (v : Z) (r : Loop) : Loop :=
  {| progress := progress r; verbose := verbose r; global_step := v; current_epoch := current_epoch r; max_steps := max_steps r |}.

Definition set_current_epoch (v : Z) (r : Loop) : Loop :=
  {| progress := progress r; verbose := verbose r; global_step := global_step r; current_epoch := v; max_steps := max_steps r |}.

Definition set_max_steps (v : Z) (r : Loop) : Loop :=
  {| progress := progress r; verbose := verbose r; global_step := global_step r; current_epoch := current_epoch r; max_steps := v |}.

Definition set_fast_dev_run (v : bool) (r : Trainer) : Trainer :=
  {| fast_dev_run := v; logger := logger r; callbacks := callbacks r; state_fn := state_fn r; fit_loop := fit_loop r; validate_loop := validate_loop r; test_loop := test_loop r; predict_loop := predict_loop r; limit_val_batches := limit_val_batches r; limit_test_batches := limit_test_batches r; limit_predict_batches := limit_predict_batches r; is_global_zero := is_global_zero r; progress_bar_callback := progress_bar_callback r; lightning_module := lightning_module r; train_dataloader_source_is_module := train_dataloader_source_is_module r; train_dataloader := train_dataloader r; val_dataloaders := val_dataloaders r; test_dataloaders := test_dataloaders r; predict_dataloaders := predict_dataloaders r; default_root_dir := default_root_dir r |}.

Definition set_logger (v : option Logger) (r : Trainer) : Trainer :=
  {| fast_dev_run := fast_dev_run r; logger := v; callbacks := callbacks r; state_fn := state_fn r; fit_loop := fit_loop r; validate_loop := validate_loop r; test_loop := test_loop r; predict_loop := predict_loop r; limit_val_batches := limit_val_batches r; limit_test_batches := limit_test_batches r; limit_predict_batches := limit_predict_batches r; is_global_zero := is_global_zero r; progress_bar_callback := progress_bar_callback r; lightning_module := lightning_module r; train_dataloader_source_is_module := train_dataloader_source_is_module r; train_dataloader := train_dataloader r; val_dataloaders := val_dataloaders r; test_dataloaders := test_dataloaders r; predict_dataloaders := predict_dataloaders r; default_root_dir := default_root_dir r |}.

Definition set_callbacks (v : list Callback) (r : Trainer) : Trainer :=
  {| fast_dev_run := fast_dev_run r; logger := logger r; callbacks := v; state_fn := state_fn r; fit_loop := fit_loop r; validate_loop := validate_loop r; test_loop := test_loop r; predict_loop := predict_loop r; limit_val_batches := limit_val_batches r; limit_test_batches := limit_test_batches r; limit_predict_batches := limit_predict_batches r; is_global_zero := is_global_zero r; progress_bar_callback := progress_bar_callback r; lightning_module := lightning_module r; train_dataloader_source_is_module := train_dataloader_source_is_module r; train_dataloader := train_dataloader r; val_dataloaders := val_dataloaders r; test_dataloaders := test_dataloaders r; predict_dataloaders := predict_dataloaders r; default_root_dir := default_root_dir r |}.

Definition set_fit_loop (v : Loop) (r : Trainer) : Trainer :=
  {| fast_dev_run := fast_dev_run r; logger := logger r; callbacks := callbacks r; state_fn := state_fn r; fit_loop := v; validate_loop := validate_loop r; test_loop := test_loop r; predict_loop := predict_loop r; limit_val_batches := limit_val_batches r; limit_test_batches := limit_test_batches r; limit_predict_batches := limit_predict_batches r; is_global_zero := is_global_zero r; progress_bar_callback := progress_bar_callback r; lightning_module := lightning_module r; train_dataloader_source_is_module := train_dataloader_source_is_module r; train_dataloader := train_dataloader r; val_dataloaders := val_dataloaders r; test_dataloaders := test_dataloaders r; predict_dataloaders := predict_dataloaders r; default_root_dir := default_root_dir r |}.

Definition set_validate_loop (v : Loop) (r : Trainer) : Trainer :=
  {| fast_dev_run := fast_dev_run r; logger := logger r; callbacks := callbacks r; state_fn := state_fn r; fit_loop := fit_loop r; validate_loop := v; test_loop := test_loop r; predict_loop := predict_loop r; limit_val_batches := limit_val_batches r; limit_test_batches := limit_test_batches r; limit_predict_batches := limit_predict_batches r; is_global_zero := is_global_zero r; progress_bar_callback := progress_bar_callback r; lightning_module := lightning_module r; train_dataloader_source_is_module := train_dataloader_source_is_module r; train_dataloader := train_dataloader r; val_dataloaders := val_dataloaders r; test_dataloaders := test_dataloaders r; predict_dataloaders := predict_dataloaders r; default_root_dir := default_root_dir r |}.

Definition set_test_loop (v : Loop) (r : Trainer) : Trainer :=
  {| fast_dev_run := fast_dev_run r; logger := logger r; callbacks := callbacks r; state_fn := state_fn r; fit_loop := fit_loop r; validate_loop := validate_loop r; test_loop := v; predict_loop := predict_loop r; limit_val_batches := limit_val_batches r; limit_test_batches := limit_test_batches r; limit_predict_batches := limit_predict_batches r; is_global_zero := is_global_zero r; progress_bar_callback := progress_bar_callback r; lightning_module := lightning_module r; train_dataloader_source_is_module := train_dataloader_source_is_module r; train_dataloader := train_dataloader r; val_dataloaders := val_dataloaders r; test_dataloaders := test_dataloaders r; predict_dataloaders := predict_dataloaders r; default_root_dir := default_root_dir r |}.

Definition set_predict_loop (v : Loop) (r : Trainer) : Trainer :=
  {| fast_dev_run := fast_dev_run r; logger := logger r; callbacks := callbacks r; state_fn := state_fn r; fit_loop := fit_loop r; validate_loop := validate_loop r; test_loop := test_loop r; predict_loop := v; limit_val_batches := limit_val_batches r; limit_test_batches := limit_test_batches r; limit_predict_batches := limit_predict_batches r; is_global_zero := is_global_zero r; progress_bar_callback := progress_bar_callback r; lightning_module := lightning_module r; train_dataloader_source_is_module := train_dataloader_source_is_module r; train_dataloader := train_dataloader r; val_dataloaders := val_dataloaders r; test_dataloaders := test_dataloaders r; predict_dataloaders := predict_dataloaders r; default_root_dir := default_root_dir r |}.

Definition set_limit_val_batches (v : Z) (r : Trainer) : Trainer :=
  {| fast_dev_run := fast_dev_run r; logger := logger r; callbacks := callbacks r; state_fn := state_fn r; fit_loop := fit_loop r; validate_loop := validate_loop r; test_loop := test_loop r; predict_loop := predict_loop r; limit_val_batches := v; limit_test_batches := limit_test_batches r; limit_predict_batches := limit_predict_batches r; is_global_zero := is_global_zero r; progress_bar_callback := progress_bar_callback r; lightning_module := lightning_module r; train_dataloader_source_is_module := train_dataloader_source_is_module r; train_dataloader := train_dataloader r; val_dataloaders := val_dataloaders r; test_dataloaders := test_dataloaders r; predict_dataloaders := predict_dataloaders r; default_root_dir := default_root_dir r |}.

Definition set_limit_test_batches (v : Z) (r : Trainer) : Trainer :=
  {| fast_dev_run := fast_dev_run r; logger := logger r; callbacks := callbacks r; state_fn := state_fn r; fit_loop := fit_loop r; validate_loop := validate_loop r; test_loop := test_loop r; predict_loop := predict_loop r; limit_val_batches := limit_val_batches r; limit_test_batches := v; limit_predict_batches := limit_predict_batches r; is_global_zero := is_global_zero r; progress_bar_callback := progress_bar_callback r; lightning_module := lightning_module r; train_dataloader_source_is_module := train_dataloader_source_is_module r; train_dataloader := train_dataloader r; val_dataloaders := val_dataloaders r; test_dataloaders := test_dataloaders r; predict_dataloaders := predict_dataloaders r; default_root_dir := default_root_dir r |}.

Definition set_limit_predict_batches (v : Z) (r : Trainer) : Trainer :=
  {| fast_dev_run := fast_dev_run r; logger := logger r; callbacks := callbacks r; state_fn := state_fn r; fit_loop := fit_loop r; validate_loop := validate_loop r; test_loop := test_loop r; predict_loop := predict_loop r; limit_val_batches := limit_val_batches r; limit_test_batches := limit_test_batches r; limit_predict_batches := v; is_global_zero := is_global_zero r; progress_bar_callback := progress_bar_callback r; lightning_module := lightning_module r; train_dataloader_source_is_module := train_dataloader_source_is_module r; train_dataloader := train_dataloader r; val_dataloaders := val_dataloaders r; test_dataloaders := test_dataloaders r; predict_dataloaders := predict_dataloaders r; default_root_dir := default_root_dir r |}.

Definition set_is_global_zero (v : bool) (r : Trainer) : Trainer :=
  {| fast_dev_run := fast_dev_run r; logger := logger r; callbacks := callbacks r; state_fn := state_fn r; fit_loop := fit_loop r; validate_loop := validate_loop r; test_loop := test_loop r; predict_loop := predict_loop r; limit_val_batches := limit_val_batches r; limit_test_batches := limit_test_batches r; limit_predict_batches := limit_predict_batches r; is_global_zero := v; progress_bar_callback := progress_bar_callback r; lightning_module := lightning_module r; train_dataloader_source_is_module := train_dataloader_source_is_module r; train_dataloader := train_dataloader r; val_dataloaders := val_dataloaders r; test_dataloaders := test_dataloaders r; predict_dataloaders := predict_dataloaders r; default_root_dir := default_root_dir r |}.

Definition set_progress_bar_callback (v : option bool) (r : Trainer) : Trainer :=
  {| fast_dev_run := fast_dev_run r; logger := logger r; callbacks := callbacks r; state_fn := state_fn r; fit_loop := fit_loop r; validate_loop := validate_loop r; test_loop := test_loop r; predict_loop := predict_loop r; limit_val_batches := limit_val_batches r; limit_test_batches := limit_test_batches r; limit_predict_batches := limit_predict_batches r; is_global_zero := is_global_zero r; progress_bar_callback := v; lightning_module := lightning_module r; train_dataloader_source_is_module := train_dataloader_source_is_module r; train_dataloader := train_dataloader r; val_dataloaders := val_dataloaders r; test_dataloaders := test_dataloaders r; predict_dataloaders := predict_dataloaders r; default_root_dir := default_root_dir r |}.

Definition set_lightning_module (v : LightningModule) (r : Trainer) : Trainer :=
  {| fast_dev_run := fast_dev_run r; logger := logger r; callbacks := callbacks r; state_fn := state_fn r; fit_loop := fit_loop r; validate_loop := validate_loop r; test_loop := test_loop r; predict_loop := predict_loop r; limit_val_batches := limit_val_batches r; limit_test_batches := limit_test_batches r; limit_predict_batches := limit_predict_batches r; is_global_zero := is_global_zero r; progress_bar_callback := progress_bar_callback r; lightning_module := v; train_dataloader_source_is_module := train_dataloader_source_is_module r; train_dataloader := train_dataloader r; val_dataloaders := val_dataloaders r; test_dataloaders := test_dataloaders r; predict_dataloaders := predict_dataloaders r; default_root_dir := default_root_dir r |}.

Definition set_train_dataloader (v : DataLoader) (r : Trainer) : Trainer :=
  {| fast_dev_run := fast_dev_run r; logger := logger r; callbacks := callbacks r; state_fn := state_fn r; fit_loop := fit_loop r; validate_loop := validate_loop r; test_loop := test_loop r; predict_loop := predict_loop r; limit_val_batches := limit_val_batches r; limit_test_batches := limit_test_batches r; limit_predict_batches := limit_predict_batches r; is_global_zero := is_global_zero r; progress_bar_callback := progress_bar_callback r; lightning_module := lightning_module r; train_dataloader_source_is_module := train_dataloader_source_is_module r; train_dataloader := v; val_dataloaders := val_dataloaders r; test_dataloaders := test_dataloaders r; predict_dataloaders := predict_dataloaders r; default_root_dir := default_root_dir r |}.

Definition set_val_dataloaders (v : DataLoader) (r : Trainer) : Trainer :=
  {| fast_dev_run := fast_dev_run r; logger := logger r; callbacks := callbacks r; state_fn := state_fn r; fit_loop := fit_loop r; validate_loop := validate_loop r; test_loop := test_loop r; predict_loop := predict_loop r; limit_val_batches := limit_val_batches r; limit_test_batches := limit_test_batches r; limit_predict_batches := limit_predict_batches r; is_global_zero := is_global_zero r; progress_bar_callback := progress_bar_callback r; lightning_module := lightning_module r; train_dataloader_source_is_module := train_dataloader_source_is_module r; train_dataloader := train_dataloader r; val_dataloaders := v; test_dataloaders := test_dataloaders r; predict_dataloaders := predict_dataloaders r; default_root_dir := default_root_dir r |}.

Definition set_test_dataloaders (v : DataLoader) (r : Trainer) : Trainer :=
  {| fast_dev_run := fast_dev_run r; logger := logger r; callbacks := callbacks r; state_fn := state_fn r; fit_loop := fit_loop r; validate_loop := validate_loop r; test_loop := test_loop r; predict_loop := predict_loop r; limit_val_batches := limit_val_batches r; limit_test_batches := limit_test_batches r; limit_predict_batches := limit_predict_batches r; is_global_zero := is_global_zero r; progress_bar_callback := progress_bar_callback r; lightning_module := lightning_module r; train_dataloader_source_is_module := train_dataloader_source_is_module r; train_dataloader := train_dataloader r; val_dataloaders := val_dataloaders r; test_dataloaders := v; predict_dataloaders := predict_dataloaders r; default_root_dir := default_root_dir r |}.

Definition set_predict_dataloaders (v : DataLoader) (r : Trainer) : Trainer :=
  {| fast_dev_run := fast_dev_run r; logger := logger r; callbacks := callbacks r; state_fn := state_fn r; fit_loop := fit_loop r; validate_loop := validate_loop r; test_loop := test_loop r; predict_loop := predict_loop r; limit_val_batches := limit_val_batches r; limit_test_batches := limit_test_batches r; limit_predict_batches := limit_predict_batches r; is_global_zero := is_global_zero r; progress_bar_callback := progress_bar_callback r; lightning_module := lightning_module r; train_dataloader_source_is_module := train_dataloader_source_is_module r; train_dataloader := train_dataloader r; val_dataloaders := val_dataloaders r; test_dataloaders := test_dataloaders r; predict_dataloaders := v; default_root_dir := default_root_dir r |}.


Definition set_dp_logger (v : option (option Logger)) (r : DumpedParams) : DumpedParams :=
  {| dp_logger := v; dp_callbacks := dp_callbacks r; dp_global_step := dp_global_step r; dp_max_steps := dp_max_steps r; dp_limit_val_batches := dp_limit_val_batches r; dp_limit_eval_batches := dp_limit_eval_batches r; dp_loop_state_dict := dp_loop_state_dict r; dp_loop_verbose := dp_loop_verbose r |}.

Definition set_dp_callbacks (v : option (list Callback)) (r : DumpedParams) : DumpedParams :=
  {| dp_logger := dp_logger r; dp_callbacks := v; dp_global_step := dp_global_step r; dp_max_steps := dp_max_steps r; dp_limit_val_batches := dp_limit_val_batches r; dp_limit_eval_batches := dp_limit_eval_batches r; dp_loop_state_dict := dp_loop_state_dict r; dp_loop_verbose := dp_loop_verbose r |}.

Definition set_dp_global_step (v : option Z) (r : DumpedParams) : DumpedParams :=
  {| dp_logger := dp_logger r; dp_callbacks := dp_callbacks r; dp_global_step := v; dp_max_steps := dp_max_steps r; dp_limit_val_batches := dp_limit_val_batches r; dp_limit_eval_batches := dp_limit_eval_batches r; dp_loop_state_dict := dp_loop_state_dict r; dp_loop_verbose := dp_loop_verbose r |}.

Definition set_dp_max_steps (v : option Z) (r : DumpedParams) : DumpedParams :=
  {| dp_logger := dp_logger r; dp_callbacks := dp_callbacks r; dp_global_step := dp_global_step r; dp_max_steps := v; dp_limit_val_batches := dp_limit_val_batches r; dp_limit_eval_batches := dp_limit_eval_batches r; dp_loop_state_dict := dp_loop_state_dict r; dp_loop_verbose := dp_loop_verbose r |}.

Definition set_dp_limit_val_batches (v : option Z) (r : DumpedParams) : DumpedParams :=
  {| dp_logger := dp_logger r; dp_callbacks := dp_callbacks r; dp_global_step := dp_global_step r; dp_max_steps := dp_max_steps r; dp_limit_val_batches := v; dp_limit_eval_batches := dp_limit_eval_batches r; dp_loop_state_dict := dp_loop_state_dict r; dp_loop_verbose := dp_loop_verbose r |}.

Definition set_dp_limit_eval_batches (v : option Z) (r : DumpedParams) : DumpedParams :=
  {| dp_logger := dp_logger r; dp_callbacks := dp_callbacks r; dp_global_step := dp_global_step r; dp_max_steps := dp_max_steps r; dp_limit_val_batches := dp_limit_val_batches r; dp_limit_eval_batches := v; dp_loop_state_dict := dp_loop_state_dict r; dp_loop_verbose := dp_loop_verbose r |}.

Definition set_dp_loop_state_dict (v : option LoopState) (r : DumpedParams) : DumpedParams :=
  {| dp_logger := dp_logger r; dp_callbacks := dp_callbacks r; dp_global_step := dp_global_step r; dp_max_steps := dp_max_steps r; dp_limit_val_batches := dp_limit_val_batches r; dp_limit_eval_batches := dp_limit_eval_batches r; dp_loop_state_dict := v; dp_loop_verbose := dp_loop_verbose r |}.

Definition set_dp_loop_verbose (v : option bool) (r : DumpedParams) : DumpedParams :=
  {| dp_logger := dp_logger r; dp_callbacks := dp_callbacks r; dp_global_step := dp_global_step r; dp_max_steps := dp_max_steps r; dp_limit_val_batches := dp_limit_val_batches r; dp_limit_eval_batches := dp_limit_eval_batches r; dp_loop_state_dict := dp_loop_state_dict r; dp_loop_verbose := v |}.

Definition set_optimal_batch_size (v : Z) (r : BatchSizeFinder) : BatchSizeFinder :=
  {| mode := mode r; steps_per_trial := steps_per_trial r; init_val := init_val r; max_trials := max_trials r; batch_arg_name := batch_arg_name r; optimal_batch_size := v; _early_exit := _early_exit r; _dumped_params := _dumped_params r |}.

Definition set__dumped_params (v : DumpedParams) (r : BatchSizeFinder) : BatchSizeFinder :=
  {| mode := mode r; steps_per_trial := steps_per_trial r; init_val := init_val r; max_trials := max_trials r; batch_arg_name := batch_arg_name r; optimal_batch_size := optimal_batch_size r; _early_exit := _early_exit r; _dumped_params := v |}.

Definition set_trainer (v : Trainer) (r : World) : World :=
  {| trainer := v; self := self r; fs := fs r; uuid_supply := uuid_supply r; warnings := warnings r; stdout := stdout r; trial_log := trial_log r |}.

Definition set_self (v : BatchSizeFinder) (r : World) : World :=
  {| trainer := trainer r; self := v; fs := fs r; uuid_supply := uuid_supply r; warnings := warnings r; stdout := stdout r; trial_log := trial_log r |}.

Definition set_fs (v : gmap Path Trainer) (r : World) : World :=
  {| trainer := trainer r; self := self r; fs := v; uuid_supply := uuid_supply r; warnings := warnings r; stdout := stdout r; trial_log := trial_log r |}.

Definition set_uuid_supply (v : nat) (r : World) : World :=
  {| trainer := trainer r; self := self r; fs := fs r; uuid_supply := v; warnings := warnings r; stdout := stdout r; trial_log := trial_log r |}.

Definition set_warnings (v : list Warning) (r : World) : World :=
  {| trainer := trainer r; self := self r; fs := fs r; uuid_supply := uuid_supply r; warnings := v; stdout := stdout r; trial_log := trial_log r |}.

Definition set_stdout (v : list Z) (r : World) : World :=
  {| trainer := trainer r; self := self r; fs := fs r; uuid_supply := uuid_supply r; warnings := warnings r; stdout := v; trial_log := trial_log r |}.

Definition set_trial_log (v : list Trial) (r : World) : World :=
  {| trainer := trainer r; self := self r; fs := fs r; uuid_supply := uuid_supply r; warnings := warnings r; stdout := stdout r; trial_log := v |}.

(** ** The collaborators imported by the file *)

Inductive LoaderSlot := TrainLoader | ValLoader | TestLoader | PredictLoader.

(** - [loop_run t l]: [loop.run()] on loop [l] of trainer [t]; it gives the
      loop afterwards and the exception raised, if any.  Assumption of the
      model: the run reads the trainer and writes only the loop it runs, so
      the trainer's loaders are taken as already loaded when a trial starts;
      a run that loads or replaces a loader of the trainer is outside the
      model.
    - [is_oom_error]: [pytorch_lightning.utilities.memory.is_oom_error].
    - [reset_dataloader slot t]: the loader that
      [trainer.reset_{train,val,test,predict}_dataloader(pl_module)] derives.
    - [checkpoint_restore saved t]: [trainer.checkpoint_connector.restore]
      of a checkpoint taken from [saved]. *)
Record Externals := mkExternals {
  loop_run : Trainer -> Loop -> Loop * option Exception;
  is_oom_error : Exception -> bool;
  reset_dataloader : LoaderSlot -> Trainer -> DataLoader;
  checkpoint_restore : Trainer -> Trainer -> Trainer }.

(** ** State and exceptions *)

(** A call returns normally, raises, or (only the [while True] loop, whose
    iterations are counted by a fuel argument) is cut off.  The world reached
    is kept in every case: Python does not roll assignments back. *)
Inductive Result (A : Type) :=
  | Ok (a : A) (w : World)
  | Raise (e : Exception) (w : World)
  | OutOfFuel (w : World).
Arguments Ok {A} a w.
Arguments Raise {A} e w.
Arguments OutOfFuel {A} w.

Definition M (A : Type) : Type := World -> Result A.

Definition ret {A} (a : A) : M A := fun w => Ok a w.

Definition bind {A B} (c : M A) (k : A -> M B) : M B :=
  fun w => match c w with
           | Ok a w' => k a w'
           | Raise e w' => Raise e w'
           | OutOfFuel w' => OutOfFuel w'
           end.

Definition raise {A} (e : Exception) : M A := fun w => Raise e w.

Definition out_of_fuel {A} : M A := fun w => OutOfFuel w.

(** [try: body except ...: handler]; the handler re-raises what it does not
    catch. *)
Definition try_except {A} (body : M A) (handler : Exception -> M A) : M A :=
  fun w => match body w with
           | Raise e w' => handler e w'
           | r => r
           end.

Notation "'do' x <- c ; k" := (bind c (fun x => k))
  (at level 10, x name, c at level 100, k at level 200).
Notation "'do' ' p <- c ; k" := (bind c (fun x => match x with p => k end))
  (at level 10, p pattern, c at level 100, k at level 200).

Definition get_trainer : M Trainer := fun w => Ok (trainer w) w.
Definition get_self : M BatchSizeFinder := fun w => Ok (self w) w.
Definition modify_trainer (f : Trainer -> Trainer) : M unit :=
  fun w => Ok tt (set_trainer (f (trainer w)) w).
Definition modify_self (f : BatchSizeFinder -> BatchSizeFinder) : M unit :=
  fun w => Ok tt (set_self (f (self w)) w).
Definition modify_dumped (f : DumpedParams -> DumpedParams) : M unit :=
  modify_self (fun s => set__dumped_params (f (_dumped_params s)) s).

(** [self._dumped_params[key]]. *)
Definition dumped {A} (key : string) (field : DumpedParams -> option A) : M A :=
  fun w => match field (_dumped_params (self w)) with
           | Some v => Ok v w
           | None => Raise (KeyError key) w
           end.

Definition rank_zero_warn (m : Warning) : M unit :=
  fun w => Ok tt (set_warnings (warnings w ++ [m]) w).

Definition print (n : Z) : M unit :=
  fun w => Ok tt (set_stdout (stdout w ++ [n]) w).

(** [garbage_collection_cuda()] frees device memory, which is not part of
    the world. *)
Definition garbage_collection_cuda : M unit := ret tt.

(** ** Attribute lookup on the module *)

(** Modelled from the spec: [lightning_hasattr], [lightning_getattr] and
    [lightning_setattr] of [pytorch_lightning.utilities.parsing] are not in
    the sources.  The named attribute may be declared on the module or in
    its hyperparameter collection; the lookup checks both, the directly
    declared one takes precedence for a read, and a write goes to every
    place that declares it. *)
Definition in_hparams (m : LightningModule) (name : string) : option Z :=
  match hparams m with
  | Some h => h !! name
  | None => None
  end.

Definition lightning_hasattr (m : LightningModule) (name : string) : bool :=
  bool_decide (is_Some (attrs m !! name)) || bool_decide (is_Some (in_hparams m name)).

Definition lightning_getattr (m : LightningModule) (name : string) : option Z :=
  match attrs m !! name with
  | Some v => Some v
  | None => in_hparams m name
  end.

Definition lightning_setattr (m : LightningModule) (name : string) (v : Z) : LightningModule :=
  {| attrs := match attrs m !! name with
              | Some _ => <[name := v]> (attrs m)
              | None => attrs m
              end;
     hparams := match hparams m with
                | Some h => Some (match h !! name with
                                  | Some _ => <[name := v]> h
                                  | None => h
                                  end)
                | None => None
                end |}.

(** ** The loops *)

(** Modelled from the spec: the execution-loop interface, [captureState] and
    [loadState]; the progress state of a loop is made of its internal
    counters, the epoch and the batch index among them. *)
Definition state_dict (l : Loop) : LoopState := (current_epoch l, progress l).
Definition load_state_dict (d : LoopState) (l : Loop) : Loop :=
  set_current_epoch (fst d) (set_progress (snd d) l).

(** [deepcopy] of an immutable value. *)
Definition deepcopy {A} (a : A) : A := a.

(** The local variable [loop] after the [if]/[elif] chain on
    [trainer.state.fn]; it is unbound for any other function. *)
Definition loop_of (fn : TrainerFn) (t : Trainer) : option Loop :=
  match fn with
  | FITTING => Some (fit_loop t)
  | VALIDATING => Some (validate_loop t)
  | TESTING => Some (test_loop t)
  | PREDICTING => Some (predict_loop t)
  | TUNING => None
  end.

(** Assignment through that variable (the loop object is shared with the
    trainer). *)
Definition set_loop_of (fn : TrainerFn) (l : Loop) (t : Trainer) : Trainer :=
  match fn with
  | FITTING => set_fit_loop l t
  | VALIDATING => set_validate_loop l t
  | TESTING => set_test_loop l t
  | PREDICTING => set_predict_loop l t
  | TUNING => t
  end.

Definition is_runtime_error (e : Exception) : bool :=
  match e with
  | RuntimeError _ => true
  | _ => false
  end.

Inductive Ctl := CONTINUE | BREAK.

(** The local variables of [_run_binary_scaling]. *)
Record Locals := mkLocals {
  low : Z;
  high : option Z;
  count : Z;
  new_size : Z }.

(** Truth value of [high] in [if high:]. *)
Definition truthy (h : option Z) : bool :=
  match h with
  | Some v => negb (v =? 0)
  | None => false
  end.

#[global] Instance TrainerFn_eq_dec : EqDecision TrainerFn.
Proof. solve_decision. Defined.

(** ** The methods of [BatchSizeFinder] *)

Section Methods.

Variable X : Externals.

(** In-place update of the object bound to [loop]. *)
Definition modify_loop (fn : TrainerFn) (f : Loop -> Loop) : M unit :=
  modify_trainer (fun t => match loop_of fn t with
                           | Some l => set_loop_of fn (f l) t
                           | None => t
                           end).

(** [loop.run()], with the trial recorded in [trial_log]. *)
Definition run (fn : TrainerFn) : M unit :=
  fun w =>
    match loop_of fn (trainer w) with
    | None => Raise (UnboundLocalError "loop") w
    | Some l =>
        let '(l', r) := loop_run X (trainer w) l in
        let size := lightning_getattr (lightning_module (trainer w)) (batch_arg_name (self w)) in
        let w' := set_trial_log (trial_log w ++ [(size, r)])
                    (set_trainer (set_loop_of fn l' (trainer w)) w) in
        match r with
        | None => Ok tt w'
        | Some e => Raise e w'
        end
    end.

Definition empty_dumped : DumpedParams :=
  mkDumped None None None None None None None None.

(** [trainer.global_step] and [trainer.max_steps] are the trainer's views of
    [trainer.fit_loop.global_step] and [trainer.fit_loop.max_steps]. *)
Definition _dump_params : M unit :=
  do t <- get_trainer;
  do _ <- modify_dumped (fun _ =>
            set_dp_callbacks (Some (callbacks t))
              (set_dp_logger (Some (logger t)) empty_dumped));
  do _ <- match state_fn t with
          | FITTING =>
              do _ <- modify_dumped (set_dp_global_step (Some (global_step (fit_loop t))));
              do _ <- modify_dumped (set_dp_max_steps (Some (max_steps (fit_loop t))));
              modify_dumped (set_dp_limit_val_batches (Some (limit_val_batches t)))
          | VALIDATING =>
              modify_dumped (set_dp_limit_eval_batches (Some (limit_val_batches t)))
          | TESTING =>
              modify_dumped (set_dp_limit_eval_batches (Some (limit_test_batches t)))
          | PREDICTING =>
              modify_dumped (set_dp_limit_eval_batches (Some (limit_predict_batches t)))
          | TUNING => ret tt
          end;
  match loop_of (state_fn t) t with
  | None => raise (UnboundLocalError "loop")
  | Some loop =>
      do _ <- modify_dumped (set_dp_loop_state_dict (Some (deepcopy (state_dict loop))));
      match verbose loop with
      | Some v => modify_dumped (set_dp_loop_verbose (Some v))
      | None => ret tt
      end
  end.

Definition _reset_params : M unit :=
  do s <- get_self;
  do _ <- modify_trainer (fun t =>
            set_logger (match logger t with
                        | Some _ => Some DummyLogger
                        | None => None
                        end) t);
  do _ <- modify_trainer (set_callbacks []);
  do t <- get_trainer;
  match state_fn t with
  | FITTING =>
      do _ <- modify_trainer (set_limit_val_batches (steps_per_trial s));
      modify_loop FITTING (set_max_steps (steps_per_trial s))
  | VALIDATING =>
      do _ <- modify_trainer (set_limit_val_batches (steps_per_trial s));
      modify_loop VALIDATING (set_verbose (Some false))
  | TESTING =>
      do _ <- modify_trainer (set_limit_test_batches (steps_per_trial s));
      modify_loop TESTING (set_verbose (Some false))
  | PREDICTING =>
      modify_trainer (set_limit_predict_batches (steps_per_trial s))
  | TUNING => ret tt
  end.

Definition _restore_params : M unit :=
  do lg <- dumped "logger" dp_logger;
  do _ <- modify_trainer (set_logger lg);
  do cb <- dumped "callbacks" dp_callbacks;
  do _ <- modify_trainer (set_callbacks cb);
  do t <- get_trainer;
  do _ <- match state_fn t with
          | FITTING =>
              do gs <- dumped "global_step" dp_global_step;
              do _ <- modify_loop FITTING (set_global_step gs);
              do ms <- dumped "max_steps" dp_max_steps;
              do _ <- modify_loop FITTING (set_max_steps ms);
              do lv <- dumped "limit_val_batches" dp_limit_val_batches;
              modify_trainer (set_limit_val_batches lv)
          | VALIDATING =>
              do le <- dumped "limit_eval_batches" dp_limit_eval_batches;
              modify_trainer (set_limit_val_batches le)
          | TESTING =>
              do le <- dumped "limit_eval_batches" dp_limit_eval_batches;
              modify_trainer (set_limit_test_batches le)
          | PREDICTING =>
              do le <- dumped "limit_eval_batches" dp_limit_eval_batches;
              modify_trainer (set_limit_predict_batches le)
          | TUNING => ret tt
          end;
  match loop_of (state_fn t) t with
  | None => raise (UnboundLocalError "loop")
  | Some _ =>
      do d <- dumped "loop_state_dict" dp_loop_state_dict;
      do _ <- modify_loop (state_fn t) (load_state_dict (deepcopy d));
      do s <- get_self;
      match dp_loop_verbose (_dumped_params s) with
      | Some v => modify_loop (state_fn t) (set_verbose (Some v))
      | None => ret tt
      end
  end.

Definition _try_loop_run : M unit :=
  do t <- get_trainer;
  do _ <- match state_fn t with
          | FITTING =>
              do gs <- dumped "global_step" dp_global_step;
              modify_loop FITTING (set_global_step gs)
          | _ => ret tt
          end;
  match loop_of (state_fn t) t with
  | None => raise (UnboundLocalError "loop")
  | Some _ =>
      do d <- dumped "loop_state_dict" dp_loop_state_dict;
      do _ <- modify_loop (state_fn t) (load_state_dict (deepcopy d));
      run (state_fn t)
  end.

Definition _reset_dataloaders : M unit :=
  do t <- get_trainer;
  match state_fn t with
  | FITTING =>
      do _ <- modify_trainer (fun t => set_train_dataloader (reset_dataloader X TrainLoader t) t);
      modify_trainer (fun t => set_val_dataloaders (reset_dataloader X ValLoader t) t)
  | VALIDATING =>
      modify_trainer (fun t => set_val_dataloaders (reset_dataloader X ValLoader t) t)
  | TESTING =>
      modify_trainer (fun t => set_test_dataloaders (reset_dataloader X TestLoader t) t)
  | PREDICTING =>
      modify_trainer (fun t => set_predict_dataloaders (reset_dataloader X PredictLoader t) t)
  | TUNING => ret tt
  end.

Definition _is_valid_batch_size (batch_size : Z) (dataloader : DataLoader) (t : Trainer) : bool :=
  negb (has_len_all_ranks dataloader) || (batch_size <=? len_dataloader dataloader).

(** The guard applied to a proposed size:
    [if not self._is_valid_batch_size(new_size, dataloader, trainer):
         new_size = min(new_size, len(dataloader.dataset))]. *)
Definition clamp_to_dataset (new_size : Z) (dataloader : DataLoader) (t : Trainer) : Z :=
  if negb (_is_valid_batch_size new_size dataloader t)
  then Z.min new_size (len_dataset dataloader)
  else new_size.

(** The four [if trainer.state.fn == ...] blocks of [_adjust_batch_size]. *)
Definition clamp_for_state (t : Trainer) (new_size : Z) : Z :=
  let new_size :=
    if decide (state_fn t = FITTING)
    then clamp_to_dataset new_size (train_dataloader t) t else new_size in
  let new_size :=
    if decide (state_fn t = VALIDATING)
    then clamp_to_dataset new_size (val_dataloaders t) t else new_size in
  let new_size :=
    if decide (state_fn t = TESTING)
    then clamp_to_dataset new_size (test_dataloaders t) t else new_size in
  let new_size :=
    if decide (state_fn t = PREDICTING)
    then clamp_to_dataset new_size (predict_dataloaders t) t else new_size in
  new_size.

(** The conversion of a Python [int] to a [float]: the nearest IEEE 754
    double, ties to even, given by its (integer) value.  [None] stands for
    [OverflowError], raised when the result would not be finite. *)
Definition double_of (z : Z) : option Z :=
  let n := Z.abs z in
  let e := Z.max (Z.log2 n - 52) 0 in
  let q := n / 2 ^ e in
  let r := n mod 2 ^ e in
  let q := if (2 ^ e <? 2 * r) || ((2 * r =? 2 ^ e) && Z.odd q) then q + 1 else q in
  let m := q * 2 ^ e in
  if m <? 2 ^ 1024 then Some (Z.sgn z * m) else None.

(** [int(batch_size * factor)] for an [int] and a [float] whose value is
    the integer [factor] ([1.0] or [2.0] in the source): the [int] is
    converted, the product is rounded to a double, and [int()] gives its
    value back.  A product that overflows is infinite, and [int()] of it
    raises [OverflowError] as the conversion of too large an [int] does. *)
Definition int_of_product (batch_size factor : Z) : option Z :=
  match double_of batch_size with
  | Some x => double_of (x * factor)
  | None => None
  end.

(** [value if value is not None else int(batch_size * factor)]. *)
Definition requested_size (value : option Z) (batch_size factor : Z) : option Z :=
  match value with
  | Some v => Some v
  | None => int_of_product batch_size factor
  end.

(** [desc] only selects the text of an informational message. *)
Definition _adjust_batch_size (factor : Z) (value : option Z) (desc : option string)
  : M (Z * bool) :=
  do t <- get_trainer;
  do s <- get_self;
  let model := lightning_module t in
  match lightning_getattr model (batch_arg_name s) with
  | None => raise (AttributeError (batch_arg_name s))
  | Some batch_size =>
      match requested_size value batch_size factor with
      | None => raise OverflowError
      | Some new_size =>
          let new_size := clamp_for_state t new_size in
          let changed := negb (new_size =? batch_size) in
          do _ <- modify_trainer (set_lightning_module
                                    (lightning_setattr model (batch_arg_name s) new_size));
          ret (new_size, changed)
      end
  end.

(** One iteration of the [for] loop of [_run_power_scaling]. *)
Definition power_body (new_size : Z) : M (Z * Ctl) :=
  do _ <- garbage_collection_cuda;
  try_except
    (do _ <- _try_loop_run;
     do '(new_size, changed) <- _adjust_batch_size 2 None (Some "succeeded");
     if changed : bool then
       do _ <- _reset_dataloaders;
       ret (new_size, CONTINUE)
     else ret (new_size, BREAK))
    (fun exception =>
       if is_runtime_error exception then
         if is_oom_error X exception then
           do _ <- garbage_collection_cuda;
           do '(new_size, _) <- _adjust_batch_size 1 None None;
           ret (new_size, BREAK)
         else raise exception
       else raise exception).

Fixpoint power_loop (n : nat) (new_size : Z) : M Z :=
  match n with
  | O => ret new_size
  | S n' =>
      do '(new_size, ctl) <- power_body new_size;
      match ctl with
      | BREAK => ret new_size
      | CONTINUE => power_loop n' new_size
      end
  end.

Definition _run_power_scaling (new_size : Z) : M Z :=
  do s <- get_self;
  power_loop (Z.to_nat (max_trials s)) new_size.

(** One iteration of the [while True] loop of [_run_binary_scaling].  Only
    [loop.run()] raises a [RuntimeError], so the handler sees the local
    variables as they were when the [try] was entered. *)
Definition binary_body (v : Locals) : M (Locals * Ctl) :=
  do _ <- garbage_collection_cuda;
  do s <- get_self;
  let after_adjust (low : Z) (count : Z) (r : Z * bool) : M (Locals * Ctl) :=
    let '(new_size, changed) := r in
    if changed then
      do _ <- _reset_dataloaders;
      ret (mkLocals low (high v) count new_size, CONTINUE)
    else ret (mkLocals low (high v) count new_size, BREAK) in
  try_except
    (do _ <- _try_loop_run;
     let count := count v + 1 in
     if count >? max_trials s then ret (mkLocals (low v) (high v) count (new_size v), BREAK)
     else
       let low := new_size v in
       if truthy (high v) then
         let h := default 0 (high v) in
         if h - low <=? 1 then ret (mkLocals low (high v) count (new_size v), BREAK)
         else
           let midval := (h + low) / 2 in
           do r <- _adjust_batch_size 1 (Some midval) (Some "succeeded");
           after_adjust low count r
       else
         do r <- _adjust_batch_size 2 None (Some "succeeded");
         after_adjust low count r)
    (fun exception =>
       if is_runtime_error exception then
         if is_oom_error X exception then
           do _ <- garbage_collection_cuda;
           let high := new_size v in
           let midval := (high + low v) / 2 in
           do '(new_size, changed) <- _adjust_batch_size 1 (Some midval) (Some "failed");
           do _ <- (if changed : bool then _reset_dataloaders else ret tt);
           if high - low v <=? 1
           then ret (mkLocals (low v) (Some high) (count v) new_size, BREAK)
           else ret (mkLocals (low v) (Some high) (count v) new_size, CONTINUE)
         else raise exception
       else raise exception).

(** The [while True] loop; [fuel] bounds the number of iterations run. *)
Fixpoint binary_loop (fuel : nat) (v : Locals) : M Locals :=
  match fuel with
  | O => out_of_fuel
  | S fuel' =>
      do '(v', ctl) <- binary_body v;
      match ctl with
      | BREAK => ret v'
      | CONTINUE => binary_loop fuel' v'
      end
  end.

Definition _run_binary_scaling (fuel : nat) (new_size : Z) : M Z :=
  do v <- binary_loop fuel (mkLocals 1 None 0 new_size);
  let 'mkLocals _ _ _ result := v in
  ret result.

(** [uuid.uuid4()]. *)
Definition uuid4 : M nat :=
  fun w => Ok (uuid_supply w) (set_uuid_supply (S (uuid_supply w)) w).

(** [trainer.save_checkpoint(save_path)]: the file holds the trainer as it
    is now. *)
Definition save_checkpoint (save_path : Path) : M unit :=
  fun w => Ok tt (set_fs (<[save_path := trainer w]> (fs w)) w).

(** [trainer.checkpoint_connector.restore(save_path)]. *)
Definition checkpoint_connector_restore (save_path : Path) : M unit :=
  fun w => match fs w !! save_path with
           | Some saved => Ok tt (set_trainer (checkpoint_restore X saved (trainer w)) w)
           | None => Raise FileNotFoundError w
           end.

(** [if fs.exists(save_path): fs.rm(save_path)]. *)
Definition remove_if_exists (save_path : Path) : M unit :=
  fun w => match fs w !! save_path with
           | Some _ => Ok tt (set_fs (delete save_path (fs w)) w)
           | None => Ok tt w
           end.

(** [trainer.progress_bar_callback.disable()] / [.enable()], when there is a
    progress bar. *)
Definition progress_bar_set (enabled : bool) : M unit :=
  modify_trainer (fun t => match progress_bar_callback t with
                           | Some _ => set_progress_bar_callback (Some enabled) t
                           | None => t
                           end).

(** [hasattr(pl_module, name) and hasattr(pl_module, "hparams") and name in pl_module.hparams]. *)
Definition declared_twice (m : LightningModule) (name : string) : bool :=
  bool_decide (is_Some (attrs m !! name)) && bool_decide (is_Some (in_hparams m name)).

(** [scale_batch_size], from the dump of the parameters to the first
    assignment of the batch size. *)
Definition prepare_search : M (Path * Z) :=
  do t <- get_trainer;
  do s <- get_self;
  do _ <- _dump_params;
  do _ <- _reset_params;
  do u <- uuid4;
  let save_path := (default_root_dir t, u) in
  do _ <- save_checkpoint save_path;
  do _ <- progress_bar_set false;
  do '(new_size, _) <- _adjust_batch_size 1 (Some (init_val s)) None;
  ret (save_path, new_size).

(** [if self.mode == "power": ... elif self.mode == "binsearch": ...]. *)
Definition run_search (fuel : nat) (new_size : Z) : M Z :=
  do s <- get_self;
  if String.eqb (mode s) "power" then _run_power_scaling new_size
  else if String.eqb (mode s) "binsearch" then _run_binary_scaling fuel new_size
  else ret new_size.

(** [if trainer.is_global_zero: ...]: restore the checkpoint and remove its
    file. *)
Definition reload_checkpoint (save_path : Path) : M unit :=
  do t <- get_trainer;
  if is_global_zero t then
    do _ <- checkpoint_connector_restore save_path;
    remove_if_exists save_path
  else ret tt.

(** [trainer.fit_loop.global_step -= 1; trainer.fit_loop.current_epoch -= 1]. *)
Definition decrement_counters : M unit :=
  do _ <- modify_loop FITTING (fun l => set_global_step (global_step l - 1) l);
  modify_loop FITTING (fun l => set_current_epoch (current_epoch l - 1) l).

Definition scale_batch_size (fuel : nat) : M unit :=
  do t <- get_trainer;
  do s <- get_self;
  let pl_module := lightning_module t in
  if fast_dev_run t then rank_zero_warn SkippingFastDevRun
  else if negb (lightning_hasattr pl_module (batch_arg_name s))
  then raise (MisconfigurationException (FieldNotFound (batch_arg_name s)))
  else if negb (lightning_hasattr pl_module (batch_arg_name s))
  then raise (MisconfigurationException (FieldNotFound (batch_arg_name s)))
  else
    do _ <- (if declared_twice pl_module (batch_arg_name s)
             then rank_zero_warn (MutuallyExclusiveFields (batch_arg_name s))
             else ret tt);
    if negb (train_dataloader_source_is_module t)
    then raise (MisconfigurationException DataloadersPassedDirectly)
    else
      do '(save_path, new_size) <- prepare_search;
      do new_size <- run_search fuel new_size;
      do _ <- garbage_collection_cuda;
      do _ <- reload_checkpoint save_path;
      do _ <- decrement_counters;
      do _ <- _restore_params;
      do _ <- progress_bar_set true;
      do _ <- print new_size;
      do _ <- modify_self (set_optimal_batch_size new_size);
      if _early_exit s then raise _TunerExitException else ret tt.

End Methods.

(** ** A simulated trainer

    The set-up of the end-to-end scenarios: a module that declares
    [batch_size], a map-style dataset of [n] samples behind standard loaders,
    and a trial that runs out of memory exactly when the batch size exceeds
    a threshold [T]. *)

Definition cuda_oom : Exception := RuntimeError "CUDA out of memory.".

Definition sim_is_oom_error (e : Exception) : bool :=
  match e with
  | RuntimeError args => String.eqb args "CUDA out of memory."
  | _ => false
  end.

(** A standard loader over [n] samples with batch size [b] and
    [drop_last=False]: it has [ceil(n / b)] batches. *)
Definition torch_loader (n b : Z) : DataLoader :=
  mkDataLoader true ((n + b - 1) / b) n.

Definition sim_batch_size (t : Trainer) : Z :=
  default 1 (lightning_getattr (lightning_module t) "batch_size").

(** [sim_run fault T]: the trial raises [fault] when one is given, and
    otherwise runs out of memory exactly above [T]. *)
Definition sim_run (fault : option Exception) (T : Z) (t : Trainer) (l : Loop)
  : Loop * option Exception :=
  (l, match fault with
      | Some e => Some e
      | None => if T <? sim_batch_size t then Some cuda_oom else None
      end).

(** Restoring a checkpoint brings back the saved fit loop with its step and
    epoch counters one further, as the comment in [scale_batch_size] says. *)
Definition sim_checkpoint_restore (saved t : Trainer) : Trainer :=
  set_fit_loop
    (set_current_epoch (current_epoch (fit_loop saved) + 1)
       (set_global_step (global_step (fit_loop saved) + 1) (fit_loop saved))) t.

Definition simulated (fault : option Exception) (T n : Z) : Externals :=
  {| loop_run := sim_run fault T;
     is_oom_error := sim_is_oom_error;
     reset_dataloader := fun _ t => torch_loader n (sim_batch_size t);
     checkpoint_restore := sim_checkpoint_restore |}.

Definition sim_trainer (fn : TrainerFn) (n b0 : Z) : Trainer :=
  {| fast_dev_run := false;
     logger := Some (UserLogger 7);
     callbacks := [1; 2; 3]%nat;
     state_fn := fn;
     fit_loop := mkLoop [0; 0] None 0 0 (-1);
     validate_loop := mkLoop [0] (Some true) 0 0 0;
     test_loop := mkLoop [0] (Some true) 0 0 0;
     predict_loop := mkLoop [0] None 0 0 0;
     limit_val_batches := 50;
     limit_test_batches := 50;
     limit_predict_batches := 50;
     is_global_zero := true;
     progress_bar_callback := Some true;
     lightning_module := mkModule {[ "batch_size" := b0 ]} None;
     train_dataloader_source_is_module := true;
     train_dataloader := torch_loader n b0;
     val_dataloaders := torch_loader n b0;
     test_dataloaders := torch_loader n b0;
     predict_dataloaders := torch_loader n b0;
     default_root_dir := "/tmp" |}.

(** [BatchSizeFinder(mode, steps_per_trial, init_val, max_trials)]. *)
Definition new_finder (mode : string) (steps_per_trial init_val max_trials : Z)
  : BatchSizeFinder :=
  mkFinder mode steps_per_trial init_val max_trials "batch_size" init_val false
    (mkDumped None None None None None None None None).

Definition sim_world (fn : TrainerFn) (n b0 : Z) (f : BatchSizeFinder) : World :=
  mkWorld (sim_trainer fn n b0) f ∅ 0%nat [] [] [].

(** What an observer reads off a finished call. *)
Definition world_of {A} (r : Result A) : World :=
  match r with
  | Ok _ w => w
  | Raise _ w => w
  | OutOfFuel w => w
  end.

Definition batch_size_of (w : World) : option Z :=
  lightning_getattr (lightning_module (trainer w)) (batch_arg_name (self w)).

Definition returned {A} (r : Result A) : option A :=
  match r with
  | Ok a _ => Some a
  | _ => None
  end.

Definition raised {A} (r : Result A) : option Exception :=
  match r with
  | Raise e _ => Some e
  | _ => None
  end.

(** ** Vocabulary of the statements *)

(** The loader that [_adjust_batch_size] consults for the running function. *)
Definition active_dataloader (t : Trainer) : option DataLoader :=
  match state_fn t with
  | FITTING => Some (train_dataloader t)
  | VALIDATING => Some (val_dataloaders t)
  | TESTING => Some (test_dataloaders t)
  | PREDICTING => Some (predict_dataloaders t)
  | TUNING => None
  end.

(** The clamp as the specification words it: with a known length, a
    candidate above the dataset size becomes the dataset size; anything else
    is returned unchanged. *)
Definition spec_clamp (candidate dataset_size : Z) (length_is_known : bool) : Z :=
  if length_is_known && (dataset_size <? candidate) then dataset_size else candidate.

(** A loader whose batches are drawn from an oversampling sampler: 1000
    batches of one sample over a dataset of 100 samples. *)
Definition oversampling_loader : DataLoader := mkDataLoader true 1000 100.

(** The world with the parts that a trial may touch blanked: the loop of the
    running function and the record of trials.  Two worlds with the same
    image differ at most there. *)
Definition neutral_loop : Loop := mkLoop [] None 0 0 0.

Definition outside_trial (w : World) : World :=
  set_trial_log []
    (set_trainer (set_loop_of (state_fn (trainer w)) neutral_loop (trainer w)) w).

(** The same with everything a search may touch blanked: also the module's
    attributes and the data loaders. *)
Definition neutral_loader : DataLoader := mkDataLoader false 0 0.

Definition outside_search (w : World) : World :=
  let w := outside_trial w in
  set_trainer
    (set_lightning_module (mkModule ∅ None)
       (set_train_dataloader neutral_loader
          (set_val_dataloaders neutral_loader
             (set_test_dataloaders neutral_loader
                (set_predict_dataloaders neutral_loader (trainer w)))))) w.

(** An exception that the search consumes as a signal: a [RuntimeError]
    that [is_oom_error] recognises. *)
Definition memory_exhaustion (X : Externals) (e : Exception) : bool :=
  is_runtime_error e && is_oom_error X e.

(** The world after [lightning_setattr(model, self.batch_arg_name, size)]. *)
Definition with_batch_size (size : Z) (w : World) : World :=
  set_trainer
    (set_lightning_module
       (lightning_setattr (lightning_module (trainer w)) (batch_arg_name (self w)) size)
       (trainer w)) w.

(** The trainer after [_reset_dataloaders]. *)
Definition reloaded (X : Externals) (t : Trainer) : Trainer :=
  match state_fn t with
  | FITTING =>
      let t1 := set_train_dataloader (reset_dataloader X TrainLoader t) t in
      set_val_dataloaders (reset_dataloader X ValLoader t1) t1
  | VALIDATING => set_val_dataloaders (reset_dataloader X ValLoader t) t
  | TESTING => set_test_dataloaders (reset_dataloader X TestLoader t) t
  | PREDICTING => set_predict_dataloaders (reset_dataloader X PredictLoader t) t
  | TUNING => t
  end.

(** A computation preserves an observation [f] of the world when [f] reads
    the same before the call and after it, however the call ends. *)
Definition preserves {A B} (f : World -> A) (c : M B) : Prop :=
  forall w, f (world_of (c w)) = f w.

(** Number of trials in a log that ran without an exception. *)
Definition succeeded (tr : Trial) : bool :=
  match snd tr with
  | None => true
  | Some _ => false
  end.

Definition successes (l : list Trial) : Z :=
  Z.of_nat (length (List.filter succeeded l)).

(** [continues_with r P]: if the iteration [r] ends with [continue], its
    local variables satisfy [P]. *)
Definition continues_with (r : Result (Locals * Ctl)) (P : Locals -> Prop) : Prop :=
  match r with
  | Ok (v, CONTINUE) _ => P v
  | _ => True
  end.

(** The world in which the search proper starts: the guards of
    [scale_batch_size] have passed, with a warning when the field is
    declared twice. *)
Definition after_guards (w : World) : World :=
  if declared_twice (lightning_module (trainer w)) (batch_arg_name (self w))
  then set_warnings (warnings w ++ [MutuallyExclusiveFields (batch_arg_name (self w))]) w
  else w.

(** The logger during the trials. *)
Definition quiet_logger (l : option Logger) : option Logger :=
  match l with
  | Some _ => Some DummyLogger
  | None => None
  end.

(** The limit on evaluation batches that [_reset_params] sets for the
    running function. *)
Definition active_limit (t : Trainer) : option Z :=
  match state_fn t with
  | FITTING | VALIDATING => Some (limit_val_batches t)
  | TESTING => Some (limit_test_batches t)
  | PREDICTING => Some (limit_predict_batches t)
  | TUNING => None
  end.

(** [scale_batch_size] up to the end of the search. *)
Definition search_phase (X : Externals) (fuel : nat) : M (Path * Z) :=
  do '(save_path, new_size) <- prepare_search;
  do new_size <- run_search X fuel new_size;
  ret (save_path, new_size).

(** A world in which [_try_loop_run] finds what it reads: a loop for the
    running function and the dumped loop state (and step, when fitting). *)
Definition ready_for_trials (w : World) : Prop :=
  state_fn (trainer w) <> TUNING
  /\ is_Some (dp_loop_state_dict (_dumped_params (self w)))
  /\ (state_fn (trainer w) = FITTING -> is_Some (dp_global_step (_dumped_params (self w)))).

(** The dictionary that [_dump_params] builds from a trainer. *)
Definition dumped_of (t : Trainer) : DumpedParams :=
  match state_fn t with
  | FITTING =>
      mkDumped (Some (logger t)) (Some (callbacks t))
        (Some (global_step (fit_loop t))) (Some (max_steps (fit_loop t)))
        (Some (limit_val_batches t)) None
        (Some (state_dict (fit_loop t))) (verbose (fit_loop t))
  | VALIDATING =>
      mkDumped (Some (logger t)) (Some (callbacks t)) None None None
        (Some (limit_val_batches t))
        (Some (state_dict (validate_loop t))) (verbose (validate_loop t))
  | TESTING =>
      mkDumped (Some (logger t)) (Some (callbacks t)) None None None
        (Some (limit_test_batches t))
        (Some (state_dict (test_loop t))) (verbose (test_loop t))
  | PREDICTING =>
      mkDumped (Some (logger t)) (Some (callbacks t)) None None None
        (Some (limit_predict_batches t))
        (Some (state_dict (predict_loop t))) (verbose (predict_loop t))
  | TUNING =>
      mkDumped (Some (logger t)) (Some (callbacks t)) None None None None None None
  end.

(** The trainer in the configuration of the trials, as [_reset_params]
    leaves it. *)
Definition quieted (steps : Z) (t : Trainer) : Trainer :=
  let t := set_callbacks [] (set_logger (quiet_logger (logger t)) t) in
  match state_fn t with
  | FITTING =>
      set_fit_loop (set_max_steps steps (fit_loop t)) (set_limit_val_batches steps t)
  | VALIDATING =>
      set_validate_loop (set_verbose (Some false) (validate_loop t))
        (set_limit_val_batches steps t)
  | TESTING =>
      set_test_loop (set_verbose (Some false) (test_loop t))
        (set_limit_test_batches steps t)
  | PREDICTING => set_limit_predict_batches steps t
  | TUNING => t
  end.

(** The world that [prepare_search] reaches. *)
Definition prepared (w : World) : World :=
  let t1 := quieted (steps_per_trial (self w)) (trainer w) in
  let save_path := (default_root_dir (trainer w), uuid_supply w) in
  let t2 := match progress_bar_callback t1 with
            | Some _ => set_progress_bar_callback (Some false) t1
            | None => t1
            end in
  with_batch_size (clamp_for_state (trainer w) (init_val (self w)))
    (set_trainer t2
       (set_fs (<[save_path := t1]> (fs w))
          (set_uuid_supply (S (uuid_supply w))
             (set_self (set__dumped_params (dumped_of (trainer w)) (self w)) w)))).

(** The trial oracle of the search properties: on every trainer whose module
    holds a batch size [b >= from], the trial runs to completion when
    [b <= T] and raises a recognised memory exhaustion when [b > T]. *)
Definition fails_above (X : Externals) (name : string) (from T : Z) : Prop :=
  forall (t : Trainer) (l : Loop) (b : Z),
    lightning_getattr (lightning_module t) name = Some b ->
    from <= b ->
    (b <= T -> snd (loop_run X t l) = None)
    /\ (T < b -> exists e, snd (loop_run X t l) = Some e
                           /\ memory_exhaustion X e = true).

(** A loader that does not hold the search below [T]: its length is unknown,
    or its dataset has more than [T] samples. *)
Definition roomy (T : Z) (d : DataLoader) : Prop :=
  has_len_all_ranks d = false \/ T < len_dataset d.

Definition roomy_trainer (T : Z) (t : Trainer) : Prop :=
  exists d, active_dataloader t = Some d /\ roomy T d.

Definition roomy_reloads (X : Externals) (T : Z) : Prop :=
  forall slot t, roomy T (reset_dataloader X slot t).

(** The local variables on termination of a converged binary search. *)
Definition converged_at (T : Z) (v : Locals) : Prop :=
  new_size v = T /\ low v = T /\ high v = Some (T + 1).

(** The trials added to a log all ran at sizes above [lo], and those that
    succeeded ran at sizes within [T]. *)
Definition trials_above (T lo : Z) (before after : list Trial) : Prop :=
  exists added,
    after = before ++ added
    /\ Forall (fun tr => exists b, fst tr = Some b /\ lo < b
                                  /\ (succeeded tr = true -> b <= T)) added.

(** What the iterations of a search keep: the trial can run, the module
    holds the size [b], the loader in use is roomy, and the finder's settings
    are those of [s0]. *)
Definition search_state (T : Z) (s0 : BatchSizeFinder) (b : Z) (w : World) : Prop :=
  ready_for_trials w
  /\ batch_size_of w = Some b
  /\ roomy_trainer T (trainer w)
  /\ batch_arg_name (self w) = batch_arg_name s0
  /\ max_trials (self w) = max_trials s0.

(** Successful trials that a bisection between [lo] and [hi] may still
    need: no more than the sizes left below the threshold [T], and no more
    than the halvings of the gap. *)
Definition budget (T lo hi : Z) : Z :=
  Z.min (T - lo) (Z.log2_up (hi - lo)).

(** Successful trials that the doubling phase may still need from the size
    [b], bisection included. *)
Definition doubling_budget (T b : Z) : Z :=
  (if b <=? T then Z.log2 T - Z.log2 b + 1 else 0) + Z.log2_up T.

(** ** Construction and hooks *)

(** [str.lower()] on the letters [A]..[Z]; the other bytes are kept.  A
    string with a character outside ASCII is not equal to a supported mode
    before or after lowering, here as in Python. *)
Definition lower_ascii (c : Ascii.ascii) : Ascii.ascii :=
  let n := Ascii.nat_of_ascii c in
  if ((65 <=? n) && (n <=? 90))%nat then Ascii.ascii_of_nat (n + 32) else c.

Fixpoint lower (s : string) : string :=
  match s with
  | EmptyString => EmptyString
  | String c s' => String (lower_ascii c) (lower s')
  end.

Definition supported_modes : list string := ["power"; "binsearch"].

(** The [MisconfigurationException] of the constructor,
    [`mode` should be one of ('power', 'binsearch')]: its message names the
    supported modes. *)
Inductive ModeError := UnsupportedMode (supported : list string).

(** [BatchSizeFinder.__init__]. *)
Definition __init__ (mode : string) (steps_per_trial init_val max_trials : Z)
    (batch_arg_name : string) : ModeError + BatchSizeFinder :=
  let mode := lower mode in
  if negb (existsb (String.eqb mode) supported_modes)
  then inl (UnsupportedMode supported_modes)
  else inr {| mode := mode;
              steps_per_trial := steps_per_trial;
              init_val := init_val;
              max_trials := max_trials;
              batch_arg_name := batch_arg_name;
              optimal_batch_size := init_val;
              _early_exit := false;
              _dumped_params := mkDumped None None None None None None None None |}.

Definition on_fit_start (X : Externals) (fuel : nat) : M unit :=
  scale_batch_size X fuel.

(** [sanity_checking] is [trainer.sanity_checking], which the trainer
    derives from its stage. *)
Definition on_validation_start (X : Externals) (fuel : nat) (sanity_checking : bool)
  : M unit :=
  do t <- get_trainer;
  if sanity_checking || negb (bool_decide (state_fn t = VALIDATING))
  then ret tt
  else scale_batch_size X fuel.

Definition on_test_start (X : Externals) (fuel : nat) : M unit :=
  scale_batch_size X fuel.

Definition on_predict_start (X : Externals) (fuel : nat) : M unit :=
  scale_batch_size X fuel.


(** The key that [_try_loop_run] reads first. *)
Definition first_key_of_trial (fn : TrainerFn) : string :=
  match fn with
  | FITTING => "global_step"
  | _ => "loop_state_dict"
  end.



(** A loader of known length that offers no more than [N] batches over no
    more than [N] samples, as any standard loader over [N] samples does. *)
Definition capped (N : Z) (d : DataLoader) : Prop :=
  has_len_all_ranks d = true /\ len_dataloader d <= N /\ len_dataset d <= N.

Definition capped_trainer (N : Z) (t : Trainer) : Prop :=
  exists d, active_dataloader t = Some d /\ capped N d.

Definition capped_reloads (X : Externals) (N : Z) : Prop :=
  forall slot t, capped N (reset_dataloader X slot t).

(** A trial that ran at a batch size of at most [N]. *)
Definition within (N : Z) (tr : Trial) : Prop :=
  exists b, fst tr = Some b /\ b <= N.

(** [keeps I c]: the call [c] takes a world where [I] holds to one where
    [I] holds, however it ends. *)
Definition keeps {A} (I : World -> Prop) (c : M A) : Prop :=
  forall w, I w -> I (world_of (c w)).

(** The loader in use is capped by [N], the module holds a size of at most
    [N], and every trial so far ran at a size of at most [N]. *)
Definition capped_search (N : Z) (w : World) : Prop :=
  capped_trainer N (trainer w)
  /\ (exists b, batch_size_of w = Some b /\ b <= N)
  /\ Forall (within N) (trial_log w).





(** What the iterations of the binary search keep when memory runs out
    exactly above [T]: [low] is a size that fits, [high], once set, is one
    that does not, and the module holds the size to try next. *)
Definition bracketing (T : Z) (s0 : BatchSizeFinder) (v : Locals) (w : World) : Prop :=
  search_state T s0 (new_size v) w
  /\ 1 <= low v <= T
  /\ 1 <= new_size v
  /\ (forall h, high v = Some h -> T < h).

(** The outcome of a search that, if it ends, ends on a size within
    [1 .. T] that the module holds; it does not raise. *)
Definition fits_within {A} (T : Z) (size : A -> Z) (r : Result A) : Prop :=
  match r with
  | Ok a w' => 1 <= size a <= T /\ batch_size_of w' = Some (size a)
  | Raise _ _ => False
  | OutOfFuel _ => True
  end.

(** The size that [_adjust_batch_size] is asked for when the float
    arithmetic is exact: [value], or the product. *)
Definition asked (value : option Z) (b factor : Z) : Z :=
  match value with
  | Some v => v
  | None => b * factor
  end.

(** The trainer after everything the snapshot of its run mode holds was
    overwritten: the logger, the callbacks, the limit of the mode, the step
    and the step budget when fitting, the progress state of the running
    loop (epoch [ep] and counters [pr]), and its verbosity when it has
    one. *)
Definition overwritten (lg : option Logger) (cb : list Callback) (lim gs ms ep : Z)
    (pr : list Z) (vb : bool) (t : Trainer) : Trainer :=
  let touch (l : Loop) : Loop :=
    load_state_dict (ep, pr)
      (match verbose l with
       | Some _ => set_verbose (Some vb) l
       | None => l
       end) in
  let t := set_callbacks cb (set_logger lg t) in
  match state_fn t with
  | FITTING =>
      set_limit_val_batches lim
        (set_fit_loop (set_max_steps ms (set_global_step gs (touch (fit_loop t)))) t)
  | VALIDATING =>
      set_limit_val_batches lim (set_validate_loop (touch (validate_loop t)) t)
  | TESTING =>
      set_limit_test_batches lim (set_test_loop (touch (test_loop t)) t)
  | PREDICTING =>
      set_limit_predict_batches lim (set_predict_loop (touch (predict_loop t)) t)
  | TUNING => t
  end.

(** * Properties *)

(** ** The state and exception monad *)

Lemma bind_Ok {A B} (c : M A) (k : A -> M B) w a w' :
  c w = Ok a w' -> bind c k w = k a w'.
Proof. unfold bind. intros ->. reflexivity. Qed.

Lemma bind_Raise {A B} (c : M A) (k : A -> M B) w e w' :
  c w = Raise e w' -> bind c k w = Raise e w'.
Proof. unfold bind. intros ->. reflexivity. Qed.

Lemma bind_OutOfFuel {A B} (c : M A) (k : A -> M B) w w' :
  c w = OutOfFuel w' -> bind c k w = OutOfFuel w'.
Proof. unfold bind. intros ->. reflexivity. Qed.

(** ** The batch-size guard *)

Lemma clamp_unknown_length new_size dl t :
  has_len_all_ranks dl = false -> clamp_to_dataset new_size dl t = new_size.
Proof. unfold clamp_to_dataset, _is_valid_batch_size. intros ->. reflexivity. Qed.

Lemma clamp_known_length new_size dl t :
  has_len_all_ranks dl = true ->
  clamp_to_dataset new_size dl t =
    if new_size <=? len_dataloader dl then new_size
    else Z.min new_size (len_dataset dl).
Proof.
  unfold clamp_to_dataset, _is_valid_batch_size. intros ->. cbn.
  destruct (new_size <=? len_dataloader dl); reflexivity.
Qed.

Lemma clamp_for_state_active t dl new_size :
  active_dataloader t = Some dl ->
  clamp_for_state t new_size = clamp_to_dataset new_size dl t.
Proof.
  unfold active_dataloader, clamp_for_state.
  destruct (state_fn t); intros [= <-]; reflexivity.
Qed.

(** C5, as the code has it.  With an unknown length every candidate is
    accepted unchanged.  With a known length the candidate is compared with
    the number of batches of the loader: a candidate within it is accepted
    unchanged, any other becomes the smaller of the candidate and the dataset
    size.  So, for every loader that has no more batches than its dataset has
    samples, the guard is the clamp of the specification: a candidate above
    the dataset size becomes the dataset size and any other is unchanged. *)
Theorem clamp_to_dataset_spec (candidate : Z) (dl : DataLoader) (t : Trainer) :
  (has_len_all_ranks dl = false -> clamp_to_dataset candidate dl t = candidate)
  /\ (has_len_all_ranks dl = true -> candidate <= len_dataloader dl ->
      clamp_to_dataset candidate dl t = candidate)
  /\ (has_len_all_ranks dl = true -> len_dataloader dl < candidate ->
      clamp_to_dataset candidate dl t = Z.min candidate (len_dataset dl))
  /\ (len_dataloader dl <= len_dataset dl ->
      clamp_to_dataset candidate dl t =
        spec_clamp candidate (len_dataset dl) (has_len_all_ranks dl)).
Proof.
  repeat split.
  - apply clamp_unknown_length.
  - intros Hk Hle. rewrite clamp_known_length by assumption.
    destruct (Z.leb_spec candidate (len_dataloader dl)); [reflexivity | lia].
  - intros Hk Hlt. rewrite clamp_known_length by assumption.
    destruct (Z.leb_spec candidate (len_dataloader dl)); [lia | reflexivity].
  - intros Hle. unfold spec_clamp.
    destruct (has_len_all_ranks dl) eqn:Hk.
    + rewrite clamp_known_length by assumption. cbn.
      destruct (Z.leb_spec candidate (len_dataloader dl));
        destruct (Z.ltb_spec (len_dataset dl) candidate); lia.
    + rewrite clamp_unknown_length by assumption. reflexivity.
Qed.

Lemma clamp_to_dataset_spec_witness :
  clamp_to_dataset 128 (torch_loader 100 64) (sim_trainer FITTING 100 64) = 100
  /\ clamp_to_dataset 48 (torch_loader 100 64) (sim_trainer FITTING 100 64) = 48.
Proof.
  split.
  - rewrite (proj2 (proj2 (proj2 (clamp_to_dataset_spec 128 (torch_loader 100 64)
                                    (sim_trainer FITTING 100 64))))).
    + reflexivity.
    + vm_compute. discriminate.
  - rewrite (proj2 (proj2 (proj2 (clamp_to_dataset_spec 48 (torch_loader 100 64)
                                    (sim_trainer FITTING 100 64))))).
    + reflexivity.
    + vm_compute. discriminate.
Defined.

(** C5 as stated fails: the length is known, the candidate 200 exceeds the
    dataset size 100, and the guard returns 200, because the loader counts
    1000 batches. *)
Lemma clamp_ignores_dataset_size :
  has_len_all_ranks oversampling_loader = true
  /\ len_dataset oversampling_loader < 200
  /\ clamp_to_dataset 200 oversampling_loader (sim_trainer FITTING 100 1) = 200
  /\ clamp_to_dataset 200 oversampling_loader (sim_trainer FITTING 100 1)
     <> len_dataset oversampling_loader
  /\ spec_clamp 200 (len_dataset oversampling_loader) true = 100
  /\ returned (_adjust_batch_size 1 (Some 200) None
                 (set_trainer
                    (set_train_dataloader oversampling_loader (sim_trainer FITTING 100 2))
                    (sim_world FITTING 100 2 (new_finder "power" 1 2 25))))
     = Some (200, true).
Proof. vm_compute. repeat split. discriminate. Qed.

(** ** Dry runs *)

(** C8: with [fast_dev_run] set, [scale_batch_size] returns at once; the
    only thing it changes is the list of warnings, which gains the notice
    that the scaler is skipped.  No trial runs, no parameter is dumped, no
    checkpoint is written, and the trainer is the same. *)
Theorem fast_dev_run_skips (X : Externals) (fuel : nat) (w : World) :
  fast_dev_run (trainer w) = true ->
  scale_batch_size X fuel w
  = Ok tt (set_warnings (warnings w ++ [SkippingFastDevRun]) w).
Proof.
  intros H. unfold scale_batch_size, bind, get_trainer, get_self. cbn.
  rewrite H. reflexivity.
Qed.

Lemma fast_dev_run_skips_witness :
  let w := set_trainer (set_fast_dev_run true (sim_trainer FITTING 100 2))
             (sim_world FITTING 100 2 (new_finder "power" 1 2 25)) in
  let w' := world_of (scale_batch_size (simulated None 33 100) 100 w) in
  trainer w' = trainer w /\ self w' = self w /\ fs w' = fs w
  /\ trial_log w' = [] /\ warnings w' = [SkippingFastDevRun].
Proof.
  intros w w'. subst w'.
  rewrite (fast_dev_run_skips (simulated None 33 100) 100 w); [|reflexivity].
  repeat split.
Defined.

(** ** Dumping and restoring the parameters *)

(** C7: in each of the four run modes, [_dump_params] followed by
    [_restore_params] both return normally and leave the trainer exactly as
    it was: same logger, callbacks, limits, step counters and loop progress.
    The restore does the work: whatever values the logger, the callbacks,
    the limit of the mode, the step and the step budget (when fitting), the
    progress state of the running loop and its verbosity were given after
    the dump, [_restore_params] returns normally and the trainer is the one
    from before the dump. *)
Theorem restore_after_dump (w : World) :
  state_fn (trainer w) <> TUNING ->
  exists w1 w2,
    _dump_params w = Ok tt w1
    /\ _restore_params w1 = Ok tt w2
    /\ trainer w2 = trainer w
    /\ forall lg cb lim gs ms ep pr vb,
        exists w3,
          _restore_params
            (set_trainer (overwritten lg cb lim gs ms ep pr vb (trainer w1)) w1)
          = Ok tt w3
          /\ trainer w3 = trainer w.
Proof.
  intros Hfn. destruct w as [t s f u wa so tl].
  destruct t as [fdr lg cb fn [p1 v1 g1 e1 m1] [p2 v2 g2 e2 m2]
                   [p3 v3 g3 e3 m3] [p4 v4 g4 e4 m4] lv lt lp gz pb md sm d1 d2 d3 d4 root].
  cbn in Hfn.
  destruct fn; try congruence.
  - destruct v1;
      (eexists; eexists; (split; [|split; [|split]]);
       [vm_compute; reflexivity..
       | intros; eexists; split; vm_compute; reflexivity]).
  - destruct v2;
      (eexists; eexists; (split; [|split; [|split]]);
       [vm_compute; reflexivity..
       | intros; eexists; split; vm_compute; reflexivity]).
  - destruct v3;
      (eexists; eexists; (split; [|split; [|split]]);
       [vm_compute; reflexivity..
       | intros; eexists; split; vm_compute; reflexivity]).
  - destruct v4;
      (eexists; eexists; (split; [|split; [|split]]);
       [vm_compute; reflexivity..
       | intros; eexists; split; vm_compute; reflexivity]).
Qed.

Lemma restore_after_dump_witness :
  exists w1 w2,
    _dump_params (sim_world VALIDATING 100 2 (new_finder "power" 1 2 25)) = Ok tt w1
    /\ _restore_params w1 = Ok tt w2
    /\ trainer w2 = sim_trainer VALIDATING 100 2
    /\ forall lg cb lim gs ms ep pr vb,
        exists w3,
          _restore_params
            (set_trainer (overwritten lg cb lim gs ms ep pr vb (trainer w1)) w1)
          = Ok tt w3
          /\ trainer w3 = sim_trainer VALIDATING 100 2.
Proof.
  apply (restore_after_dump (sim_world VALIDATING 100 2 (new_finder "power" 1 2 25))).
  cbn. discriminate.
Defined.

(** ** One trial *)

Ltac break_world w :=
  destruct w as [[? ? ? [] [? ? ? ? ?] [? ? ? ? ?] [? ? ? ? ?] [? ? ? ? ?]
                    ? ? ? ? ? ? ? ? ? ? ? ?] [? ? ? ? ? ? ? [? ? ? ? ? ? ? ?]] ? ? ? ? ?].

(** A call of [_try_loop_run] runs at most one trial, at the batch size the
    module holds, and touches nothing but the running loop. *)
Lemma try_loop_run_cases (X : Externals) (w : World) :
  (exists w1,
      _try_loop_run X w = Ok tt w1
      /\ trial_log w1 = trial_log w ++ [(batch_size_of w, None)]
      /\ outside_trial w1 = outside_trial w)
  \/ (exists e w1,
      _try_loop_run X w = Raise e w1
      /\ trial_log w1 = trial_log w ++ [(batch_size_of w, Some e)]
      /\ outside_trial w1 = outside_trial w)
  \/ (exists e w1,
      _try_loop_run X w = Raise e w1
      /\ is_runtime_error e = false
      /\ trial_log w1 = trial_log w
      /\ outside_trial w1 = outside_trial w).
Proof.
  break_world w;
    unfold _try_loop_run, run, bind, get_trainer, dumped, modify_loop, modify_trainer,
      raise, ret, batch_size_of; cbn.
  all: repeat match goal with
         | |- context [match ?o with Some _ => _ | None => _ end] =>
             is_var o; destruct o; cbn
         end.
  all: try (right; right; do 2 eexists; repeat split; reflexivity).
  all: match goal with
       | |- context [loop_run ?x ?t ?l] => destruct (loop_run x t l) as [l' [e|]]
       end.
  all: first [ right; left; do 2 eexists; (split; [|split]); reflexivity
             | left; eexists; (split; [|split]); reflexivity ].
Qed.

(** Assigning to the loop of one function leaves the rest of the trainer. *)
Lemma set_loop_of_fields fn l t :
  let t' := set_loop_of fn l t in
  state_fn t' = state_fn t
  /\ lightning_module t' = lightning_module t
  /\ train_dataloader t' = train_dataloader t
  /\ val_dataloaders t' = val_dataloaders t
  /\ test_dataloaders t' = test_dataloaders t
  /\ predict_dataloaders t' = predict_dataloaders t
  /\ logger t' = logger t
  /\ callbacks t' = callbacks t
  /\ limit_val_batches t' = limit_val_batches t
  /\ limit_test_batches t' = limit_test_batches t
  /\ limit_predict_batches t' = limit_predict_batches t
  /\ is_global_zero t' = is_global_zero t
  /\ progress_bar_callback t' = progress_bar_callback t
  /\ (forall fn', fn' <> fn -> loop_of fn' t' = loop_of fn' t).
Proof.
  destruct fn; cbn; repeat split; intros []; cbn; congruence.
Qed.

(** What two worlds share when they differ at most by a trial. *)
Lemma outside_trial_fields w w1 :
  outside_trial w1 = outside_trial w ->
  self w1 = self w
  /\ state_fn (trainer w1) = state_fn (trainer w)
  /\ lightning_module (trainer w1) = lightning_module (trainer w)
  /\ active_dataloader (trainer w1) = active_dataloader (trainer w)
  /\ batch_size_of w1 = batch_size_of w.
Proof.
  intros H.
  assert (Hs : self w1 = self w) by exact (f_equal self H).
  pose proof (f_equal (fun w => state_fn (trainer w)) H) as Hfn.
  pose proof (f_equal (fun w => lightning_module (trainer w)) H) as Hm.
  pose proof (f_equal (fun w => train_dataloader (trainer w)) H) as H1.
  pose proof (f_equal (fun w => val_dataloaders (trainer w)) H) as H2.
  pose proof (f_equal (fun w => test_dataloaders (trainer w)) H) as H3.
  pose proof (f_equal (fun w => predict_dataloaders (trainer w)) H) as H4.
  cbn in Hfn, Hm, H1, H2, H3, H4.
  destruct (set_loop_of_fields (state_fn (trainer w1)) neutral_loop (trainer w1))
    as (E0 & E1 & E2 & E3 & E4 & E5 & _).
  destruct (set_loop_of_fields (state_fn (trainer w)) neutral_loop (trainer w))
    as (F0 & F1 & F2 & F3 & F4 & F5 & _).
  cbn in E0, E1, E2, E3, E4, E5, F0, F1, F2, F3, F4, F5.
  rewrite E0, F0 in Hfn. rewrite E1, F1 in Hm. rewrite E2, F2 in H1.
  rewrite E3, F3 in H2. rewrite E4, F4 in H3. rewrite E5, F5 in H4.
  repeat split; try assumption.
  - unfold active_dataloader. rewrite Hfn. destruct (state_fn (trainer w)); congruence.
  - unfold batch_size_of. rewrite Hm, Hs. reflexivity.
Qed.

(** ** Errors that are not memory exhaustion *)

Lemma power_body_reraises X new_size w e w1 :
  _try_loop_run X w = Raise e w1 ->
  memory_exhaustion X e = false ->
  power_body X new_size w = Raise e w1.
Proof.
  intros Hrun He. unfold power_body, garbage_collection_cuda, try_except, bind, ret.
  rewrite Hrun. unfold memory_exhaustion in He.
  destruct (is_runtime_error e); [|reflexivity].
  cbn in He. rewrite He. reflexivity.
Qed.

Lemma binary_body_reraises X v w e w1 :
  _try_loop_run X w = Raise e w1 ->
  memory_exhaustion X e = false ->
  binary_body X v w = Raise e w1.
Proof.
  intros Hrun He.
  unfold binary_body, garbage_collection_cuda, try_except, bind, ret, get_self.
  rewrite Hrun. unfold memory_exhaustion in He.
  destruct (is_runtime_error e); [|reflexivity].
  cbn in He. rewrite He. reflexivity.
Qed.

(** C6: whenever a trial raises an exception that is not a recognised
    memory exhaustion, at any iteration and from any search state, both
    loops raise that same exception in the world the trial left: nothing is
    run after the trial, the loop does not return a size, and the batch size
    held by the module is the one the trial ran with. *)
Theorem other_errors_propagate (X : Externals) (w w1 : World) (e : Exception) :
  _try_loop_run X w = Raise e w1 ->
  memory_exhaustion X e = false ->
  (forall n new_size, power_loop X (S n) new_size w = Raise e w1)
  /\ (forall new_size, 0 < max_trials (self w) ->
      _run_power_scaling X new_size w = Raise e w1)
  /\ (forall fuel v, binary_loop X (S fuel) v w = Raise e w1)
  /\ (forall fuel new_size, _run_binary_scaling X (S fuel) new_size w = Raise e w1)
  /\ batch_size_of w1 = batch_size_of w
  /\ outside_trial w1 = outside_trial w.
Proof.
  intros Hrun He.
  assert (Hb : forall fuel v, binary_loop X (S fuel) v w = Raise e w1).
  { intros fuel v. cbn. apply bind_Raise. apply binary_body_reraises; assumption. }
  assert (Hp : forall n new_size, power_loop X (S n) new_size w = Raise e w1).
  { intros n new_size. cbn. apply bind_Raise. apply power_body_reraises; assumption. }
  split; [exact Hp|]. split; [|split; [|split; [|]]].
  - intros new_size Hmt. unfold _run_power_scaling, bind, get_self.
    destruct (Z.to_nat (max_trials (self w))) as [|n] eqn:En; [lia | apply Hp].
  - exact Hb.
  - intros fuel new_size. unfold _run_binary_scaling. apply bind_Raise. apply Hb.
  - assert (Ho : outside_trial w1 = outside_trial w).
    { destruct (try_loop_run_cases X w)
        as [(w2 & H2 & _) | [(e2 & w2 & H2 & _ & Ho) | (e2 & w2 & H2 & _ & _ & Ho)]];
        rewrite Hrun in H2; [discriminate | |]; injection H2 as -> ->; exact Ho. }
    split; [|exact Ho].
    apply outside_trial_fields in Ho. tauto.
Qed.

Lemma other_errors_propagate_witness :
  let X := simulated (Some (OtherException "ValueError")) 33 100 in
  let w := prepared (sim_world TESTING 100 1 (new_finder "power" 1 2 25)) in
  let w1 := world_of (_try_loop_run X w) in
  (forall n new_size, power_loop X (S n) new_size w
                      = Raise (OtherException "ValueError") w1)
  /\ (forall new_size, 0 < max_trials (self w) ->
      _run_power_scaling X new_size w = Raise (OtherException "ValueError") w1)
  /\ (forall fuel v, binary_loop X (S fuel) v w = Raise (OtherException "ValueError") w1)
  /\ (forall fuel new_size,
      _run_binary_scaling X (S fuel) new_size w = Raise (OtherException "ValueError") w1)
  /\ batch_size_of w1 = batch_size_of w
  /\ outside_trial w1 = outside_trial w.
Proof.
  intros X w w1.
  apply (other_errors_propagate X w w1 (OtherException "ValueError")).
  - vm_compute. reflexivity.
  - reflexivity.
Defined.

(** ** Preserved observations *)

Lemma preserves_ret {A B} (f : World -> A) (b : B) : preserves f (ret b).
Proof. intros w. reflexivity. Qed.

Lemma preserves_raise {A B} (f : World -> A) e : preserves f (@raise B e).
Proof. intros w. reflexivity. Qed.

Lemma preserves_bind {A B C} (f : World -> A) (c : M B) (k : B -> M C) :
  preserves f c -> (forall b, preserves f (k b)) -> preserves f (bind c k).
Proof.
  intros Hc Hk w. unfold bind. specialize (Hc w).
  destruct (c w) as [b w'|e w'|w']; cbn in *; [rewrite Hk|..]; exact Hc.
Qed.

Lemma preserves_try_except {A B} (f : World -> A) (c : M B) h :
  preserves f c -> (forall e, preserves f (h e)) -> preserves f (try_except c h).
Proof.
  intros Hc Hh w. unfold try_except. specialize (Hc w).
  destruct (c w) as [b w'|e w'|w']; cbn in *; [|rewrite Hh|]; exact Hc.
Qed.

Lemma preserves_get_trainer {A} (f : World -> A) : preserves f get_trainer.
Proof. intros w. reflexivity. Qed.

Lemma preserves_get_self {A} (f : World -> A) : preserves f get_self.
Proof. intros w. reflexivity. Qed.

(** ** Adjusting the batch size and reloading the data *)

Lemma getattr_setattr m name b v :
  lightning_getattr m name = Some b ->
  lightning_getattr (lightning_setattr m name v) name = Some v.
Proof.
  unfold lightning_getattr, lightning_setattr, in_hparams. cbn.
  destruct (attrs m !! name) eqn:Ha.
  - intros _. rewrite lookup_insert_eq. reflexivity.
  - rewrite Ha. destruct (hparams m) as [h|]; [|discriminate].
    destruct (h !! name) eqn:Hh; [|discriminate].
    intros _. rewrite lookup_insert_eq. reflexivity.
Qed.

(** Below [2^53] the conversion to a double is exact. *)
Lemma double_of_exact z : Z.abs z < 2 ^ 53 -> double_of z = Some z.
Proof.
  intros Hz. unfold double_of.
  assert (He : Z.max (Z.log2 (Z.abs z) - 52) 0 = 0).
  { destruct (Z.eq_dec (Z.abs z) 0) as [->|Hne]; [reflexivity|].
    assert (Z.log2 (Z.abs z) < 53) by (apply Z.log2_lt_pow2; lia). lia. }
  rewrite He. change (2 ^ 0) with 1.
  rewrite Z.div_1_r, Z.mod_1_r.
  change (2 * 0) with 0. change (1 <? 0) with false. change (0 =? 1) with false.
  cbn [orb andb]. rewrite Z.mul_1_r.
  assert (Hlt : Z.abs z < 2 ^ 1024).
  { eapply Z.lt_trans; [exact Hz|]. apply Z.pow_lt_mono_r; lia. }
  apply Z.ltb_lt in Hlt. rewrite Hlt. f_equal. lia.
Qed.

Lemma int_of_product_exact b factor :
  Z.abs b < 2 ^ 53 -> Z.abs (b * factor) < 2 ^ 53 ->
  int_of_product b factor = Some (b * factor).
Proof.
  intros Hb Hp. unfold int_of_product.
  rewrite (double_of_exact b Hb). apply double_of_exact. exact Hp.
Qed.

Lemma requested_size_exact value b factor :
  (value = None -> Z.abs b < 2 ^ 53 /\ Z.abs (b * factor) < 2 ^ 53) ->
  requested_size value b factor = Some (asked value b factor).
Proof.
  destruct value as [v|]; [reflexivity|]. intros H.
  destruct (H eq_refl) as [Hb Hp]. apply int_of_product_exact; assumption.
Qed.

Lemma adjust_batch_size_cases factor value desc w :
  (exists e,
      _adjust_batch_size factor value desc w = Raise e w
      /\ ((e = AttributeError (batch_arg_name (self w)) /\ batch_size_of w = None)
          \/ (e = OverflowError
              /\ exists b, batch_size_of w = Some b
                           /\ requested_size value b factor = None)))
  \/ (exists b requested,
      batch_size_of w = Some b
      /\ requested_size value b factor = Some requested
      /\ let size := clamp_for_state (trainer w) requested in
         _adjust_batch_size factor value desc w
         = Ok (size, negb (size =? b)) (with_batch_size size w)).
Proof.
  unfold batch_size_of, _adjust_batch_size, bind, get_trainer, get_self, raise. cbn.
  destruct (lightning_getattr _ _) as [b|].
  - destruct (requested_size value b factor) as [requested|] eqn:Hreq.
    + right. exists b, requested. split; [reflexivity|]. split; [exact Hreq | reflexivity].
    + left. exists OverflowError. split; [reflexivity|]. right.
      split; [reflexivity|]. exists b. split; [reflexivity | exact Hreq].
  - left. eexists. split; [reflexivity|]. left. split; reflexivity.
Qed.

Lemma adjust_batch_size_Some factor value desc w b :
  batch_size_of w = Some b ->
  (value = None -> Z.abs b < 2 ^ 53 /\ Z.abs (b * factor) < 2 ^ 53) ->
  let size := clamp_for_state (trainer w) (asked value b factor) in
  _adjust_batch_size factor value desc w
  = Ok (size, negb (size =? b)) (with_batch_size size w).
Proof.
  intros Hb Hexact. destruct (adjust_batch_size_cases factor value desc w)
    as [(e & _ & [[_ Hn] | [_ (b' & Hb' & Hreq)]]) | (b' & r & Hb' & Hreq & H)].
  - congruence.
  - rewrite Hb in Hb'. injection Hb' as <-.
    rewrite (requested_size_exact value b factor Hexact) in Hreq. discriminate.
  - rewrite Hb in Hb'. injection Hb' as <-.
    rewrite (requested_size_exact value b factor Hexact) in Hreq.
    injection Hreq as <-. exact H.
Qed.

Lemma batch_size_of_with_batch_size w b size :
  batch_size_of w = Some b -> batch_size_of (with_batch_size size w) = Some size.
Proof. unfold batch_size_of, with_batch_size. cbn. apply getattr_setattr. Qed.

Lemma reset_dataloaders_eq X w :
  _reset_dataloaders X w = Ok tt (set_trainer (reloaded X (trainer w)) w).
Proof.
  unfold _reset_dataloaders, reloaded, bind, get_trainer, modify_trainer, ret.
  destruct w as [t s f u wa so tl]. cbn.
  destruct (state_fn t); reflexivity.
Qed.

Lemma preserves_adjust {A} (f : World -> A) factor value desc :
  (forall size w, f (with_batch_size size w) = f w) ->
  preserves f (_adjust_batch_size factor value desc).
Proof.
  intros Hf w.
  destruct (adjust_batch_size_cases factor value desc w)
    as [(e & -> & _) | (b & r & _ & _ & ->)]; cbn; [reflexivity | apply Hf].
Qed.

Lemma preserves_reset {A} (f : World -> A) X :
  (forall w, f (set_trainer (reloaded X (trainer w)) w) = f w) ->
  preserves f (_reset_dataloaders X).
Proof. intros Hf w. rewrite reset_dataloaders_eq. cbn. apply Hf. Qed.

Lemma preserves_out_of_fuel {A B} (f : World -> A) : preserves f (@out_of_fuel B).
Proof. intros w. reflexivity. Qed.

Ltac preserves_step :=
  first
    [ apply preserves_ret
    | apply preserves_raise
    | apply preserves_out_of_fuel
    | apply preserves_get_trainer
    | apply preserves_get_self
    | apply preserves_adjust; assumption
    | apply preserves_reset; assumption
    | assumption
    | apply preserves_bind; [|intros]
    | apply preserves_try_except; [|intros]
    | match goal with
      | |- preserves _ (if ?b then _ else _) => destruct b
      | |- preserves _ (match ?p with (_, _) => _ end) => destruct p
      | |- preserves _ (match ?c with CONTINUE => _ | BREAK => _ end) => destruct c
      | |- preserves _ (let '(_, _) := ?p in _) => destruct p
      end ].

Section SearchPreserves.

Context {A : Type} (f : World -> A) (X : Externals).
Hypothesis f_trial : preserves f (_try_loop_run X).
Hypothesis f_adjust : forall size w, f (with_batch_size size w) = f w.
Hypothesis f_reset : forall w, f (set_trainer (reloaded X (trainer w)) w) = f w.

Lemma preserves_power_body new_size : preserves f (power_body X new_size).
Proof. unfold power_body, garbage_collection_cuda. repeat preserves_step. Qed.

Lemma preserves_power_loop n : forall new_size, preserves f (power_loop X n new_size).
Proof.
  induction n as [|n IH]; intros new_size; cbn.
  - apply preserves_ret.
  - apply preserves_bind; [apply preserves_power_body|].
    intros [ns []]; [apply IH | apply preserves_ret].
Qed.

Lemma preserves_run_power_scaling new_size : preserves f (_run_power_scaling X new_size).
Proof.
  unfold _run_power_scaling. apply preserves_bind; [apply preserves_get_self|].
  intros s. apply preserves_power_loop.
Qed.

Lemma preserves_binary_body v : preserves f (binary_body X v).
Proof. unfold binary_body, garbage_collection_cuda. repeat preserves_step. Qed.

Lemma preserves_binary_loop fuel : forall v, preserves f (binary_loop X fuel v).
Proof.
  induction fuel as [|fuel IH]; intros v; cbn.
  - apply preserves_out_of_fuel.
  - apply preserves_bind; [apply preserves_binary_body|].
    intros [v' []]; [apply IH | apply preserves_ret].
Qed.

Lemma preserves_run_binary_scaling fuel new_size :
  preserves f (_run_binary_scaling X fuel new_size).
Proof.
  unfold _run_binary_scaling. apply preserves_bind; [apply preserves_binary_loop|].
  intros [? ? ? ?]. apply preserves_ret.
Qed.

Lemma preserves_run_search fuel new_size : preserves f (run_search X fuel new_size).
Proof.
  unfold run_search. apply preserves_bind; [apply preserves_get_self|].
  intros s. destruct (String.eqb _ _); [apply preserves_run_power_scaling|].
  destruct (String.eqb _ _); [apply preserves_run_binary_scaling | apply preserves_ret].
Qed.

End SearchPreserves.

(** ** What a search leaves alone *)

Lemma try_loop_run_preserves_outside_trial X : preserves outside_trial (_try_loop_run X).
Proof.
  intros w.
  destruct (try_loop_run_cases X w)
    as [(w1 & -> & _ & Ho) | [(e & w1 & -> & _ & Ho) | (e & w1 & -> & _ & _ & Ho)]];
    exact Ho.
Qed.

Lemma try_loop_run_preserves_outside_search X : preserves outside_search (_try_loop_run X).
Proof.
  intros w. unfold outside_search. cbv zeta.
  rewrite (try_loop_run_preserves_outside_trial X w). reflexivity.
Qed.

Lemma try_loop_run_preserves_self X : preserves self (_try_loop_run X).
Proof.
  intros w. pose proof (try_loop_run_preserves_outside_trial X w) as H.
  apply outside_trial_fields in H. tauto.
Qed.

Lemma outside_search_with_batch_size size w :
  outside_search (with_batch_size size w) = outside_search w.
Proof. break_world w; reflexivity. Qed.

Lemma outside_search_reloaded X w :
  outside_search (set_trainer (reloaded X (trainer w)) w) = outside_search w.
Proof. break_world w; reflexivity. Qed.

(** Whatever the trials do and however the search ends, it leaves the
    finder, the files, the logger, the callbacks and the limits as they
    were. *)
Lemma run_search_preserves_outside_search X fuel new_size :
  preserves outside_search (run_search X fuel new_size).
Proof.
  apply preserves_run_search.
  - apply try_loop_run_preserves_outside_search.
  - apply outside_search_with_batch_size.
  - apply outside_search_reloaded.
Qed.

Lemma outside_search_fields w w1 :
  outside_search w1 = outside_search w ->
  self w1 = self w
  /\ fs w1 = fs w
  /\ state_fn (trainer w1) = state_fn (trainer w)
  /\ logger (trainer w1) = logger (trainer w)
  /\ callbacks (trainer w1) = callbacks (trainer w)
  /\ limit_val_batches (trainer w1) = limit_val_batches (trainer w)
  /\ limit_test_batches (trainer w1) = limit_test_batches (trainer w)
  /\ limit_predict_batches (trainer w1) = limit_predict_batches (trainer w)
  /\ is_global_zero (trainer w1) = is_global_zero (trainer w)
  /\ progress_bar_callback (trainer w1) = progress_bar_callback (trainer w)
  /\ (forall fn, fn <> state_fn (trainer w) ->
      loop_of fn (trainer w1) = loop_of fn (trainer w)).
Proof.
  intros H.
  assert (Hfn : state_fn (trainer w1) = state_fn (trainer w)).
  { pose proof (f_equal (fun w => state_fn (trainer w)) H) as E. cbn in E.
    destruct (set_loop_of_fields (state_fn (trainer w1)) neutral_loop (trainer w1)) as (E1 & _).
    destruct (set_loop_of_fields (state_fn (trainer w)) neutral_loop (trainer w)) as (E0 & _).
    cbn in E0, E1. congruence. }
  split; [exact (f_equal self H)|].
  split; [exact (f_equal fs H)|].
  split; [exact Hfn|].
  pose proof (f_equal (fun w => logger (trainer w)) H) as H1.
  pose proof (f_equal (fun w => callbacks (trainer w)) H) as H2.
  pose proof (f_equal (fun w => limit_val_batches (trainer w)) H) as H3.
  pose proof (f_equal (fun w => limit_test_batches (trainer w)) H) as H4.
  pose proof (f_equal (fun w => limit_predict_batches (trainer w)) H) as H5.
  pose proof (f_equal (fun w => is_global_zero (trainer w)) H) as H6.
  pose proof (f_equal (fun w => progress_bar_callback (trainer w)) H) as H7.
  assert (H8 : forall fn, loop_of fn (trainer (outside_search w1))
                          = loop_of fn (trainer (outside_search w)))
    by (intros fn; rewrite H; reflexivity).
  cbn in H1, H2, H3, H4, H5, H6, H7.
  destruct (set_loop_of_fields (state_fn (trainer w1)) neutral_loop (trainer w1))
    as (_ & _ & _ & _ & _ & _ & E1 & E2 & E3 & E4 & E5 & E6 & E7 & E8).
  destruct (set_loop_of_fields (state_fn (trainer w)) neutral_loop (trainer w))
    as (_ & _ & _ & _ & _ & _ & F1 & F2 & F3 & F4 & F5 & F6 & F7 & F8).
  cbn in E1, E2, E3, E4, E5, E6, E7, E8, F1, F2, F3, F4, F5, F6, F7, F8.
  repeat split; try congruence.
  intros fn Hne. specialize (H8 fn).
  assert (G : forall u, loop_of fn (trainer (outside_search u))
                        = loop_of fn (set_loop_of (state_fn (trainer u)) neutral_loop (trainer u)))
    by (intros u; destruct fn; reflexivity).
  rewrite !G in H8. rewrite E8, F8 in H8; congruence.
Qed.

(** ** Counting the trials *)

Lemma try_except_bind_Ok {A B} (c : M A) (k : A -> M B) h w a w1 :
  c w = Ok a w1 -> try_except (bind c k) h w = try_except (k a) h w1.
Proof. unfold try_except, bind. intros ->. reflexivity. Qed.

Lemma try_except_bind_Raise {A B} (c : M A) (k : A -> M B) h w e w1 :
  c w = Raise e w1 -> try_except (bind c k) h w = h e w1.
Proof. unfold try_except, bind. intros ->. reflexivity. Qed.

Lemma trial_log_with_batch_size size w : trial_log (with_batch_size size w) = trial_log w.
Proof. reflexivity. Qed.

Lemma trial_log_reloaded X w :
  trial_log (set_trainer (reloaded X (trainer w)) w) = trial_log w.
Proof. reflexivity. Qed.

Lemma power_body_one_trial X new_size w :
  (length (trial_log (world_of (power_body X new_size w))) <= S (length (trial_log w)))%nat.
Proof.
  pose proof (trial_log_with_batch_size) as Ha.
  pose proof (trial_log_reloaded X) as Hr.
  unfold power_body, garbage_collection_cuda.
  unfold bind at 1, ret at 1.
  match goal with
  | |- context [try_except (bind _ ?k) ?h w] =>
      assert (Hk : forall u, preserves trial_log (try_except (k u) h))
        by (intros u; repeat preserves_step);
      assert (Hh : forall e, preserves trial_log (h e))
        by (intros e; repeat preserves_step)
  end.
  destruct (try_loop_run_cases X w)
    as [(w1 & H1 & Hl & _) | [(e & w1 & H1 & Hl & _) | (e & w1 & H1 & _ & Hl & _)]].
  - rewrite (try_except_bind_Ok _ _ _ _ tt _ H1), (Hk tt), Hl, length_app. cbn. lia.
  - rewrite (try_except_bind_Raise _ _ _ _ _ _ H1), Hh, Hl, length_app. cbn. lia.
  - rewrite (try_except_bind_Raise _ _ _ _ _ _ H1), Hh, Hl. lia.
Qed.

Lemma power_loop_trials X n : forall new_size w,
  (length (trial_log (world_of (power_loop X n new_size w))) <= length (trial_log w) + n)%nat.
Proof.
  induction n as [|n IH]; intros new_size w; cbn.
  - lia.
  - pose proof (power_body_one_trial X new_size w) as Hb.
    unfold bind. destruct (power_body X new_size w) as [[ns []] w1|e w1|w1]; cbn in *.
    + specialize (IH ns w1). lia.
    + lia.
    + lia.
    + lia.
Qed.

Lemma successes_app l tr :
  successes (l ++ [tr]) = successes l + (if succeeded tr then 1 else 0).
Proof.
  unfold successes. rewrite List.filter_app, length_app. cbn.
  destruct (succeeded tr); cbn; lia.
Qed.

Ltac run_monad_in H :=
  repeat (progress (unfold bind, try_except, ret, raise, get_self, get_trainer,
                    garbage_collection_cuda in H; cbv beta iota zeta in H)).

Ltac step_adjust_in H :=
  match type of H with
  | context [_adjust_batch_size ?f ?v ?d ?w] =>
      let b := fresh "b" in
      let Hb := fresh "Hb" in
      let e := fresh "e" in
      let requested := fresh "requested" in
      destruct (adjust_batch_size_cases f v d w)
        as [(e & Ha & [[-> _] | [-> _]]) | (b & requested & Hb & _ & Ha)];
      cbv zeta in Ha; rewrite Ha in H; clear Ha; cbv beta iota zeta in H
  end.

(** An iteration of the binary loop runs at most one trial.  When the trial
    succeeds the counter goes up by one, and the loop only continues while
    the counter is within [max_trials]; a trial that fails leaves the
    counter as it is. *)
Lemma binary_body_budget X v w :
  let r := binary_body X v w in
  (successes (trial_log (world_of r)) = successes (trial_log w) + 1
   /\ continues_with r (fun v' => count v' = count v + 1
                                  /\ count v' <= max_trials (self w)))
  \/ (successes (trial_log (world_of r)) = successes (trial_log w)
      /\ continues_with r (fun v' => count v' = count v)).
Proof.
  cbv zeta. remember (binary_body X v w) as r eqn:Hr.
  unfold binary_body, garbage_collection_cuda in Hr.
  unfold bind at 1, ret at 1 in Hr. unfold bind at 1, get_self at 1 in Hr.
  cbv beta iota zeta in Hr.
  destruct (try_loop_run_cases X w)
    as [(w1 & H1 & Hl & Ho) | [(e & w1 & H1 & Hl & Ho) | (e & w1 & H1 & Hrt & Hl & Ho)]].
  - left. rewrite (try_except_bind_Ok _ _ _ _ tt _ H1) in Hr.
    assert (Hs : successes (trial_log w1) = successes (trial_log w) + 1)
      by (rewrite Hl, successes_app; reflexivity).
    destruct (Z.gtb_spec (count v + 1) (max_trials (self w))) as [Hgt|Hle].
    + run_monad_in Hr. subst r. cbn. auto.
    + destruct (truthy (high v)).
      * destruct (default 0 (high v) - new_size v <=? 1).
        { run_monad_in Hr. subst r. cbn. auto. }
        run_monad_in Hr. step_adjust_in Hr; [subst r; cbn; auto..|].
        destruct (negb _); rewrite ?reset_dataloaders_eq in Hr; subst r; cbn; auto.
      * run_monad_in Hr. step_adjust_in Hr; [subst r; cbn; auto..|].
        destruct (negb _); rewrite ?reset_dataloaders_eq in Hr; subst r; cbn; auto.
  - right. rewrite (try_except_bind_Raise _ _ _ _ _ _ H1) in Hr.
    assert (Hs : successes (trial_log w1) = successes (trial_log w))
      by (rewrite Hl, successes_app; cbn; lia).
    destruct (is_runtime_error e); [|subst r; cbn; auto].
    destruct (is_oom_error X e); [|subst r; cbn; auto].
    run_monad_in Hr. step_adjust_in Hr; [subst r; cbn; auto..|].
    destruct (negb _); rewrite ?reset_dataloaders_eq in Hr; cbv beta iota in Hr;
      destruct (_ <=? 1); subst r; cbn; auto.
  - right. rewrite (try_except_bind_Raise _ _ _ _ _ _ H1) in Hr.
    rewrite Hrt in Hr. subst r. cbn. rewrite Hl. auto.
Qed.

Lemma binary_body_preserves_self X v : preserves self (binary_body X v).
Proof.
  apply preserves_binary_body.
  - apply try_loop_run_preserves_self.
  - reflexivity.
  - reflexivity.
Qed.

Lemma binary_loop_successes X fuel : forall v w,
  count v <= Z.max (max_trials (self w)) 0 ->
  successes (trial_log (world_of (binary_loop X fuel v w)))
  <= successes (trial_log w) + (Z.max (max_trials (self w)) 0 - count v) + 1.
Proof.
  induction fuel as [|fuel IH]; intros v w Hc; cbn.
  - lia.
  - pose proof (binary_body_budget X v w) as Hb.
    pose proof (binary_body_preserves_self X v w) as Hs.
    cbv zeta in Hb. unfold bind.
    destruct (binary_body X v w) as [[v' []] w1|e w1|w1]; cbn in *.
    + destruct Hb as [(Hn & Hv & Hm) | (Hn & Hv)].
      * specialize (IH v' w1). rewrite Hs in IH. lia.
      * specialize (IH v' w1). rewrite Hs in IH. lia.
    + lia.
    + lia.
    + lia.
Qed.

(** C3, as the code has it.  The [for] loop of the power mode runs at most
    [max_trials] trials.  The binary mode counts only the trials that
    succeed, and tests the counter after the trial has run: at most
    [max_trials + 1] trials succeed, and the trials that run out of memory
    are not bounded by [max_trials]. *)
Theorem trial_budget (X : Externals) (fuel : nat) (new_size : Z) (w : World) :
  (length (trial_log (world_of (_run_power_scaling X new_size w)))
   <= length (trial_log w) + Z.to_nat (max_trials (self w)))%nat
  /\ successes (trial_log (world_of (_run_binary_scaling X fuel new_size w)))
     <= successes (trial_log w) + Z.max (max_trials (self w)) 0 + 1.
Proof.
  split.
  - unfold _run_power_scaling, bind, get_self. apply power_loop_trials.
  - unfold _run_binary_scaling, bind.
    pose proof (binary_loop_successes X fuel (mkLocals 1 None 0 new_size) w) as H.
    cbn in H.
    destruct (binary_loop X fuel _ w) as [[? ? ? ?] w1|e w1|w1]; cbn in *; lia.
Qed.

(** C3 as stated fails in the binary mode.  With [max_trials = 5], two
    samples to start from and memory exhausted above 33, the search runs
    eleven trials: six succeed and five run out of memory.  With
    [max_trials = 3] it runs four. *)
Lemma binsearch_exceeds_max_trials :
  let run mt := world_of (scale_batch_size (simulated None 33 100) 100
                            (sim_world FITTING 100 1 (new_finder "binsearch" 1 2 mt))) in
  map fst (trial_log (run 5))
  = map Some [2; 4; 8; 16; 32; 64; 48; 40; 36; 34; 33]
  /\ (5 < length (trial_log (run 5%Z)))%nat
  /\ successes (trial_log (run 5)) = 6
  /\ (3 < length (trial_log (run 3%Z)))%nat.
Proof. vm_compute. repeat split; lia. Qed.

(** ** The set-up of a search *)

Lemma hasattr_getattr m name :
  lightning_hasattr m name = true -> exists b, lightning_getattr m name = Some b.
Proof.
  unfold lightning_hasattr, lightning_getattr.
  destruct (attrs m !! name) as [b|]; [intros _; exists b; reflexivity|].
  destruct (in_hparams m name) as [b|]; [intros _; exists b; reflexivity|].
  cbn. discriminate.
Qed.

Lemma dump_params_eq w :
  state_fn (trainer w) <> TUNING ->
  _dump_params w = Ok tt (set_self (set__dumped_params (dumped_of (trainer w)) (self w)) w).
Proof.
  intros Hfn. break_world w; try (cbn in Hfn; congruence).
  all: destruct verbose0, verbose1, verbose2, verbose3; reflexivity.
Qed.

Lemma reset_params_eq w :
  _reset_params w = Ok tt (set_trainer (quieted (steps_per_trial (self w)) (trainer w)) w).
Proof. break_world w; reflexivity. Qed.

Lemma prepare_search_eq w b :
  state_fn (trainer w) <> TUNING ->
  batch_size_of w = Some b ->
  prepare_search w
  = Ok ((default_root_dir (trainer w), uuid_supply w),
        clamp_for_state (trainer w) (init_val (self w)))
       (prepared w).
Proof.
  intros Hfn Hb.
  unfold prepare_search. unfold bind at 1, get_trainer at 1. unfold bind at 1, get_self at 1.
  cbv beta iota.
  rewrite (bind_Ok _ _ _ _ _ (dump_params_eq w Hfn)).
  rewrite (bind_Ok _ _ _ _ _ (reset_params_eq _)).
  unfold bind at 1, uuid4 at 1. unfold bind at 1, save_checkpoint at 1.
  unfold bind at 1, progress_bar_set at 1, modify_trainer at 1.
  cbv beta iota.
  match goal with
  | |- bind (_adjust_batch_size ?f ?v ?d) _ ?w1 = _ =>
      assert (Hb1 : batch_size_of w1 = Some b)
        by (rewrite <- Hb; clear; break_world w;
            destruct progress_bar_callback0; reflexivity);
      rewrite (bind_Ok _ _ _ _ _
                 (adjust_batch_size_Some f v d w1 b Hb1 ltac:(discriminate)))
  end.
  cbv beta iota. unfold ret. clear. 
  break_world w; destruct progress_bar_callback0; reflexivity.
Qed.

Lemma scale_batch_size_guarded X fuel w :
  fast_dev_run (trainer w) = false ->
  lightning_hasattr (lightning_module (trainer w)) (batch_arg_name (self w)) = true ->
  train_dataloader_source_is_module (trainer w) = true ->
  scale_batch_size X fuel w
  = (do '(save_path, new_size) <- prepare_search;
     do new_size <- run_search X fuel new_size;
     do _ <- garbage_collection_cuda;
     do _ <- reload_checkpoint X save_path;
     do _ <- decrement_counters;
     do _ <- _restore_params;
     do _ <- progress_bar_set true;
     do _ <- print new_size;
     do _ <- modify_self (set_optimal_batch_size new_size);
     if _early_exit (self w) then raise _TunerExitException else ret tt)
      (after_guards w).
Proof.
  intros H1 H2 H3. unfold scale_batch_size, after_guards.
  unfold bind at 1, get_trainer at 1. unfold bind at 1, get_self at 1.
  cbv beta iota zeta. rewrite H1, H2, H3. cbn [negb].
  unfold bind at 1.
  destruct (declared_twice _ _); reflexivity.
Qed.

Lemma after_guards_fields w :
  trainer (after_guards w) = trainer w
  /\ self (after_guards w) = self w
  /\ fs (after_guards w) = fs w
  /\ uuid_supply (after_guards w) = uuid_supply w
  /\ batch_size_of (after_guards w) = batch_size_of w.
Proof. unfold after_guards, batch_size_of. destruct (declared_twice _ _); repeat split. Qed.

Lemma prepared_fields w :
  state_fn (trainer (prepared w)) = state_fn (trainer w)
  /\ callbacks (trainer (prepared w)) = []
  /\ logger (trainer (prepared w)) = quiet_logger (logger (trainer w))
  /\ (state_fn (trainer w) <> TUNING ->
      active_limit (trainer (prepared w)) = Some (steps_per_trial (self w)))
  /\ is_Some (fs (prepared w) !! (default_root_dir (trainer w), uuid_supply w))
  /\ _dumped_params (self (prepared w)) = dumped_of (trainer w)
  /\ is_global_zero (trainer (prepared w)) = is_global_zero (trainer w)
  /\ (state_fn (trainer w) <> FITTING ->
      fit_loop (trainer (prepared w)) = fit_loop (trainer w))
  /\ active_dataloader (trainer (prepared w)) = active_dataloader (trainer w)
  /\ mode (self (prepared w)) = mode (self w)
  /\ max_trials (self (prepared w)) = max_trials (self w)
  /\ batch_arg_name (self (prepared w)) = batch_arg_name (self w).
Proof.
  break_world w; destruct progress_bar_callback0; cbn;
    repeat split; try congruence; try (rewrite lookup_insert_eq; eexists; reflexivity).
Qed.

(** C4, as the code has it.  Once the guards have passed and the search
    has been set up, an exception that leaves the search leaves
    [scale_batch_size] at once, in the world the search reached.  Nothing is
    restored: the callbacks are still removed, the logger is still the dummy
    one, the batch limit is still [steps_per_trial], the dumped parameters
    are still waiting in the finder, and the temporary checkpoint is still
    in the file system. *)
Theorem errors_skip_restoration (X : Externals) (fuel : nat) (w : World) :
  fast_dev_run (trainer w) = false ->
  lightning_hasattr (lightning_module (trainer w)) (batch_arg_name (self w)) = true ->
  train_dataloader_source_is_module (trainer w) = true ->
  state_fn (trainer w) <> TUNING ->
  exists save_path new_size w0,
    prepare_search (after_guards w) = Ok (save_path, new_size) w0
    /\ forall e w1,
        run_search X fuel new_size w0 = Raise e w1 ->
        scale_batch_size X fuel w = Raise e w1
        /\ callbacks (trainer w1) = []
        /\ logger (trainer w1) = quiet_logger (logger (trainer w))
        /\ active_limit (trainer w1) = Some (steps_per_trial (self w))
        /\ _dumped_params (self w1) = dumped_of (trainer w)
        /\ is_Some (fs w1 !! save_path).
Proof.
  intros H1 H2 H3 Hfn.
  destruct (hasattr_getattr _ _ H2) as [b Hb].
  destruct (after_guards_fields w) as (Gt & Gs & Gf & Gu & Gb).
  assert (Hprep := prepare_search_eq (after_guards w) b).
  rewrite Gt, Gs, Gu in Hprep. specialize (Hprep Hfn).
  rewrite Gb in Hprep. specialize (Hprep Hb).
  eexists _, _, _. split; [exact Hprep|].
  intros e w1 Hrun.
  split.
  { rewrite (scale_batch_size_guarded X fuel w H1 H2 H3).
    rewrite (bind_Ok _ _ _ _ _ Hprep). cbv beta iota.
    rewrite (bind_Raise _ _ _ _ _ Hrun). reflexivity. }
  pose proof (run_search_preserves_outside_search X fuel
                (clamp_for_state (trainer w) (init_val (self w)))
                (prepared (after_guards w))) as Hframe.
  rewrite Hrun in Hframe. cbn [world_of] in Hframe.
  apply outside_search_fields in Hframe.
  destruct Hframe as (Fs & Ff & Ffn & Fl & Fc & Fv & Ft & Fp & _).
  destruct (prepared_fields (after_guards w))
    as (Pfn & Pc & Pl & Plim & Pfs & Pd & _).
  rewrite Gt, Gs, ?Gu in *.
  repeat split.
  - congruence.
  - congruence.
  - rewrite <- (Plim Hfn). unfold active_limit. rewrite Ffn, Fv, Ft, Fp. reflexivity.
  - rewrite Fs. exact Pd.
  - rewrite Ff. exact Pfs.
Qed.

Lemma errors_skip_restoration_witness :
  let X := simulated (Some (RuntimeError "boom")) 33 100 in
  let w := sim_world VALIDATING 100 1 (new_finder "binsearch" 1 2 25) in
  exists save_path new_size w0,
    prepare_search (after_guards w) = Ok (save_path, new_size) w0
    /\ forall e w1,
        run_search X 100 new_size w0 = Raise e w1 ->
        scale_batch_size X 100 w = Raise e w1
        /\ callbacks (trainer w1) = []
        /\ logger (trainer w1) = quiet_logger (logger (trainer w))
        /\ active_limit (trainer w1) = Some (steps_per_trial (self w))
        /\ _dumped_params (self w1) = dumped_of (trainer w)
        /\ is_Some (fs w1 !! save_path).
Proof.
  intros X w.
  apply (errors_skip_restoration X 100 w).
  - reflexivity.
  - vm_compute. reflexivity.
  - reflexivity.
  - cbn. discriminate.
Defined.

(** C4 as stated fails.  A trial raises a [RuntimeError] that is not a
    memory exhaustion; [scale_batch_size] raises it, and the caller finds the
    callbacks gone, the dummy logger in place, the batch limit at
    [steps_per_trial] and the temporary checkpoint on disk. *)
Lemma error_leaves_trial_configuration :
  let X := simulated (Some (RuntimeError "boom")) 33 100 in
  let w := sim_world FITTING 100 1 (new_finder "power" 1 2 25) in
  let r := scale_batch_size X 100 w in
  raised r = Some (RuntimeError "boom")
  /\ memory_exhaustion X (RuntimeError "boom") = false
  /\ callbacks (trainer w) = [1; 2; 3]%nat
  /\ callbacks (trainer (world_of r)) = []
  /\ logger (trainer w) = Some (UserLogger 7)
  /\ logger (trainer (world_of r)) = Some DummyLogger
  /\ limit_val_batches (trainer w) = 50
  /\ limit_val_batches (trainer (world_of r)) = 1
  /\ fs w !! ("/tmp", 0%nat) = None
  /\ fs (world_of r) !! ("/tmp", 0%nat) <> None.
Proof. vm_compute. repeat split. discriminate. Qed.

(** ** After the search *)

Lemma bind_Ok_inv {A B} (c : M A) (k : A -> M B) w b w2 :
  bind c k w = Ok b w2 -> exists a w1, c w = Ok a w1 /\ k a w1 = Ok b w2.
Proof.
  unfold bind. destruct (c w) as [a w1|e w1|w1]; [|discriminate..].
  intros H. exists a, w1. split; [reflexivity | exact H].
Qed.

Lemma decrement_counters_eq w :
  decrement_counters w
  = Ok tt (set_trainer
             (set_fit_loop
                (set_current_epoch (current_epoch (fit_loop (trainer w)) - 1)
                   (set_global_step (global_step (fit_loop (trainer w)) - 1)
                      (fit_loop (trainer w))))
                (trainer w)) w).
Proof. break_world w; reflexivity. Qed.

(** From the decrement of the counters to the end of [scale_batch_size]:
    whatever happens there, the step and the epoch of the fit loop end one
    below unless the trainer is fitting, where [_restore_params] writes the
    dumped step and the dumped progress state, epoch included, over them. *)
Lemma finish_counters new_size (early_exit : bool) w :
  let w' := world_of
              ((do _ <- decrement_counters;
                do _ <- _restore_params;
                do _ <- progress_bar_set true;
                do _ <- print new_size;
                do _ <- modify_self (set_optimal_batch_size new_size);
                if early_exit then raise _TunerExitException else ret tt) w) in
  (state_fn (trainer w) <> FITTING ->
   current_epoch (fit_loop (trainer w')) = current_epoch (fit_loop (trainer w)) - 1
   /\ global_step (fit_loop (trainer w')) = global_step (fit_loop (trainer w)) - 1)
  /\ (state_fn (trainer w) = FITTING ->
      forall t0, _dumped_params (self w) = dumped_of t0 -> state_fn t0 = FITTING ->
      global_step (fit_loop (trainer w')) = global_step (fit_loop t0)
      /\ current_epoch (fit_loop (trainer w')) = current_epoch (fit_loop t0)).
Proof.
  break_world w; destruct early_exit;
    unfold decrement_counters, _restore_params, progress_bar_set, print, modify_self,
      modify_loop, modify_trainer, dumped, bind, get_trainer, get_self, raise, ret; cbn.
  all: repeat match goal with
         | |- context [match ?o with Some _ => _ | None => _ end] =>
             is_var o; destruct o; cbn
         end.
  all: split; [intros H; first [exfalso; apply H; reflexivity | split; reflexivity]
              | intros H; try discriminate H].
  all: intros t0 Hd E; unfold dumped_of in Hd; rewrite E in Hd;
    try discriminate Hd; injection Hd; intros; subst; split; reflexivity.
Qed.

Lemma reload_checkpoint_cases X save_path w :
  is_Some (fs w !! save_path) ->
  exists w_r,
    reload_checkpoint X save_path w = Ok tt w_r
    /\ (is_global_zero (trainer w) = false -> w_r = w)
    /\ (is_global_zero (trainer w) = true ->
        exists saved, fs w !! save_path = Some saved
                      /\ trainer w_r = checkpoint_restore X saved (trainer w)
                      /\ fs w_r !! save_path = None)
    /\ self w_r = self w.
Proof.
  intros [saved Hs].
  unfold reload_checkpoint, bind, get_trainer, checkpoint_connector_restore,
    remove_if_exists, ret.
  destruct (is_global_zero (trainer w)) eqn:Hz.
  - rewrite Hs. cbn. rewrite Hs. eexists. split; [reflexivity|].
    split; [discriminate|]. split; [|reflexivity].
    intros _. exists saved. cbn. rewrite lookup_delete_eq. auto.
  - exists w. repeat split; congruence.
Qed.

(** C9: once the search has returned, on every worker and in each run mode
    [scale_batch_size] goes on to the checkpoint block, which only the
    coordinating worker executes, and then takes one off the step and the
    epoch of the fit loop: the rest of the call runs in the world [w_d] in
    which both are one below what the checkpoint block left.  Outside
    fitting both stay so to the end of the call, since [_restore_params]
    does not write them back; when fitting, [_restore_params] puts the
    dumped step and the dumped progress state, epoch included, back.  On a
    worker that is not the coordinating one and outside fitting, both
    counters of the fit loop therefore end one below their values before
    the call. *)
Theorem counters_decremented (X : Externals) (fuel : nat) (w w_s : World)
    (save_path : Path) (new_size : Z) :
  fast_dev_run (trainer w) = false ->
  lightning_hasattr (lightning_module (trainer w)) (batch_arg_name (self w)) = true ->
  train_dataloader_source_is_module (trainer w) = true ->
  state_fn (trainer w) <> TUNING ->
  search_phase X fuel (after_guards w) = Ok (save_path, new_size) w_s ->
  let w' := world_of (scale_batch_size X fuel w) in
  exists w_r w_d,
    reload_checkpoint X save_path w_s = Ok tt w_r
    /\ (is_global_zero (trainer w) = false -> w_r = w_s)
    /\ decrement_counters w_r = Ok tt w_d
    /\ global_step (fit_loop (trainer w_d)) = global_step (fit_loop (trainer w_r)) - 1
    /\ current_epoch (fit_loop (trainer w_d)) = current_epoch (fit_loop (trainer w_r)) - 1
    /\ scale_batch_size X fuel w
       = (do _ <- _restore_params;
          do _ <- progress_bar_set true;
          do _ <- print new_size;
          do _ <- modify_self (set_optimal_batch_size new_size);
          if _early_exit (self w) then raise _TunerExitException else ret tt) w_d
    /\ (state_fn (trainer w_r) <> FITTING ->
        current_epoch (fit_loop (trainer w')) = current_epoch (fit_loop (trainer w_r)) - 1
        /\ global_step (fit_loop (trainer w')) = global_step (fit_loop (trainer w_r)) - 1)
    /\ (state_fn (trainer w_r) = FITTING -> state_fn (trainer w) = FITTING ->
        global_step (fit_loop (trainer w')) = global_step (fit_loop (trainer w))
        /\ current_epoch (fit_loop (trainer w')) = current_epoch (fit_loop (trainer w)))
    /\ (is_global_zero (trainer w) = false -> state_fn (trainer w) <> FITTING ->
        current_epoch (fit_loop (trainer w')) = current_epoch (fit_loop (trainer w)) - 1
        /\ global_step (fit_loop (trainer w')) = global_step (fit_loop (trainer w)) - 1).
Proof.
  intros H1 H2 H3 Hfn Hsp w'.
  destruct (hasattr_getattr _ _ H2) as [b Hb].
  destruct (after_guards_fields w) as (Gt & Gs & Gf & Gu & Gb).
  assert (Hprep := prepare_search_eq (after_guards w) b).
  rewrite Gt, Gs, Gu in Hprep. specialize (Hprep Hfn).
  rewrite Gb in Hprep. specialize (Hprep Hb).
  unfold search_phase in Hsp.
  rewrite (bind_Ok _ _ _ _ _ Hprep) in Hsp. cbv beta iota in Hsp.
  apply bind_Ok_inv in Hsp. destruct Hsp as (n & w1 & Hrun & Hret).
  unfold ret in Hret. injection Hret as <- <- <-.
  pose proof (run_search_preserves_outside_search X fuel
                (clamp_for_state (trainer w) (init_val (self w)))
                (prepared (after_guards w))) as Hframe.
  rewrite Hrun in Hframe. cbn [world_of] in Hframe.
  apply outside_search_fields in Hframe.
  destruct Hframe as (Fs & Ff & Ffn & _ & _ & _ & _ & _ & Fz & _ & Floops).
  destruct (prepared_fields (after_guards w))
    as (Pfn & _ & _ & _ & Pfs & Pd & Pz & Pfit & _).
  rewrite ?Gt, ?Gs, ?Gu in *.
  assert (Hfile : is_Some (fs w1 !! (default_root_dir (trainer w), uuid_supply w)))
    by (rewrite Ff; exact Pfs).
  destruct (reload_checkpoint_cases X _ w1 Hfile) as (w_r & Hrel & Hnz & _ & Hself).
  assert (Hz : is_global_zero (trainer w1) = is_global_zero (trainer w)) by congruence.
  rewrite Hz in Hnz.
  pose proof (decrement_counters_eq w_r) as Hdec.
  assert (Hscale : scale_batch_size X fuel w
                   = (do _ <- decrement_counters;
                      do _ <- _restore_params;
                      do _ <- progress_bar_set true;
                      do _ <- print n;
                      do _ <- modify_self (set_optimal_batch_size n);
                      if _early_exit (self w) then raise _TunerExitException else ret tt)
                       w_r).
  { rewrite (scale_batch_size_guarded X fuel w H1 H2 H3).
    rewrite (bind_Ok _ _ _ _ _ Hprep). cbv beta iota.
    rewrite (bind_Ok _ _ _ _ _ Hrun).
    unfold bind at 1, garbage_collection_cuda at 1, ret at 1.
    rewrite (bind_Ok _ _ _ _ _ Hrel). reflexivity. }
  assert (Hw' : w' = world_of
              ((do _ <- decrement_counters;
                do _ <- _restore_params;
                do _ <- progress_bar_set true;
                do _ <- print n;
                do _ <- modify_self (set_optimal_batch_size n);
                if _early_exit (self w) then raise _TunerExitException else ret tt) w_r))
    by (subst w'; rewrite Hscale; reflexivity).
  destruct (finish_counters n (_early_exit (self w)) w_r) as (Cn & Cf).
  cbv zeta in Cn, Cf. rewrite <- Hw' in Cn, Cf.
  eexists w_r, _. split; [exact Hrel|]. split; [exact Hnz|].
  split; [exact Hdec|]. split; [reflexivity|]. split; [reflexivity|].
  split; [rewrite Hscale; rewrite (bind_Ok _ _ _ _ _ Hdec); reflexivity|].
  split; [exact Cn|]. split.
  - intros Hr Hw. apply (Cf Hr (trainer w)); [|exact Hw].
    rewrite Hself, Fs. exact Pd.
  - intros Hnot Hnf. specialize (Hnz Hnot). subst w_r.
    assert (Hfit : fit_loop (trainer w1) = fit_loop (trainer w)).
    { rewrite <- (Pfit Hnf).
      assert (E : loop_of FITTING (trainer w1)
                  = loop_of FITTING (trainer (prepared (after_guards w))))
        by (apply Floops; congruence).
      unfold loop_of in E. injection E as E. exact E. }
    destruct Cn as [Ce Cg]; [congruence|].
    rewrite Ce, Cg, Hfit. split; reflexivity.
Qed.

Lemma counters_decremented_witness :
  let X := simulated None 33 100 in
  let w := set_trainer (set_is_global_zero false (sim_trainer VALIDATING 100 1))
             (sim_world VALIDATING 100 1 (new_finder "binsearch" 1 2 25)) in
  let w' := world_of (scale_batch_size X 100 w) in
  current_epoch (fit_loop (trainer w')) = current_epoch (fit_loop (trainer w)) - 1
  /\ global_step (fit_loop (trainer w')) = global_step (fit_loop (trainer w)) - 1.
Proof.
  intros X w w'.
  destruct (counters_decremented X 100 w
              (world_of (search_phase X 100 (after_guards w))) ("/tmp", 0%nat) 33)
    as (w_r & w_d & _ & _ & _ & _ & _ & _ & _ & _ & H).
  - reflexivity.
  - vm_compute. reflexivity.
  - reflexivity.
  - cbn. discriminate.
  - vm_compute. reflexivity.
  - apply H; [reflexivity | cbn; discriminate].
Defined.

(** ** Convergence of the binary search *)

Lemma clamp_roomy T d t c :
  roomy T d ->
  (c <= T -> clamp_to_dataset c d t = c)
  /\ (T < c -> T < clamp_to_dataset c d t <= c).
Proof.
  unfold roomy, clamp_to_dataset, _is_valid_batch_size.
  intros [-> | Hd]; cbn; [split; intros; lia|].
  destruct (has_len_all_ranks d); cbn; [|split; intros; lia].
  destruct (c <=? len_dataloader d); cbn; split; intros; lia.
Qed.

Lemma clamp_for_state_roomy T t c :
  roomy_trainer T t ->
  (c <= T -> clamp_for_state t c = c)
  /\ (T < c -> T < clamp_for_state t c <= c).
Proof.
  intros (d & Hd & Hr). rewrite (clamp_for_state_active t d c Hd).
  apply clamp_roomy. exact Hr.
Qed.

(** With the dumped state in place, the outcome of [_try_loop_run] is the
    outcome of [loop.run()] on a trainer that has the module of the world. *)
Lemma try_loop_run_ready X w :
  ready_for_trials w ->
  exists t l,
    lightning_module t = lightning_module (trainer w)
    /\ match snd (loop_run X t l) with
       | None => exists w1, _try_loop_run X w = Ok tt w1
       | Some e => exists w1, _try_loop_run X w = Raise e w1
       end.
Proof.
  intros (Hfn & [d Hd] & Hg).
  break_world w; cbn in Hfn, Hd, Hg; try congruence; subst.
  1: destruct Hg as [g Hg]; [reflexivity|]; subst.
  all: unfold _try_loop_run, run, bind, get_trainer, dumped, modify_loop, modify_trainer,
         raise, ret; cbn.
  all: match goal with
       | |- context [loop_run ?x ?t ?l] =>
           exists t, l; split; [reflexivity|];
           destruct (loop_run x t l) as [l2 [e|]]; cbn; eexists; reflexivity
       end.
Qed.

Lemma trial_outcome X T from s0 b w :
  search_state T s0 b w ->
  fails_above X (batch_arg_name s0) from T ->
  from <= b ->
  (b <= T ->
   exists w1, _try_loop_run X w = Ok tt w1
              /\ search_state T s0 b w1
              /\ trial_log w1 = trial_log w ++ [(Some b, None)])
  /\ (T < b ->
      exists e w1, _try_loop_run X w = Raise e w1
                   /\ memory_exhaustion X e = true
                   /\ search_state T s0 b w1
                   /\ trial_log w1 = trial_log w ++ [(Some b, Some e)]).
Proof.
  intros (Hready & Hb & Hroomy & Hname & Hmt) Horacle Hfrom.
  destruct (try_loop_run_ready X w Hready) as (t & l & Hm & Hout).
  assert (Hget : lightning_getattr (lightning_module t) (batch_arg_name s0) = Some b)
    by (rewrite Hm, <- Hname; exact Hb).
  destruct (Horacle t l b Hget Hfrom) as [Hok Hfail].
  assert (Hkeep : forall w1, outside_trial w1 = outside_trial w -> search_state T s0 b w1).
  { intros w1 Ho. apply outside_trial_fields in Ho.
    destruct Ho as (Es & Efn & Em & Ed & Eb).
    unfold search_state, ready_for_trials, roomy_trainer in *.
    rewrite Es, Efn, Ed, Eb. auto. }
  split.
  - intros Hle. rewrite (Hok Hle) in Hout. destruct Hout as [w1 Hrun].
    exists w1. split; [exact Hrun|].
    destruct (try_loop_run_cases X w)
      as [(w2 & H2 & Hl & Ho) | [(e & w2 & H2 & _) | (e & w2 & H2 & _)]];
      rewrite Hrun in H2; try discriminate.
    injection H2 as <-. rewrite Hb in Hl. auto.
  - intros Hlt. destruct (Hfail Hlt) as (e & He & Hoom).
    rewrite He in Hout. destruct Hout as [w1 Hrun].
    exists e, w1. split; [exact Hrun|]. split; [exact Hoom|].
    destruct (try_loop_run_cases X w)
      as [(w2 & H2 & _) | [(e2 & w2 & H2 & Hl & Ho) | (e2 & w2 & H2 & Hrt & _)]];
      rewrite Hrun in H2; try discriminate.
    + injection H2 as <- <-. rewrite Hb in Hl. auto.
    + injection H2 as <- <-. unfold memory_exhaustion in Hoom.
      rewrite Hrt in Hoom. discriminate.
Qed.

Lemma exact_doubling b T :
  1 <= b <= T -> T < 2 ^ 52 ->
  @None Z = None -> Z.abs b < 2 ^ 53 /\ Z.abs (b * 2) < 2 ^ 53.
Proof.
  change (2 ^ 52) with 4503599627370496. change (2 ^ 53) with 9007199254740992.
  intros Hb HT _. lia.
Qed.

Lemma adjust_step T s0 b w factor value desc :
  search_state T s0 b w ->
  (value = None -> Z.abs b < 2 ^ 53 /\ Z.abs (b * factor) < 2 ^ 53) ->
  let size := clamp_for_state (trainer w)
                (match value with Some v => v | None => b * factor end) in
  _adjust_batch_size factor value desc w
  = Ok (size, negb (size =? b)) (with_batch_size size w)
  /\ search_state T s0 size (with_batch_size size w)
  /\ trial_log (with_batch_size size w) = trial_log w.
Proof.
  intros (Hready & Hb & Hroomy & Hname & Hmt) Hexact. cbv zeta.
  split; [apply (adjust_batch_size_Some factor value desc w b Hb Hexact)|].
  split; [|reflexivity].
  split; [exact Hready|].
  split; [eapply batch_size_of_with_batch_size; exact Hb|].
  auto.
Qed.

Lemma reset_step X T s0 b w :
  search_state T s0 b w ->
  roomy_reloads X T ->
  exists w1, _reset_dataloaders X w = Ok tt w1
             /\ search_state T s0 b w1
             /\ trial_log w1 = trial_log w.
Proof.
  intros (Hready & Hb & Hroomy & Hname & Hmt) Hre.
  eexists. split; [apply reset_dataloaders_eq|]. split; [|reflexivity].
  destruct Hready as (Hfn & Hd & Hg).
  unfold search_state, ready_for_trials, roomy_trainer, batch_size_of, active_dataloader,
    reloaded in *. cbn.
  destruct (state_fn (trainer w)) eqn:Efn; try congruence; cbn; rewrite ?Efn;
    (repeat split; try assumption; try congruence;
     eexists; split; [reflexivity | apply Hre]).
Qed.

Lemma memory_exhaustion_true X e :
  memory_exhaustion X e = true -> is_runtime_error e = true /\ is_oom_error X e = true.
Proof. unfold memory_exhaustion. intros H. apply andb_true_iff in H. exact H. Qed.

(** An iteration whose trial runs out of memory: the size tried becomes
    [high], and the next size is the guarded midpoint. *)
Lemma binary_body_failure X T from s0 v w :
  search_state T s0 (new_size v) w ->
  fails_above X (batch_arg_name s0) from T ->
  roomy_reloads X T ->
  from <= new_size v ->
  T < new_size v ->
  exists r w' e,
    binary_body X v w
    = Ok (mkLocals (low v) (Some (new_size v)) (count v) r,
          if new_size v - low v <=? 1 then BREAK else CONTINUE) w'
    /\ ((new_size v + low v) / 2 <= T -> r = (new_size v + low v) / 2)
    /\ (T < (new_size v + low v) / 2 -> T < r <= (new_size v + low v) / 2)
    /\ search_state T s0 r w'
    /\ trial_log w' = trial_log w ++ [(Some (new_size v), Some e)].
Proof.
  intros Hst Horacle Hre Hfrom Hlt.
  remember (binary_body X v w) as res eqn:Hr.
  unfold binary_body, garbage_collection_cuda in Hr.
  unfold bind at 1, ret at 1 in Hr. unfold bind at 1, get_self at 1 in Hr.
  cbv beta iota zeta in Hr.
  destruct (trial_outcome X T from s0 _ w Hst Horacle Hfrom) as [_ Hfail].
  destruct (Hfail Hlt) as (e & w1 & Hrun & Hoom & Hst1 & Hlog1).
  rewrite (try_except_bind_Raise _ _ _ _ _ _ Hrun) in Hr.
  destruct (memory_exhaustion_true X e Hoom) as [-> ->] in Hr.
  unfold bind at 1, ret at 1 in Hr.
  destruct (adjust_step T s0 _ w1 1 (Some ((new_size v + low v) / 2)) (Some "failed") Hst1
              ltac:(discriminate))
    as (Hadj & Hst2 & Hlog2).
  cbv zeta in Hadj, Hst2, Hlog2.
  rewrite (bind_Ok _ _ _ _ _ Hadj) in Hr. cbv beta iota in Hr.
  destruct (clamp_for_state_roomy T (trainer w1) ((new_size v + low v) / 2))
    as [Hin Hout]; [apply Hst1|].
  set (r := clamp_for_state (trainer w1) ((new_size v + low v) / 2)) in *.
  destruct (negb (r =? new_size v)).
  - destruct (reset_step X T s0 r _ Hst2 Hre) as (w3 & Hreset & Hst3 & Hlog3).
    rewrite (bind_Ok _ _ _ _ _ Hreset) in Hr.
    exists r, w3, e. split.
    + rewrite Hr. destruct (new_size v - low v <=? 1); reflexivity.
    + split; [exact Hin|]. split; [exact Hout|]. split; [exact Hst3|].
      rewrite Hlog3. exact Hlog1.
  - unfold bind at 1, ret at 1 in Hr.
    exists r, (with_batch_size r w1), e. split.
    + rewrite Hr. destruct (new_size v - low v <=? 1); reflexivity.
    + split; [exact Hin|]. split; [exact Hout|]. split; [exact Hst2|].
      exact Hlog1.
Qed.

Ltac enter_binary_body res Hr :=
  match goal with
  | |- context [binary_body ?X ?v ?w] =>
      remember (binary_body X v w) as res eqn:Hr;
      unfold binary_body, garbage_collection_cuda in Hr;
      unfold bind at 1, ret at 1 in Hr; unfold bind at 1, get_self at 1 in Hr;
      cbv beta iota zeta in Hr
  end.

(** An iteration whose trial succeeds before any failure: the size is
    doubled, up to the guard. *)
Lemma binary_body_doubles X T from s0 v w :
  search_state T s0 (new_size v) w ->
  fails_above X (batch_arg_name s0) from T ->
  roomy_reloads X T ->
  from <= new_size v ->
  1 <= new_size v <= T ->
  T < 2 ^ 52 ->
  count v + 1 <= max_trials s0 ->
  high v = None ->
  exists r w',
    binary_body X v w = Ok (mkLocals (new_size v) None (count v + 1) r, CONTINUE) w'
    /\ new_size v < r <= 2 * new_size v
    /\ (r <= T -> r = 2 * new_size v)
    /\ search_state T s0 r w'
    /\ trial_log w' = trial_log w ++ [(Some (new_size v), None)].
Proof.
  intros Hst Horacle Hre Hfrom Hb Hexact Hcount Hhigh.
  enter_binary_body res Hr.
  destruct (trial_outcome X T from s0 _ w Hst Horacle Hfrom) as [Hok _].
  destruct Hok as (w1 & Hrun & Hst1 & Hlog1); [lia|].
  rewrite (try_except_bind_Ok _ _ _ _ tt _ Hrun) in Hr.
  replace (max_trials (self w)) with (max_trials s0) in Hr by (symmetry; apply Hst).
  destruct (Z.gtb_spec (count v + 1) (max_trials s0)) as [?|_]; [lia|].
  rewrite Hhigh in Hr. cbn [truthy] in Hr.
  destruct (adjust_step T s0 _ w1 2 None (Some "succeeded") Hst1
              (exact_doubling _ T Hb Hexact)) as (Hadj & Hst2 & Hlog2).
  cbv zeta in Hadj, Hst2, Hlog2.
  destruct (clamp_for_state_roomy T (trainer w1) (new_size v * 2)) as [Hin Hout];
    [apply Hst1|].
  set (r := clamp_for_state (trainer w1) (new_size v * 2)) in *.
  assert (Hr_range : new_size v < r <= 2 * new_size v /\ (r <= T -> r = 2 * new_size v)).
  { destruct (Z.le_gt_cases (new_size v * 2) T) as [Hle|Hgt].
    - rewrite (Hin Hle). lia.
    - specialize (Hout ltac:(lia)). lia. }
  assert (Hchanged : negb (r =? new_size v) = true)
    by (apply negb_true_iff, Z.eqb_neq; lia).
  clear Hin Hout.
  rewrite Hchanged in Hadj.
  destruct (reset_step X T s0 r _ Hst2 Hre) as (w3 & Hreset & Hst3 & Hlog3).
  unfold try_except in Hr. rewrite (bind_Ok _ _ _ _ _ Hadj) in Hr. cbv beta iota in Hr.
  rewrite (bind_Ok _ _ _ _ _ Hreset) in Hr. unfold ret in Hr.
  exists r, w3. split; [exact Hr|]. split; [apply Hr_range|]. split; [apply Hr_range|].
  split; [exact Hst3|].
  rewrite Hlog3. exact Hlog1.
Qed.

(** An iteration whose trial succeeds next to a size known to fail: the
    search stops on the size tried. *)
Lemma binary_body_converges X T from s0 v w h :
  search_state T s0 (new_size v) w ->
  fails_above X (batch_arg_name s0) from T ->
  from <= new_size v ->
  new_size v <= T ->
  count v + 1 <= max_trials s0 ->
  high v = Some h -> h <> 0 -> h - new_size v <= 1 ->
  exists w',
    binary_body X v w
    = Ok (mkLocals (new_size v) (Some h) (count v + 1) (new_size v), BREAK) w'
    /\ search_state T s0 (new_size v) w'
    /\ trial_log w' = trial_log w ++ [(Some (new_size v), None)].
Proof.
  intros Hst Horacle Hfrom Hb Hcount Hhigh Hh Hgap.
  enter_binary_body res Hr.
  destruct (trial_outcome X T from s0 _ w Hst Horacle Hfrom) as [Hok _].
  destruct Hok as (w1 & Hrun & Hst1 & Hlog1); [lia|].
  rewrite (try_except_bind_Ok _ _ _ _ tt _ Hrun) in Hr.
  replace (max_trials (self w)) with (max_trials s0) in Hr by (symmetry; apply Hst).
  destruct (Z.gtb_spec (count v + 1) (max_trials s0)) as [?|_]; [lia|].
  rewrite Hhigh in Hr. cbn [truthy] in Hr. change (default 0 (Some h)) with h in Hr.
  replace (h =? 0) with false in Hr by (symmetry; apply Z.eqb_neq; exact Hh).
  cbn [negb] in Hr.
  destruct (Z.leb_spec (h - new_size v) 1) as [_|?]; [|lia].
  unfold try_except, ret in Hr.
  exists w1. split; [exact Hr|]. split; [exact Hst1 | exact Hlog1].
Qed.

(** An iteration whose trial succeeds with room below the failing size:
    the next size is the guarded midpoint. *)
Lemma binary_body_bisects X T from s0 v w h :
  search_state T s0 (new_size v) w ->
  fails_above X (batch_arg_name s0) from T ->
  roomy_reloads X T ->
  from <= new_size v ->
  new_size v <= T ->
  count v + 1 <= max_trials s0 ->
  high v = Some h -> h <> 0 -> 2 <= h - new_size v ->
  exists r w',
    binary_body X v w = Ok (mkLocals (new_size v) (Some h) (count v + 1) r, CONTINUE) w'
    /\ new_size v < r <= (h + new_size v) / 2
    /\ (r <= T -> r = (h + new_size v) / 2)
    /\ search_state T s0 r w'
    /\ trial_log w' = trial_log w ++ [(Some (new_size v), None)].
Proof.
  intros Hst Horacle Hre Hfrom Hb Hcount Hhigh Hh Hgap.
  enter_binary_body res Hr.
  destruct (trial_outcome X T from s0 _ w Hst Horacle Hfrom) as [Hok _].
  destruct Hok as (w1 & Hrun & Hst1 & Hlog1); [lia|].
  rewrite (try_except_bind_Ok _ _ _ _ tt _ Hrun) in Hr.
  replace (max_trials (self w)) with (max_trials s0) in Hr by (symmetry; apply Hst).
  destruct (Z.gtb_spec (count v + 1) (max_trials s0)) as [?|_]; [lia|].
  rewrite Hhigh in Hr. cbn [truthy] in Hr. change (default 0 (Some h)) with h in Hr.
  replace (h =? 0) with false in Hr by (symmetry; apply Z.eqb_neq; exact Hh).
  cbn [negb] in Hr.
  destruct (Z.leb_spec (h - new_size v) 1) as [?|_]; [lia|].
  destruct (adjust_step T s0 _ w1 1 (Some ((h + new_size v) / 2)) (Some "succeeded") Hst1
              ltac:(discriminate))
    as (Hadj & Hst2 & Hlog2).
  cbv zeta in Hadj, Hst2, Hlog2.
  destruct (clamp_for_state_roomy T (trainer w1) ((h + new_size v) / 2)) as [Hin Hout];
    [apply Hst1|].
  set (r := clamp_for_state (trainer w1) ((h + new_size v) / 2)) in *.
  assert (Hmid : new_size v + 1 <= (h + new_size v) / 2)
    by (apply Z.div_le_lower_bound; lia).
  assert (Hr_range : new_size v < r <= (h + new_size v) / 2
                     /\ (r <= T -> r = (h + new_size v) / 2)).
  { destruct (Z.le_gt_cases ((h + new_size v) / 2) T) as [Hle|Hgt].
    - rewrite (Hin Hle). lia.
    - specialize (Hout ltac:(lia)). lia. }
  assert (Hchanged : negb (r =? new_size v) = true)
    by (apply negb_true_iff, Z.eqb_neq; lia).
  clear Hin Hout.
  rewrite Hchanged in Hadj.
  destruct (reset_step X T s0 r _ Hst2 Hre) as (w3 & Hreset & Hst3 & Hlog3).
  unfold try_except in Hr. rewrite (bind_Ok _ _ _ _ _ Hadj) in Hr. cbv beta iota in Hr.
  rewrite (bind_Ok _ _ _ _ _ Hreset) in Hr. unfold ret in Hr.
  exists r, w3. split; [exact Hr|]. split; [apply Hr_range|]. split; [apply Hr_range|].
  split; [exact Hst3|].
  rewrite Hlog3. exact Hlog1.
Qed.

Lemma fails_above_weaken X name from from' T :
  from <= from' -> fails_above X name from T -> fails_above X name from' T.
Proof. intros Hle H t l b Hb Hfrom. apply H; [exact Hb | lia]. Qed.

Lemma trials_above_one T lo b out before after :
  after = before ++ [(Some b, out)] -> lo < b -> (out = None -> b <= T) ->
  trials_above T lo before after.
Proof.
  intros -> Hlt Hout. exists [(Some b, out)]. split; [reflexivity|].
  constructor; [|constructor]. exists b. split; [reflexivity|]. split; [exact Hlt|].
  destruct out; [discriminate | auto].
Qed.

Lemma trials_above_step T lo lo' b out before mid after :
  mid = before ++ [(Some b, out)] -> lo < b -> (out = None -> b <= T) -> lo <= lo' ->
  trials_above T lo' mid after -> trials_above T lo before after.
Proof.
  intros -> Hlt Hout Hle (added & -> & Hall).
  exists ((Some b, out) :: added). split.
  - rewrite <- app_assoc. reflexivity.
  - constructor.
    + exists b. split; [reflexivity|]. split; [exact Hlt|].
      destruct out; [discriminate | auto].
    + eapply Forall_impl; [exact Hall|]. cbn.
      intros tr (b' & Hb' & Hlt' & Hs'). exists b'. split; [exact Hb'|].
      split; [lia | exact Hs'].
Qed.

Lemma midpoint_between lo hi : lo + 2 <= hi -> lo + 1 <= (hi + lo) / 2 < hi.
Proof.
  intros H. split.
  - apply Z.div_le_lower_bound; lia.
  - apply Z.div_lt_upper_bound; lia.
Qed.

Lemma midpoint_adjacent lo : (lo + 1 + lo) / 2 = lo.
Proof.
  replace (lo + 1 + lo) with (1 + lo * 2) by lia.
  rewrite Z.div_add by lia. reflexivity.
Qed.

(** A successful trial at the midpoint halves the gap, rounding up. *)
Lemma log2_up_upper_half lo hi :
  lo + 2 <= hi ->
  Z.log2_up (hi - (hi + lo) / 2) + 1 <= Z.log2_up (hi - lo).
Proof.
  intros H.
  destruct (midpoint_between lo hi H) as [Hm1 Hm2].
  pose proof (Z.log2_up_pos (hi - lo) ltac:(lia)) as Hk.
  destruct (Z.log2_log2_up_spec (hi - lo) ltac:(lia)) as [_ Hup].
  set (k := Z.log2_up (hi - lo)) in *.
  assert (Hpow : 2 ^ k = 2 * 2 ^ (k - 1)).
  { replace k with (Z.succ (k - 1)) at 1 by lia. apply Z.pow_succ_r. lia. }
  pose proof (Z.div_mod (hi + lo) 2 ltac:(lia)) as Hdm.
  pose proof (Z.mod_pos_bound (hi + lo) 2 ltac:(lia)) as Hmb.
  assert (Hc : hi - (hi + lo) / 2 <= 2 ^ (k - 1)) by lia.
  apply (Z.log2_up_le_pow2 _ (k - 1)) in Hc; lia.
Qed.

Lemma budget_positive T lo hi : lo < T -> lo + 2 <= hi -> 1 <= budget T lo hi.
Proof.
  intros H1 H2. unfold budget.
  pose proof (Z.log2_up_pos (hi - lo) ltac:(lia)). lia.
Qed.

Lemma budget_success T lo hi :
  lo + 2 <= hi -> (hi + lo) / 2 <= T ->
  budget T ((hi + lo) / 2) hi + 1 <= budget T lo hi.
Proof.
  intros H1 H2. unfold budget.
  destruct (midpoint_between lo hi H1) as [Hm1 Hm2].
  pose proof (log2_up_upper_half lo hi H1). lia.
Qed.

Lemma budget_failure T lo b hi : b <= hi -> budget T lo b <= budget T lo hi.
Proof.
  intros H. unfold budget.
  pose proof (Z.log2_up_le_mono (b - lo) (hi - lo) ltac:(lia)). lia.
Qed.

(** The bisection phase: between a size known to work and a size known to
    fail, the loop ends on the threshold. *)
Lemma bisection_converges X T s0 (fuel : nat) : forall v w h,
  fails_above X (batch_arg_name s0) 2 T ->
  roomy_reloads X T ->
  search_state T s0 (new_size v) w ->
  high v = Some h ->
  1 <= low v <= T -> T < h ->
  low v < new_size v < h ->
  (new_size v <= T -> new_size v = (h + low v) / 2) ->
  count v + budget T (low v) h <= max_trials s0 ->
  h - low v <= Z.of_nat fuel ->
  exists v' w',
    binary_loop X fuel v w = Ok v' w'
    /\ converged_at T v'
    /\ batch_size_of w' = Some T
    /\ trials_above T (low v) (trial_log w) (trial_log w').
Proof.
  induction fuel as [|fuel IH];
    intros v w h Horacle Hre Hst Hhigh Hlow Hh Hb Hmidv Hcount Hfuel; [lia|].
  cbn [binary_loop].
  destruct (Z.le_gt_cases (new_size v) T) as [Hle|Hgt].
  - pose proof (budget_positive T (low v) h ltac:(lia) ltac:(lia)) as Hpos.
    destruct (Z.le_gt_cases (h - new_size v) 1) as [Hgap|Hgap].
    + destruct (binary_body_converges X T 2 s0 v w h) as (w1 & Hbody & Hst1 & Hlog);
        try assumption; try lia.
      rewrite (bind_Ok _ _ _ _ _ Hbody). cbv beta iota. unfold ret.
      eexists _, w1. split; [reflexivity|].
      split; [unfold converged_at; cbn; repeat split; try lia; f_equal; lia|].
      split.
      * replace T with (new_size v) by lia. apply Hst1.
      * eapply trials_above_one; [exact Hlog | lia | first [discriminate | intros; lia]].
    + destruct (binary_body_bisects X T 2 s0 v w h)
        as (r & w1 & Hbody & Hr & Hrmid & Hst1 & Hlog); try assumption; try lia.
      rewrite (bind_Ok _ _ _ _ _ Hbody). cbv beta iota.
      destruct (midpoint_between (new_size v) h ltac:(lia)) as [_ Hmid].
      pose proof (budget_success T (low v) h ltac:(lia)) as Hbs.
      rewrite <- (Hmidv Hle) in Hbs. specialize (Hbs Hle).
      destruct (IH (mkLocals (new_size v) (Some h) (count v + 1) r) w1 h)
        as (v' & w' & Hloop & Hconv & Hsize & Hlog');
        cbn [low high count new_size]; try assumption; try lia; try reflexivity.
      exists v', w'. split; [exact Hloop|]. split; [exact Hconv|].
      split; [exact Hsize|].
      eapply trials_above_step; [exact Hlog | lia | first [discriminate | intros; lia] | | exact Hlog']; cbn; lia.
  - destruct (binary_body_failure X T 2 s0 v w)
      as (r & w1 & e & Hbody & Hin & Hout & Hst1 & Hlog); try assumption; try lia.
    rewrite (bind_Ok _ _ _ _ _ Hbody). cbv beta iota.
    destruct (Z.leb_spec (new_size v - low v) 1) as [Hgap|Hgap].
    + unfold ret. eexists _, w1. split; [reflexivity|].
      assert (Hn : new_size v = low v + 1) by lia.
      assert (Hl : low v = T) by lia.
      assert (Hr : r = T).
      { rewrite Hn, midpoint_adjacent in Hin. rewrite Hin; lia. }
      split; [unfold converged_at; cbn; repeat split; try lia; f_equal; lia|].
      split.
      * rewrite <- Hr. apply Hst1.
      * eapply trials_above_one; [exact Hlog | lia | first [discriminate | intros; lia]].
    + destruct (midpoint_between (low v) (new_size v) ltac:(lia)) as [Hm1 Hm2].
      assert (Hr : low v < r < new_size v
                   /\ (r <= T -> r = (new_size v + low v) / 2)).
      { destruct (Z.le_gt_cases ((new_size v + low v) / 2) T) as [Hc|Hc].
        - rewrite (Hin Hc). lia.
        - specialize (Hout Hc). lia. }
      pose proof (budget_failure T (low v) (new_size v) h ltac:(lia)) as Hbf.
      destruct (IH (mkLocals (low v) (Some (new_size v)) (count v) r) w1 (new_size v))
        as (v' & w' & Hloop & Hconv & Hsize & Hlog');
        cbn [low high count new_size]; try assumption; try lia; try reflexivity;
        try apply Hr.
      exists v', w'. split; [exact Hloop|]. split; [exact Hconv|].
      split; [exact Hsize|].
      eapply trials_above_step; [exact Hlog | lia | first [discriminate | intros; lia] | | exact Hlog']; cbn; lia.
Qed.

(** The first trial that runs out of memory, and the bisection after it. *)
Lemma first_failure_converges X T s0 (fuel : nat) v w :
  fails_above X (batch_arg_name s0) 2 T ->
  roomy_reloads X T ->
  search_state T s0 (new_size v) w ->
  high v = None ->
  1 <= low v <= T -> T < new_size v ->
  count v + budget T (low v) (new_size v) <= max_trials s0 ->
  new_size v - low v + 1 <= Z.of_nat fuel ->
  exists v' w',
    binary_loop X fuel v w = Ok v' w'
    /\ converged_at T v'
    /\ batch_size_of w' = Some T
    /\ trials_above T (low v) (trial_log w) (trial_log w').
Proof.
  intros Horacle Hre Hst Hhigh Hlow Hb Hcount Hfuel.
  destruct fuel as [|fuel]; [lia|]. cbn [binary_loop].
  destruct (binary_body_failure X T 2 s0 v w)
    as (r & w1 & e & Hbody & Hin & Hout & Hst1 & Hlog); try assumption; try lia.
  rewrite (bind_Ok _ _ _ _ _ Hbody). cbv beta iota.
  destruct (Z.leb_spec (new_size v - low v) 1) as [Hgap|Hgap].
  - unfold ret. eexists _, w1. split; [reflexivity|].
    assert (Hn : new_size v = low v + 1) by lia.
    assert (Hl : low v = T) by lia.
    assert (Hr : r = T).
    { rewrite Hn, midpoint_adjacent in Hin. rewrite Hin; lia. }
    split; [unfold converged_at; cbn; repeat split; try lia; f_equal; lia|].
    split.
    + rewrite <- Hr. apply Hst1.
    + eapply trials_above_one; [exact Hlog | lia | first [discriminate | intros; lia]].
  - destruct (midpoint_between (low v) (new_size v) ltac:(lia)) as [Hm1 Hm2].
    assert (Hr : low v < r < new_size v
                 /\ (r <= T -> r = (new_size v + low v) / 2)).
    { destruct (Z.le_gt_cases ((new_size v + low v) / 2) T) as [Hc|Hc].
      - rewrite (Hin Hc). lia.
      - specialize (Hout Hc). lia. }
    destruct (bisection_converges X T s0 fuel
                (mkLocals (low v) (Some (new_size v)) (count v) r) w1 (new_size v))
      as (v' & w' & Hloop & Hconv & Hsize & Hlog');
      cbn [low high count new_size]; try assumption; try lia; try reflexivity;
      try apply Hr.
    exists v', w'. split; [exact Hloop|]. split; [exact Hconv|].
    split; [exact Hsize|].
    eapply trials_above_step; [exact Hlog | lia | first [discriminate | intros; lia] | | exact Hlog']; cbn; lia.
Qed.

Lemma doubling_budget_positive T b : 1 <= b <= T -> 1 <= doubling_budget T b.
Proof.
  intros H. unfold doubling_budget.
  destruct (Z.leb_spec b T); [|lia].
  pose proof (Z.log2_le_mono b T ltac:(lia)).
  pose proof (Z.log2_up_nonneg T). lia.
Qed.

Lemma doubling_budget_step T b r :
  1 <= b <= T -> (r <= T -> r = 2 * b) ->
  doubling_budget T r + 1 <= doubling_budget T b.
Proof.
  intros H Hr. unfold doubling_budget.
  destruct (Z.leb_spec b T); [|lia].
  pose proof (Z.log2_le_mono b T ltac:(lia)).
  destruct (Z.leb_spec r T) as [Hle|Hgt]; [|lia].
  rewrite (Hr Hle), Z.log2_double by lia. lia.
Qed.

Lemma doubling_budget_switch T lo b :
  1 <= lo <= T -> T < b -> b <= 2 * lo ->
  budget T lo b <= doubling_budget T b.
Proof.
  intros H1 H2 H3. unfold budget, doubling_budget.
  destruct (Z.leb_spec b T); [lia|].
  pose proof (Z.log2_up_le_mono (b - lo) T ltac:(lia)). lia.
Qed.

(** The doubling phase, from sizes that work up to the first that fails. *)
Lemma doubling_converges X T s0 (fuel : nat) : forall v w,
  fails_above X (batch_arg_name s0) 1 T ->
  roomy_reloads X T ->
  T < 2 ^ 52 ->
  search_state T s0 (new_size v) w ->
  high v = None ->
  1 <= low v <= T -> 1 <= new_size v ->
  (new_size v <= T \/ low v < new_size v <= 2 * low v) ->
  count v + doubling_budget T (new_size v) <= max_trials s0 ->
  Z.max (T + 1 - new_size v) 0 + 1 + T <= Z.of_nat fuel ->
  exists v' w',
    binary_loop X fuel v w = Ok v' w'
    /\ converged_at T v'
    /\ batch_size_of w' = Some T.
Proof.
  induction fuel as [|fuel IH];
    intros v w Horacle Hre Hexact Hst Hhigh Hlow Hb Hshape Hcount Hfuel; [lia|].
  destruct (Z.le_gt_cases (new_size v) T) as [Hle|Hgt].
  - cbn [binary_loop].
    pose proof (doubling_budget_positive T (new_size v) ltac:(lia)) as Hpos.
    destruct (binary_body_doubles X T 1 s0 v w)
      as (r & w1 & Hbody & Hr & Hrd & Hst1 & Hlog); try assumption; try lia.
    rewrite (bind_Ok _ _ _ _ _ Hbody). cbv beta iota.
    pose proof (doubling_budget_step T (new_size v) r ltac:(lia) Hrd) as Hstep.
    destruct (IH (mkLocals (new_size v) None (count v + 1) r) w1)
      as (v' & w' & Hloop & Hconv & Hsize);
      cbn [low high count new_size]; try assumption; try lia; try reflexivity.
    exists v', w'. auto.
  - pose proof (doubling_budget_switch T (low v) (new_size v)
                  ltac:(lia) ltac:(lia) ltac:(lia)) as Hsw.
    destruct (first_failure_converges X T s0 (S fuel) v w)
      as (v' & w' & Hloop & Hconv & Hsize & _); try assumption; try lia.
    + eapply fails_above_weaken; [|exact Horacle]. lia.
    + exists v', w'. auto.
Qed.



Lemma prepared_ready w :
  state_fn (trainer w) <> TUNING -> ready_for_trials (prepared w).
Proof.
  intros Hfn. unfold ready_for_trials.
  destruct (prepared_fields w) as (Pfn & _ & _ & _ & _ & Pd & _).
  rewrite Pfn, Pd. unfold dumped_of.
  destruct (state_fn (trainer w)); try congruence;
    (split; [discriminate|]; split; [eexists; reflexivity|]);
    first [intros _; eexists; reflexivity | discriminate].
Qed.

Lemma prepared_batch_size w b :
  batch_size_of w = Some b ->
  batch_size_of (prepared w) = Some (clamp_for_state (trainer w) (init_val (self w))).
Proof.
  intros Hb. unfold prepared. cbv zeta.
  apply (batch_size_of_with_batch_size _ b).
  revert Hb. break_world w; destruct progress_bar_callback0; intros Hb; exact Hb.
Qed.

(** The world in which the loops start, for a size that the guard lets
    through. *)
Lemma prepared_search_state T w :
  state_fn (trainer w) <> TUNING ->
  lightning_hasattr (lightning_module (trainer w)) (batch_arg_name (self w)) = true ->
  roomy_trainer T (trainer w) ->
  clamp_for_state (trainer w) (init_val (self w)) = init_val (self w) ->
  prepare_search w
  = Ok ((default_root_dir (trainer w), uuid_supply w), init_val (self w)) (prepared w)
  /\ search_state T (self w) (init_val (self w)) (prepared w)
  /\ trial_log (prepared w) = trial_log w.
Proof.
  intros Hfn Hattr Hroomy Hclamp.
  destruct (hasattr_getattr _ _ Hattr) as [b Hb].
  split.
  { rewrite <- Hclamp at 1. apply (prepare_search_eq w b Hfn Hb). }
  split; [|reflexivity].
  destruct (prepared_fields w)
    as (Pfn & _ & _ & _ & _ & _ & _ & _ & Pdl & _ & Pmt & Pname).
  split; [apply prepared_ready; exact Hfn|].
  split; [rewrite <- Hclamp at 1; apply (prepared_batch_size w b Hb)|].
  split; [|split; assumption].
  destruct Hroomy as (d & Hd & Hr). exists d. split; [congruence | exact Hr].
Qed.

Lemma run_search_binsearch X fuel n w v w' :
  mode (self w) = "binsearch" ->
  binary_loop X fuel (mkLocals 1 None 0 n) w = Ok v w' ->
  run_search X fuel n w = Ok (new_size v) w'.
Proof.
  intros Hm Hl. unfold run_search. unfold bind at 1, get_self at 1. rewrite Hm.
  change (String.eqb "binsearch" "power") with false.
  change (String.eqb "binsearch" "binsearch") with true.
  cbv beta iota. unfold _run_binary_scaling.
  rewrite (bind_Ok _ _ _ _ _ Hl). destruct v; reflexivity.
Qed.

(** C2, as the code has it.  Take a trainer in one of the four run modes
    whose module declares the batch size, a finder in [binsearch] mode with
    [1 <= init_val <= T], trials that run out of memory exactly above [T],
    with [T < 2^52] so that the float product of the doubling is exact, and
    loaders that are roomy for [T] (the dataset length is unknown, or the
    dataset has more than [T] samples).  With [max_trials] at least
    [log2 T - log2 init_val + 1 + log2_up T] and enough iterations, the
    search returns exactly [T], so a size within [T - 1 .. T], with
    [low = T] and [high = T + 1] on termination, and the module holds [T]. *)
Theorem binsearch_converges (X : Externals) (fuel : nat) (T : Z) (w : World) :
  state_fn (trainer w) <> TUNING ->
  lightning_hasattr (lightning_module (trainer w)) (batch_arg_name (self w)) = true ->
  mode (self w) = "binsearch" ->
  1 <= init_val (self w) <= T ->
  T < 2 ^ 52 ->
  fails_above X (batch_arg_name (self w)) 1 T ->
  roomy_trainer T (trainer w) ->
  roomy_reloads X T ->
  doubling_budget T (init_val (self w)) <= max_trials (self w) ->
  2 * T + 1 <= Z.of_nat fuel ->
  exists save_path w0 v w',
    prepare_search w = Ok (save_path, init_val (self w)) w0
    /\ binary_loop X fuel (mkLocals 1 None 0 (init_val (self w))) w0 = Ok v w'
    /\ new_size v = T
    /\ low v = T
    /\ high v = Some (T + 1)
    /\ search_phase X fuel w = Ok (save_path, T) w'
    /\ batch_size_of w' = Some T.
Proof.
  intros Hfn Hattr Hmode Hinit Hexact Horacle Hroomy Hre Hbudget Hfuel.
  assert (Hclamp : clamp_for_state (trainer w) (init_val (self w)) = init_val (self w))
    by (apply (clamp_for_state_roomy T); [exact Hroomy | lia]).
  destruct (prepared_search_state T w Hfn Hattr Hroomy Hclamp) as (Hprep & Hst & _).
  destruct (doubling_converges X T (self w) fuel
              (mkLocals 1 None 0 (init_val (self w))) (prepared w))
    as (v & w' & Hloop & (Hn & Hl & Hh) & Hsize);
    cbn [low high count new_size]; try assumption; try lia; try reflexivity.
  exists (default_root_dir (trainer w), uuid_supply w), (prepared w), v, w'.
  split; [exact Hprep|]. split; [exact Hloop|].
  split; [exact Hn|]. split; [exact Hl|]. split; [exact Hh|].
  split; [|exact Hsize].
  unfold search_phase. rewrite (bind_Ok _ _ _ _ _ Hprep). cbv beta iota.
  assert (Hm : mode (self (prepared w)) = "binsearch").
  { destruct (prepared_fields w) as (_ & _ & _ & _ & _ & _ & _ & _ & _ & Pm & _).
    congruence. }
  rewrite (bind_Ok _ _ _ _ _ (run_search_binsearch X fuel _ _ v w' Hm Hloop)).
  unfold ret. rewrite Hn. reflexivity.
Qed.

Lemma simulated_fails_above T n from :
  fails_above (simulated None T n) "batch_size" from T.
Proof.
  intros t l b Hb _. unfold simulated, sim_run, sim_batch_size. cbn. rewrite Hb. cbn.
  destruct (Z.ltb_spec T b); split; intros; try lia.
  - exists cuda_oom. split; reflexivity.
  - reflexivity.
Qed.

Lemma simulated_roomy_reloads fault T n T' :
  T' < n -> roomy_reloads (simulated fault T n) T'.
Proof. intros H slot t. right. exact H. Qed.

Lemma binsearch_converges_witness :
  let X := simulated None 33 100 in
  let w := sim_world FITTING 100 1 (new_finder "binsearch" 1 2 25) in
  exists save_path w0 v w',
    prepare_search w = Ok (save_path, 2) w0
    /\ binary_loop X 100 (mkLocals 1 None 0 2) w0 = Ok v w'
    /\ new_size v = 33
    /\ low v = 33
    /\ high v = Some (33 + 1)
    /\ search_phase X 100 w = Ok (save_path, 33) w'
    /\ batch_size_of w' = Some 33.
Proof.
  intros X w.
  apply (binsearch_converges X 100 33 w).
  - cbn. discriminate.
  - vm_compute. reflexivity.
  - reflexivity.
  - cbn. lia.
  - reflexivity.
  - apply simulated_fails_above.
  - eexists. split; [reflexivity|]. right. cbn. lia.
  - apply simulated_roomy_reloads. lia.
  - vm_compute. discriminate.
  - cbn. lia.
Defined.

(** The end-to-end scenario of the binary mode: two samples to start from,
    memory exhausted above 33, a dataset of 100 samples and 25 trials
    allowed.  The search returns 33 and leaves 33 in the module. *)
Lemma binsearch_end_to_end :
  let r := scale_batch_size (simulated None 33 100) 100
             (sim_world FITTING 100 1 (new_finder "binsearch" 1 2 25)) in
  returned r = Some tt
  /\ optimal_batch_size (self (world_of r)) = 33
  /\ batch_size_of (world_of r) = Some 33
  /\ stdout (world_of r) = [33]
  /\ fs (world_of r) = ∅.
Proof. vm_compute. repeat split. Qed.

(** C2 as stated fails when the data is the limit.  The trials run out of
    memory exactly above 1000 and the budget is not exhausted, but the
    dataset has 100 samples: the search stops on 100, far below the
    threshold, without ever setting [high]. *)
Lemma binsearch_stops_at_dataset_size :
  let X := simulated None 1000 100 in
  let w := sim_world FITTING 100 1 (new_finder "binsearch" 1 2 25) in
  let r := scale_batch_size X 100 w in
  fails_above X "batch_size" 1 1000
  /\ returned r = Some tt
  /\ optimal_batch_size (self (world_of r)) = 100
  /\ ~ (1000 - 1 <= optimal_batch_size (self (world_of r)))
  /\ returned (binary_loop X 100 (mkLocals 1 None 0 2) (prepared w))
     = Some (mkLocals 100 None 7 100)
  /\ length (trial_log (world_of r)) = 7%nat.
Proof.
  split; [apply simulated_fails_above|].
  vm_compute. repeat split. intros H. apply H. reflexivity.
Qed.

(** ** A first trial that fails *)





(** The same scenario run end to end: every trial fails, at 8, 4 and 2, and
    the search reports the batch size 1. *)
Lemma binsearch_all_trials_fail :
  let r := scale_batch_size (simulated None 0 100) 100
             (sim_world FITTING 100 1 (new_finder "binsearch" 1 8 25)) in
  returned r = Some tt
  /\ trial_log (world_of r)
     = [(Some 8, Some cuda_oom); (Some 4, Some cuda_oom); (Some 2, Some cuda_oom)]
  /\ optimal_batch_size (self (world_of r)) = 1
  /\ batch_size_of (world_of r) = Some 1.
Proof. vm_compute. repeat split. Qed.

(** ** The power mode on memory exhaustion *)


(** C1, at its end-to-end scenario: power mode, two samples to start from,
    one step per trial, 25 trials allowed, a dataset of 100 samples and
    memory exhausted above 33.  The trials at 2, 4, 8, 16 and 32 succeed, the
    trial at 64 runs out of memory, and the search returns 64 and leaves 64
    in the module: the size that failed, not 32, the last that worked. *)
Theorem power_scaling_returns_failing_size :
  let r := scale_batch_size (simulated None 33 100) 0
             (sim_world FITTING 100 1 (new_finder "power" 1 2 25)) in
  returned r = Some tt
  /\ trial_log (world_of r)
     = [(Some 2, None); (Some 4, None); (Some 8, None); (Some 16, None);
        (Some 32, None); (Some 64, Some cuda_oom)]
  /\ optimal_batch_size (self (world_of r)) = 64
  /\ batch_size_of (world_of r) = Some 64
  /\ stdout (world_of r) = [64].
Proof. vm_compute. repeat split. Qed.

(** The other branches of the claim hold on the code: a first trial that
    fails returns [init_val], and a search that stops on the dataset size
    returns a size that worked. *)
Lemma power_scaling_first_trial_fails :
  let r := scale_batch_size (simulated None 1 100) 0
             (sim_world FITTING 100 1 (new_finder "power" 1 2 25)) in
  returned r = Some tt
  /\ trial_log (world_of r) = [(Some 2, Some cuda_oom)]
  /\ optimal_batch_size (self (world_of r)) = 2.
Proof. vm_compute. repeat split. Qed.

(** ** Restoring after the trials' configuration *)

(** [_restore_params] also undoes [_reset_params], provided the evaluation
    loop that [_reset_params] silences has a [verbose] attribute to dump. *)
Lemma restore_undoes_reset (w : World) :
  state_fn (trainer w) <> TUNING ->
  (state_fn (trainer w) = VALIDATING -> is_Some (verbose (validate_loop (trainer w)))) ->
  (state_fn (trainer w) = TESTING -> is_Some (verbose (test_loop (trainer w)))) ->
  exists w1 w2 w3,
    _dump_params w = Ok tt w1
    /\ _reset_params w1 = Ok tt w2
    /\ _restore_params w2 = Ok tt w3
    /\ trainer w3 = trainer w.
Proof.
  intros Hfn Hv Ht.
  break_world w; cbn in Hfn, Hv, Ht; try congruence.
  - destruct verbose0; eexists _, _, _; (split; [|split; [|split]]);
      vm_compute; reflexivity.
  - destruct Hv as [b ->]; [reflexivity|].
    eexists _, _, _; (split; [|split; [|split]]); vm_compute; reflexivity.
  - destruct Ht as [b ->]; [reflexivity|].
    eexists _, _, _; (split; [|split; [|split]]); vm_compute; reflexivity.
  - destruct verbose3; eexists _, _, _; (split; [|split; [|split]]);
      vm_compute; reflexivity.
Qed.

(** * Further properties of the callback *)

(** ** Construction *)

Lemma lower_ascii_idempotent c : lower_ascii (lower_ascii c) = lower_ascii c.
Proof. destruct c as [[] [] [] [] [] [] [] []]; reflexivity. Qed.

Lemma lower_idempotent s : lower (lower s) = lower s.
Proof.
  induction s as [|c s IH]; [reflexivity|].
  cbn. rewrite lower_ascii_idempotent, IH. reflexivity.
Qed.

(** X1: the constructor accepts a mode exactly when its lower-case form is
    [power] or [binsearch], whatever the case of the letters given, and it
    builds the same finder from a mode and from its lower-case form; any
    other mode is refused with the error that names the two supported
    modes. *)
Theorem init_is_case_insensitive (m : string) (steps init trials : Z) (name : string) :
  __init__ (lower m) steps init trials name = __init__ m steps init trials name
  /\ ((exists f, __init__ m steps init trials name = inr f)
      <-> (lower m = "power" \/ lower m = "binsearch"))
  /\ ((lower m <> "power" /\ lower m <> "binsearch")
      <-> __init__ m steps init trials name
          = inl (UnsupportedMode ["power"; "binsearch"])).
Proof.
  split; [unfold __init__; rewrite lower_idempotent; reflexivity|].
  unfold __init__, supported_modes. cbn [existsb].
  destruct (String.eqb_spec (lower m) "power") as [Hp|Hp];
    destruct (String.eqb_spec (lower m) "binsearch") as [Hb|Hb]; cbn.
  1-3: split; [split; [intros _; auto | intros _; eexists; reflexivity]
              | split; [intros [? ?]; congruence | discriminate]].
  split; [split; [intros [f Hf]; discriminate | intros [?|?]; congruence]
         | split; [intros _; reflexivity | intros _; split; assumption]].
Qed.

(** X2: a finder that the constructor built always runs one of the two
    loops.  In any world whose finder has the mode the constructor stored,
    as it has when [scale_batch_size] reaches the dispatch, [run_search] is
    the power loop when the mode given lowers to [power] and the binary
    loop otherwise; the branch that returns the size untouched is never
    taken. *)
Theorem constructed_finder_dispatches (m : string) (steps init trials : Z)
    (name : string) (f : BatchSizeFinder) (X : Externals) (fuel : nat)
    (new_size : Z) (w : World) :
  __init__ m steps init trials name = inr f ->
  mode (self w) = mode f ->
  run_search X fuel new_size w
  = if String.eqb (lower m) "power"
    then _run_power_scaling X new_size w
    else _run_binary_scaling X fuel new_size w.
Proof.
  unfold __init__, supported_modes. cbn [existsb].
  intros Hinit Hmode. unfold run_search. unfold bind at 1, get_self at 1.
  rewrite Hmode.
  destruct (String.eqb_spec (lower m) "power") as [Hp|Hp];
    destruct (String.eqb_spec (lower m) "binsearch") as [Hb|Hb];
    cbn in Hinit; try discriminate; injection Hinit as <-; cbn [mode].
  - rewrite Hp. reflexivity.
  - rewrite Hp. reflexivity.
  - rewrite Hb. reflexivity.
Qed.

Lemma constructed_finder_dispatches_witness :
  let X := simulated None 33 100 in
  let w := prepared (sim_world FITTING 100 1 (new_finder "binsearch" 3 2 25)) in
  run_search X 10 2 w
  = if String.eqb (lower "BinSearch") "power"
    then _run_power_scaling X 2 w
    else _run_binary_scaling X 10 2 w.
Proof.
  intros X w.
  refine (constructed_finder_dispatches "BinSearch" 3 2 25 "batch_size"
            (new_finder "binsearch" 3 2 25) X 10 2 w _ _);
    vm_compute; reflexivity.
Defined.

(** ** Guards of [scale_batch_size] *)

(** X3: with [fast_dev_run] off, a module without the batch-size field, or
    a train dataloader that was not defined on the module, makes
    [scale_batch_size] raise a [MisconfigurationException] before anything
    is dumped, saved or run: the trainer, the callback, the files, the
    output and the trial log are as they were.  The missing field is
    reported first. *)
Theorem misconfiguration_changes_nothing (X : Externals) (fuel : nat) (w : World) :
  fast_dev_run (trainer w) = false ->
  lightning_hasattr (lightning_module (trainer w)) (batch_arg_name (self w)) = false
  \/ train_dataloader_source_is_module (trainer w) = false ->
  exists m w',
    scale_batch_size X fuel w = Raise (MisconfigurationException m) w'
    /\ trainer w' = trainer w /\ self w' = self w /\ fs w' = fs w
    /\ stdout w' = stdout w /\ trial_log w' = trial_log w
    /\ m = (if lightning_hasattr (lightning_module (trainer w)) (batch_arg_name (self w))
            then DataloadersPassedDirectly
            else FieldNotFound (batch_arg_name (self w))).
Proof.
  intros Hf Hbad.
  unfold scale_batch_size, bind, get_trainer, get_self. cbn. rewrite Hf.
  destruct (lightning_hasattr _ _) eqn:Hh; cbn.
  - destruct Hbad as [Hbad|Hbad]; [discriminate|]. rewrite Hbad. cbn.
    destruct (declared_twice _ _); cbn; unfold raise;
      eexists; eexists; (split; [reflexivity|]); repeat split.
  - unfold raise. eexists; eexists; (split; [reflexivity|]); repeat split.
Qed.

Lemma misconfiguration_changes_nothing_witness :
  exists m w',
    scale_batch_size (simulated None 40 100) 10
      (sim_world FITTING 100 1 (mkFinder "power" 3 2 25 "bs" 2 false empty_dumped))
    = Raise (MisconfigurationException m) w'
    /\ m = FieldNotFound "bs".
Proof.
  destruct (misconfiguration_changes_nothing (simulated None 40 100) 10
              (sim_world FITTING 100 1 (mkFinder "power" 3 2 25 "bs" 2 false empty_dumped))
              eq_refl (or_introl eq_refl))
    as (m & w' & H & _ & _ & _ & _ & _ & Hm).
  exists m, w'. split; [exact H | exact Hm].
Defined.

(** X4: when the trainer's function is none of fitting, validating, testing
    and predicting, [scale_batch_size] stops in [_dump_params] with an
    [UnboundLocalError] on [loop]: the trainer is untouched, no checkpoint
    is written, no trial runs, and the callback holds the logger and the
    callbacks as the only dumped values. *)
Theorem unsupported_function_has_no_loop (X : Externals) (fuel : nat) (w : World) :
  fast_dev_run (trainer w) = false ->
  lightning_hasattr (lightning_module (trainer w)) (batch_arg_name (self w)) = true ->
  train_dataloader_source_is_module (trainer w) = true ->
  state_fn (trainer w) = TUNING ->
  exists w',
    scale_batch_size X fuel w = Raise (UnboundLocalError "loop") w'
    /\ trainer w' = trainer w /\ fs w' = fs w /\ trial_log w' = trial_log w
    /\ _dumped_params (self w')
       = mkDumped (Some (logger (trainer w))) (Some (callbacks (trainer w)))
           None None None None None None.
Proof.
  intros Hf Hh Hs Hfn.
  rewrite (scale_batch_size_guarded X fuel w Hf Hh Hs).
  pose proof (after_guards_fields w) as (Gt & Gs & Gfs & _ & _).
  assert (Glog : trial_log (after_guards w) = trial_log w)
    by (unfold after_guards; destruct (declared_twice _ _); reflexivity).
  assert (Hfn' : state_fn (trainer (after_guards w)) = TUNING) by (rewrite Gt; exact Hfn).
  rewrite <- Gt, <- Gfs, <- Glog.
  generalize dependent (after_guards w). intros w0 _ _ _ _ Hfn0.
  break_world w0; cbn in Hfn0; try discriminate.
  eexists. split; [reflexivity|]. repeat split.
Qed.

Lemma unsupported_function_has_no_loop_witness :
  exists w',
    scale_batch_size (simulated None 40 100) 10
      (sim_world TUNING 100 1 (new_finder "power" 3 2 25))
    = Raise (UnboundLocalError "loop") w'
    /\ fs w' = ∅.
Proof.
  destruct (unsupported_function_has_no_loop (simulated None 40 100) 10
              (sim_world TUNING 100 1 (new_finder "power" 3 2 25))
              eq_refl eq_refl eq_refl eq_refl)
    as (w' & H & _ & Hfs & _).
  exists w'. split; [exact H | exact Hfs].
Defined.

(** ** The dumped parameters *)

(** X5: a callback fresh from the constructor has dumped nothing, so
    restoring or running a trial with it fails on the first key read,
    [logger] for [_restore_params] and [global_step] (fitting) or
    [loop_state_dict] (otherwise) for [_try_loop_run], and leaves the world
    as it was: no trial is run. *)
Theorem fresh_finder_has_no_dump (X : Externals) (m : string)
    (steps init trials : Z) (name : string) (f : BatchSizeFinder) (w : World) :
  __init__ m steps init trials name = inr f ->
  self w = f ->
  state_fn (trainer w) <> TUNING ->
  _restore_params w = Raise (KeyError "logger") w
  /\ _try_loop_run X w
     = Raise (KeyError (first_key_of_trial (state_fn (trainer w)))) w.
Proof.
  unfold __init__. destruct (negb _); [discriminate|].
  intros Hinit Hself Hfn. injection Hinit as <-.
  break_world w; cbn in Hself; try (exfalso; apply Hfn; reflexivity);
    injection Hself as -> -> -> -> -> -> -> -> -> -> -> -> -> -> ->;
    split; reflexivity.
Qed.

Lemma fresh_finder_has_no_dump_witness :
  _restore_params (sim_world VALIDATING 100 1 (new_finder "power" 3 2 25))
  = Raise (KeyError "logger") (sim_world VALIDATING 100 1 (new_finder "power" 3 2 25)).
Proof.
  refine (proj1 (fresh_finder_has_no_dump (simulated None 40 100) "Power" 3 2 25
                   "batch_size" (new_finder "power" 3 2 25)
                   (sim_world VALIDATING 100 1 (new_finder "power" 3 2 25))
                   eq_refl eq_refl _)).
  discriminate.
Defined.

(** X6: [_dump_params] starts from a new dictionary: what it returns and
    the world it reaches do not depend on what an earlier search left in
    [_dumped_params]. *)
Theorem dump_discards_previous_dump (d : DumpedParams) (w : World) :
  _dump_params (set_self (set__dumped_params d (self w)) w) = _dump_params w.
Proof.
  break_world w; cbn;
    unfold _dump_params, bind, get_trainer, modify_dumped, modify_self, ret, raise; cbn;
    repeat match goal with
           | |- context [match ?o with Some _ => _ | None => _ end] => destruct o; cbn
           end; reflexivity.
Qed.

(** ** One trial *)



(** ** The search as a whole *)

(** X9: whatever the trials do and however the search ends, [run_search]
    leaves the callback, the files, the logger, the callbacks, the limits,
    the progress bar and the loops of the other functions as they were:
    a search touches only the running loop, the module's fields and the
    loaders (and appends to the trial log). *)
Theorem search_touches_only_its_own_state (X : Externals) (fuel : nat)
    (new_size : Z) (w : World) :
  let w' := world_of (run_search X fuel new_size w) in
  self w' = self w
  /\ fs w' = fs w
  /\ state_fn (trainer w') = state_fn (trainer w)
  /\ logger (trainer w') = logger (trainer w)
  /\ callbacks (trainer w') = callbacks (trainer w)
  /\ limit_val_batches (trainer w') = limit_val_batches (trainer w)
  /\ limit_test_batches (trainer w') = limit_test_batches (trainer w)
  /\ limit_predict_batches (trainer w') = limit_predict_batches (trainer w)
  /\ is_global_zero (trainer w') = is_global_zero (trainer w)
  /\ progress_bar_callback (trainer w') = progress_bar_callback (trainer w)
  /\ (forall fn, fn <> state_fn (trainer w) ->
      loop_of fn (trainer w') = loop_of fn (trainer w)).
Proof.
  intros w'. apply outside_search_fields.
  apply (run_search_preserves_outside_search X fuel new_size w).
Qed.

(** ** Adjusting the batch size *)

Lemma clamp_to_dataset_stable (d : DataLoader) (t : Trainer) (c : Z) :
  clamp_to_dataset c d t <= c
  /\ clamp_to_dataset (clamp_to_dataset c d t) d t = clamp_to_dataset c d t.
Proof.
  unfold clamp_to_dataset, _is_valid_batch_size.
  destruct (has_len_all_ranks d); cbn; [|split; [lia | reflexivity]].
  destruct (Z.leb_spec c (len_dataloader d)) as [H1|H1]; cbn.
  - split; [lia|]. destruct (Z.leb_spec c (len_dataloader d)); [reflexivity | lia].
  - split; [lia|].
    destruct (Z.leb_spec (Z.min c (len_dataset d)) (len_dataloader d)); cbn;
      [reflexivity | lia].
Qed.

Lemma clamp_for_state_le (t : Trainer) (c : Z) : clamp_for_state t c <= c.
Proof.
  destruct (active_dataloader t) as [d|] eqn:E.
  - rewrite (clamp_for_state_active t d c E). apply clamp_to_dataset_stable.
  - unfold active_dataloader in E. unfold clamp_for_state.
    destruct (state_fn t); try discriminate.
    repeat (destruct (decide _); try discriminate). lia.
Qed.

(** X10: [_adjust_batch_size] changes nothing when it raises:
    [AttributeError] when the module has no batch-size field, and
    [OverflowError] when the float product of the old size and [factor] is
    not finite.  Otherwise it writes only the module and returns the size
    the module then holds, never above the size asked for, which is [value]
    or [int(old * factor)], the exact product when it is below [2^53] in
    absolute value; the flag it returns is set exactly when the size differs
    from the old one. *)
Theorem adjust_batch_size_contract (factor : Z) (value : option Z)
    (desc : option string) (w : World) :
  match _adjust_batch_size factor value desc w with
  | Ok (size, changed) w' =>
      exists old requested,
        batch_size_of w = Some old
        /\ requested_size value old factor = Some requested
        /\ (forall v, value = Some v -> requested = v)
        /\ (value = None -> Z.abs old < 2 ^ 53 -> Z.abs (old * factor) < 2 ^ 53 ->
            requested = old * factor)
        /\ size <= requested
        /\ batch_size_of w' = Some size
        /\ changed = negb (size =? old)
        /\ w' = with_batch_size size w
  | Raise e w' =>
      w' = w
      /\ ((e = AttributeError (batch_arg_name (self w)) /\ batch_size_of w = None)
          \/ (e = OverflowError /\ value = None
              /\ exists old, batch_size_of w = Some old
                             /\ int_of_product old factor = None))
  | OutOfFuel _ => False
  end.
Proof.
  destruct (adjust_batch_size_cases factor value desc w)
    as [(e & -> & [[-> Hn] | [-> (b & Hb & Hreq)]]) | (b & r & Hb & Hreq & ->)].
  - split; [reflexivity|]. left. split; [reflexivity | exact Hn].
  - split; [reflexivity|]. right. split; [reflexivity|].
    destruct value as [v|]; [discriminate|].
    split; [reflexivity|]. exists b. split; [exact Hb | exact Hreq].
  - exists b, r. split; [exact Hb|]. split; [exact Hreq|].
    split; [intros v ->; cbn in Hreq; congruence|].
    split.
    { intros -> H1 H2. cbn in Hreq.
      rewrite (int_of_product_exact b factor H1 H2) in Hreq. congruence. }
    split; [apply clamp_for_state_le|].
    split; [eapply batch_size_of_with_batch_size; exact Hb|].
    split; reflexivity.
Qed.

(** X11: the guard on a proposed size never raises it, and it is stable:
    a size that came out of the guard passes it unchanged, so adjusting to
    the size just set reports no change. *)
Theorem clamp_for_state_stable (t : Trainer) (c : Z) :
  clamp_for_state t c <= c
  /\ clamp_for_state t (clamp_for_state t c) = clamp_for_state t c.
Proof.
  split; [apply clamp_for_state_le|].
  destruct (active_dataloader t) as [d|] eqn:E.
  - rewrite !(clamp_for_state_active t d _ E). apply clamp_to_dataset_stable.
  - unfold active_dataloader in E. unfold clamp_for_state.
    destruct (state_fn t); try discriminate.
    repeat (destruct (decide _); try discriminate). reflexivity.
Qed.

(** ** Hooks *)

(** X12: [on_validation_start] does nothing during the sanity check and
    during a validation that is part of another function (fitting, say): it
    returns at once, with the world as it was and no trial run, whatever
    the configuration. *)
Theorem validation_hook_skips_inner_validation (X : Externals) (fuel : nat)
    (sanity_checking : bool) (w : World) :
  sanity_checking = true \/ state_fn (trainer w) <> VALIDATING ->
  on_validation_start X fuel sanity_checking w = Ok tt w.
Proof.
  intros H. unfold on_validation_start, bind, get_trainer.
  destruct H as [-> | H]; [reflexivity|].
  destruct sanity_checking; [reflexivity|]. cbn.
  rewrite bool_decide_eq_false_2 by exact H. reflexivity.
Qed.

Lemma validation_hook_skips_inner_validation_witness :
  on_validation_start (simulated None 40 100) 10 false
    (sim_world FITTING 100 1 (new_finder "power" 3 2 25))
  = Ok tt (sim_world FITTING 100 1 (new_finder "power" 3 2 25)).
Proof.
  apply (validation_hook_skips_inner_validation (simulated None 40 100) 10 false
           (sim_world FITTING 100 1 (new_finder "power" 3 2 25))).
  right. discriminate.
Defined.

(** ** Round trip of the parameters *)

(** X13: dumping, switching to the configuration of the trials and
    restoring is the identity on the trainer: the world reached differs from
    the initial one only in the dictionary the callback keeps.  For the
    validation and test loops this needs the loop to have a [verbose]
    attribute, the only one [_reset_params] writes without a dump. *)
Theorem dump_reset_restore_round_trip (w : World) :
  state_fn (trainer w) <> TUNING ->
  (state_fn (trainer w) = VALIDATING -> is_Some (verbose (validate_loop (trainer w)))) ->
  (state_fn (trainer w) = TESTING -> is_Some (verbose (test_loop (trainer w)))) ->
  (do _ <- _dump_params; do _ <- _reset_params; _restore_params) w
  = Ok tt (set_self (set__dumped_params (dumped_of (trainer w)) (self w)) w).
Proof.
  intros Hfn Hv Ht.
  break_world w; cbn in Hfn, Hv, Ht; try congruence.
  all: repeat match goal with
         | H : _ = _ -> is_Some _ |- _ =>
             first [destruct (H eq_refl) as [? ->] | clear H]
         end.
  all: try reflexivity.
  all: repeat match goal with v : option bool |- _ => destruct v end; reflexivity.
Qed.

Lemma dump_reset_restore_round_trip_witness :
  trainer (world_of ((do _ <- _dump_params; do _ <- _reset_params; _restore_params)
                       (sim_world TESTING 100 1 (new_finder "power" 3 2 25))))
  = sim_trainer TESTING 100 1.
Proof.
  rewrite (dump_reset_restore_round_trip
             (sim_world TESTING 100 1 (new_finder "power" 3 2 25))).
  - reflexivity.
  - discriminate.
  - discriminate.
  - intros _. eexists. reflexivity.
Defined.

(** ** A search that completes *)

Lemma reload_checkpoint_eq X save_path w saved :
  fs w !! save_path = Some saved ->
  reload_checkpoint X save_path w
  = Ok tt (if is_global_zero (trainer w)
           then set_fs (delete save_path (fs w))
                  (set_trainer (checkpoint_restore X saved (trainer w)) w)
           else w).
Proof.
  intros Hs.
  unfold reload_checkpoint, bind, get_trainer, checkpoint_connector_restore,
    remove_if_exists, ret.
  destruct (is_global_zero (trainer w)); [|reflexivity].
  rewrite Hs. cbn. rewrite Hs. reflexivity.
Qed.

(** What the end of [scale_batch_size] puts back, from the dump of [t0]. *)
Lemma finish_restores new_size (early_exit : bool) w t0 :
  _dumped_params (self w) = dumped_of t0 ->
  state_fn (trainer w) = state_fn t0 ->
  state_fn t0 <> TUNING ->
  exists w',
    (do _ <- decrement_counters;
     do _ <- _restore_params;
     do _ <- progress_bar_set true;
     do _ <- print new_size;
     do _ <- modify_self (set_optimal_batch_size new_size);
     if early_exit then raise _TunerExitException else ret tt) w
    = (if early_exit then Raise _TunerExitException w' else Ok tt w')
    /\ logger (trainer w') = logger t0
    /\ callbacks (trainer w') = callbacks t0
    /\ active_limit (trainer w') = active_limit t0
    /\ (state_fn t0 = FITTING ->
        max_steps (fit_loop (trainer w')) = max_steps (fit_loop t0))
    /\ option_map progress (loop_of (state_fn t0) (trainer w'))
       = option_map progress (loop_of (state_fn t0) t0)
    /\ optimal_batch_size (self w') = new_size
    /\ stdout w' = stdout w ++ [new_size]
    /\ fs w' = fs w
    /\ lightning_module (trainer w') = lightning_module (trainer w)
    /\ progress_bar_callback (trainer w')
       = option_map (fun _ => true) (progress_bar_callback (trainer w)).
Proof.
  intros Hd Hfn Hnt.
  destruct t0 as [? ? ? fn0 [? v0 ? ? ?] [? v1 ? ? ?] [? v2 ? ? ?] [? v3 ? ? ?]
                    ? ? ? ? ? ? ? ? ? ? ? ?].
  break_world w; cbn in Hfn; subst fn0; try (exfalso; apply Hnt; reflexivity);
    cbn in Hd; injection Hd as -> -> -> -> -> -> -> ->.
  all: destruct early_exit; vm_compute.
  all: repeat match goal with
         | |- context [match ?o with Some _ => _ | None => _ end] =>
             is_var o; destruct o; vm_compute
         end.
  all: eexists; (split; [reflexivity|]);
    (split; [reflexivity|]); (split; [reflexivity|]); (split; [reflexivity|]);
    (split; [intros; first [reflexivity | discriminate]|]);
    (split; [reflexivity|]); (split; [reflexivity|]); (split; [reflexivity|]);
    (split; [reflexivity|]); split; reflexivity.
Qed.

(** X14: when the search returns a size, [scale_batch_size] finishes the
    job: it ends normally (or with [_TunerExitException] when [_early_exit]
    is set, and then only after all of the following), the logger, the
    callbacks, the limit on batches, the step budget and the loop progress
    are those from before the call, the size found is stored in
    [optimal_batch_size] and printed once, the progress bar is enabled, and
    on the coordinating process the temporary checkpoint is gone.  The
    restored checkpoint is assumed to keep the trainer's function. *)
Theorem completed_search_restores_configuration (X : Externals) (fuel : nat)
    (w w_s : World) (save_path : Path) (size : Z) :
  fast_dev_run (trainer w) = false ->
  lightning_hasattr (lightning_module (trainer w)) (batch_arg_name (self w)) = true ->
  train_dataloader_source_is_module (trainer w) = true ->
  state_fn (trainer w) <> TUNING ->
  (forall saved t, state_fn (checkpoint_restore X saved t) = state_fn t) ->
  search_phase X fuel (after_guards w) = Ok (save_path, size) w_s ->
  exists w',
    scale_batch_size X fuel w
    = (if _early_exit (self w) then Raise _TunerExitException w' else Ok tt w')
    /\ logger (trainer w') = logger (trainer w)
    /\ callbacks (trainer w') = callbacks (trainer w)
    /\ active_limit (trainer w') = active_limit (trainer w)
    /\ (state_fn (trainer w) = FITTING ->
        max_steps (fit_loop (trainer w')) = max_steps (fit_loop (trainer w)))
    /\ option_map progress (loop_of (state_fn (trainer w)) (trainer w'))
       = option_map progress (loop_of (state_fn (trainer w)) (trainer w))
    /\ optimal_batch_size (self w') = size
    /\ stdout w' = stdout w ++ [size]
    /\ (is_global_zero (trainer w) = true -> fs w' !! save_path = None)
    /\ (is_global_zero (trainer w) = false ->
        lightning_module (trainer w') = lightning_module (trainer w_s)
        /\ progress_bar_callback (trainer w')
           = option_map (fun _ => true) (progress_bar_callback (trainer w))).
Proof.
  intros H1 H2 H3 Hfn Hkeep Hsp.
  destruct (hasattr_getattr _ _ H2) as [b Hb].
  destruct (after_guards_fields w) as (Gt & Gs & Gf & Gu & Gb).
  assert (Gout : stdout (after_guards w) = stdout w)
    by (unfold after_guards; destruct (declared_twice _ _); reflexivity).
  assert (Hprep := prepare_search_eq (after_guards w) b).
  rewrite Gt, Gs, Gu in Hprep. specialize (Hprep Hfn).
  rewrite Gb in Hprep. specialize (Hprep Hb).
  unfold search_phase in Hsp.
  rewrite (bind_Ok _ _ _ _ _ Hprep) in Hsp. cbv beta iota in Hsp.
  apply bind_Ok_inv in Hsp. destruct Hsp as (n & w1 & Hrun & Hret).
  unfold ret in Hret. injection Hret as <- <- <-.
  pose proof (run_search_preserves_outside_search X fuel
                (clamp_for_state (trainer w) (init_val (self w)))
                (prepared (after_guards w))) as Hframe.
  rewrite Hrun in Hframe. cbn [world_of] in Hframe.
  assert (Fout : stdout w1 = stdout (prepared (after_guards w)))
    by (apply (f_equal stdout) in Hframe; exact Hframe).
  apply outside_search_fields in Hframe.
  destruct Hframe as (Fs & Ff & Ffn & _ & _ & _ & _ & _ & Fz & Fpb & _).
  destruct (prepared_fields (after_guards w))
    as (Pfn & _ & _ & _ & Pfs & Pd & Pz & _).
  assert (Ppb : option_map (fun _ => true)
                  (progress_bar_callback (trainer (prepared (after_guards w))))
                = option_map (fun _ => true) (progress_bar_callback (trainer w))).
  { rewrite <- Gt. generalize (after_guards w). intros w0.
    break_world w0; cbn;
      repeat match goal with v : option bool |- _ => destruct v end;
      repeat match goal with v : option Logger |- _ => destruct v end; reflexivity. }
  assert (Pout : stdout (prepared (after_guards w)) = stdout w)
    by (rewrite <- Gout; reflexivity).
  rewrite ?Gt, ?Gs, ?Gu in *.
  destruct Pfs as [saved Hsaved]. rewrite <- Ff in Hsaved.
  pose proof (reload_checkpoint_eq X _ w1 saved Hsaved) as Hrel.
  set (w_r := if is_global_zero (trainer w1)
              then set_fs (delete (default_root_dir (trainer w), uuid_supply w) (fs w1))
                     (set_trainer (checkpoint_restore X saved (trainer w1)) w1)
              else w1) in Hrel.
  assert (Rself : self w_r = self w1) by (subst w_r; destruct (is_global_zero _); reflexivity).
  assert (Rout : stdout w_r = stdout w1) by (subst w_r; destruct (is_global_zero _); reflexivity).
  assert (Rfn : state_fn (trainer w_r) = state_fn (trainer w1)).
  { subst w_r; destruct (is_global_zero _); [apply Hkeep | reflexivity]. }
  destruct (finish_restores n (_early_exit (self w)) w_r (trainer w))
    as (w' & Hfin & L1 & L2 & L3 & L4 & L5 & L6 & L7 & L8 & L9 & L10).
  { rewrite Rself, Fs. exact Pd. }
  { rewrite Rfn, Ffn. exact Pfn. }
  { exact Hfn. }
  exists w'. split.
  { rewrite (scale_batch_size_guarded X fuel w H1 H2 H3).
    rewrite (bind_Ok _ _ _ _ _ Hprep). cbv beta iota.
    rewrite (bind_Ok _ _ _ _ _ Hrun).
    unfold bind at 1, garbage_collection_cuda at 1, ret at 1.
    rewrite (bind_Ok _ _ _ _ _ Hrel). exact Hfin. }
  split; [exact L1|]. split; [exact L2|]. split; [exact L3|]. split; [exact L4|].
  split; [exact L5|]. split; [exact L6|].
  split; [rewrite L7, Rout, Fout, Pout; reflexivity|].
  split.
  - intros Hz. rewrite L8. subst w_r. rewrite Fz, Pz, Hz. cbn.
    apply lookup_delete_eq.
  - intros Hz. rewrite L9, L10. subst w_r. rewrite Fz, Pz, Hz.
    split; [reflexivity|]. rewrite Fpb. exact Ppb.
Qed.

Lemma completed_search_restores_configuration_witness :
  let X := simulated None 33 100 in
  let w := sim_world TESTING 100 1 (new_finder "binsearch" 1 2 25) in
  exists w',
    scale_batch_size X 100 w = Ok tt w'
    /\ logger (trainer w') = Some (UserLogger 7)
    /\ optimal_batch_size (self w') = 33.
Proof.
  intros X w.
  destruct (completed_search_restores_configuration X 100 w
              (world_of (search_phase X 100 (after_guards w))) ("/tmp", 0%nat) 33)
    as (w' & H & L1 & _ & _ & _ & _ & L6 & _).
  - reflexivity.
  - vm_compute. reflexivity.
  - reflexivity.
  - cbn. discriminate.
  - intros saved t. reflexivity.
  - vm_compute. reflexivity.
  - exists w'. split; [exact H|]. split; [exact L1 | exact L6].
Defined.

(** ** The power mode *)












(** ** The binary mode within its budget *)

(** An iteration whose successful trial is one more than [max_trials]
    allows: the loop stops on the size just tried. *)
Lemma binary_body_out_of_budget X T from s0 v w :
  search_state T s0 (new_size v) w ->
  fails_above X (batch_arg_name s0) from T ->
  from <= new_size v ->
  new_size v <= T ->
  max_trials s0 < count v + 1 ->
  exists w',
    binary_body X v w
    = Ok (mkLocals (low v) (high v) (count v + 1) (new_size v), BREAK) w'
    /\ search_state T s0 (new_size v) w'
    /\ trial_log w' = trial_log w ++ [(Some (new_size v), None)].
Proof.
  intros Hst Horacle Hfrom Hb Hcount.
  enter_binary_body res Hr.
  destruct (trial_outcome X T from s0 _ w Hst Horacle Hfrom) as [Hok _].
  destruct Hok as (w1 & Hrun & Hst1 & Hlog1); [lia|].
  rewrite (try_except_bind_Ok _ _ _ _ tt _ Hrun) in Hr.
  replace (max_trials (self w)) with (max_trials s0) in Hr by (symmetry; apply Hst).
  destruct (Z.gtb_spec (count v + 1) (max_trials s0)) as [_|?]; [|lia].
  unfold try_except, ret in Hr.
  exists w1. split; [exact Hr|]. split; [exact Hst1 | exact Hlog1].
Qed.




(** ** Invariants of a search *)

Lemma keeps_ret {A} (I : World -> Prop) (a : A) : keeps I (ret a).
Proof. intros w H. exact H. Qed.

Lemma keeps_raise {A} (I : World -> Prop) e : keeps I (@raise A e).
Proof. intros w H. exact H. Qed.

Lemma keeps_out_of_fuel {A} (I : World -> Prop) : keeps I (@out_of_fuel A).
Proof. intros w H. exact H. Qed.

Lemma keeps_get_trainer (I : World -> Prop) : keeps I get_trainer.
Proof. intros w H. exact H. Qed.

Lemma keeps_get_self (I : World -> Prop) : keeps I get_self.
Proof. intros w H. exact H. Qed.

Lemma keeps_bind {A B} (I : World -> Prop) (c : M A) (k : A -> M B) :
  keeps I c -> (forall a, keeps I (k a)) -> keeps I (bind c k).
Proof.
  intros Hc Hk w H. unfold bind. specialize (Hc w H).
  destruct (c w) as [a w'|e w'|w']; cbn in *; [apply Hk|..]; exact Hc.
Qed.

Lemma keeps_try_except {A} (I : World -> Prop) (c : M A) h :
  keeps I c -> (forall e, keeps I (h e)) -> keeps I (try_except c h).
Proof.
  intros Hc Hh w H. unfold try_except. specialize (Hc w H).
  destruct (c w) as [a w'|e w'|w']; cbn in *; [|apply Hh|]; exact Hc.
Qed.

Section SearchKeeps.

Context (I : World -> Prop) (X : Externals).
Hypothesis I_trial : keeps I (_try_loop_run X).
Hypothesis I_adjust : forall factor value desc,
    keeps I (_adjust_batch_size factor value desc).
Hypothesis I_reset : keeps I (_reset_dataloaders X).

Ltac keeps_step :=
  first
    [ apply keeps_ret
    | apply keeps_raise
    | apply keeps_out_of_fuel
    | apply keeps_get_trainer
    | apply keeps_get_self
    | assumption
    | apply I_adjust
    | apply keeps_bind; [|intros]
    | apply keeps_try_except; [|intros]
    | match goal with
      | |- keeps _ (if ?b then _ else _) => destruct b
      | |- keeps _ (match ?p with (_, _) => _ end) => destruct p
      | |- keeps _ (match ?c with CONTINUE => _ | BREAK => _ end) => destruct c
      | |- keeps _ (let '(_, _) := ?p in _) => destruct p
      end ].

Lemma keeps_power_body new_size : keeps I (power_body X new_size).
Proof. unfold power_body, garbage_collection_cuda. repeat keeps_step. Qed.

Lemma keeps_power_loop n : forall new_size, keeps I (power_loop X n new_size).
Proof.
  induction n as [|n IH]; intros new_size; cbn.
  - apply keeps_ret.
  - apply keeps_bind; [apply keeps_power_body|].
    intros [ns []]; [apply IH | apply keeps_ret].
Qed.

Lemma keeps_binary_body v : keeps I (binary_body X v).
Proof. unfold binary_body, garbage_collection_cuda. repeat keeps_step. Qed.

Lemma keeps_binary_loop fuel : forall v, keeps I (binary_loop X fuel v).
Proof.
  induction fuel as [|fuel IH]; intros v; cbn.
  - apply keeps_out_of_fuel.
  - apply keeps_bind; [apply keeps_binary_body|].
    intros [v' []]; [apply IH | apply keeps_ret].
Qed.

Lemma keeps_run_search fuel new_size : keeps I (run_search X fuel new_size).
Proof.
  unfold run_search, _run_power_scaling, _run_binary_scaling.
  apply keeps_bind; [apply keeps_get_self|]. intros s.
  destruct (String.eqb (mode s) "power").
  - apply keeps_bind; [apply keeps_get_self|]. intros s'. apply keeps_power_loop.
  - destruct (String.eqb (mode s) "binsearch"); [|apply keeps_ret].
    apply keeps_bind; [apply keeps_binary_loop|].
    intros [? ? ? ?]. apply keeps_ret.
Qed.

End SearchKeeps.

Lemma clamp_capped N d t c : capped N d -> clamp_to_dataset c d t <= N.
Proof.
  intros (Hlen & Hl & Hd). unfold clamp_to_dataset, _is_valid_batch_size.
  rewrite Hlen. cbn. destruct (Z.leb_spec c (len_dataloader d)); cbn; lia.
Qed.

Lemma clamp_for_state_capped N t c : capped_trainer N t -> clamp_for_state t c <= N.
Proof.
  intros (d & Hd & Hc). rewrite (clamp_for_state_active t d c Hd).
  apply clamp_capped. exact Hc.
Qed.

Lemma capped_search_trial X N : keeps (capped_search N) (_try_loop_run X).
Proof.
  intros w (Hc & (b & Hb & Hle) & Hlog).
  pose proof (try_loop_run_preserves_outside_trial X w) as Ho.
  apply outside_trial_fields in Ho. destruct Ho as (_ & _ & _ & Ed & Eb).
  assert (Hlog' : Forall (within N) (trial_log (world_of (_try_loop_run X w)))).
  { destruct (try_loop_run_cases X w)
      as [(w2 & H2 & Hl & _) | [(e & w2 & H2 & Hl & _) | (e & w2 & H2 & _ & Hl & _)]];
      rewrite H2; cbn [world_of]; rewrite Hl; try exact Hlog.
    all: apply Forall_app; split; [exact Hlog|].
    all: constructor; [|constructor].
    all: exists b; split; [exact Hb | exact Hle]. }
  split; [|split; [|exact Hlog']].
  - destruct Hc as (d & Hd & Hcap). exists d. split; [congruence | exact Hcap].
  - exists b. split; [congruence | exact Hle].
Qed.

Lemma capped_search_adjust N factor value desc :
  keeps (capped_search N) (_adjust_batch_size factor value desc).
Proof.
  intros w (Hc & (b & Hb & Hle) & Hlog).
  destruct (adjust_batch_size_cases factor value desc w)
    as [(e & -> & _) | (b' & r & _ & _ & ->)]; cbn [world_of].
  - split; [exact Hc|]. split; [|exact Hlog]. exists b. split; assumption.
  - split; [exact Hc|]. split; [|exact Hlog].
    eexists. split; [eapply batch_size_of_with_batch_size; exact Hb|].
    apply clamp_for_state_capped. exact Hc.
Qed.

Lemma capped_search_reset X N :
  capped_reloads X N -> keeps (capped_search N) (_reset_dataloaders X).
Proof.
  intros Hre w (Hc & Hb & Hlog).
  rewrite reset_dataloaders_eq. cbn [world_of].
  assert (Eb : batch_size_of (set_trainer (reloaded X (trainer w)) w) = batch_size_of w)
    by (unfold batch_size_of, reloaded; cbn; destruct (state_fn (trainer w)); reflexivity).
  split; [|split; [rewrite Eb; exact Hb | exact Hlog]].
  destruct Hc as (d & Hd & _).
  unfold capped_trainer, active_dataloader, reloaded in *. cbn.
  destruct (state_fn (trainer w)) eqn:Efn; try discriminate; cbn; rewrite ?Efn;
    eexists; (split; [reflexivity | apply Hre]).
Qed.

(** X18: when the loader in use and every loader the trainer reloads have a
    known length and offer at most [N] batches over at most [N] samples, no
    trial of a search runs at a batch size above [N], and the module ends
    with a size of at most [N]: in either mode, whatever the trials do,
    whatever the budget, and however the search ends. *)
Theorem no_trial_above_a_capped_dataset (X : Externals) (fuel : nat) (N : Z) (w : World) :
  state_fn (trainer w) <> TUNING ->
  lightning_hasattr (lightning_module (trainer w)) (batch_arg_name (self w)) = true ->
  capped_trainer N (trainer w) ->
  capped_reloads X N ->
  Forall (within N) (trial_log w) ->
  let w' := world_of (search_phase X fuel w) in
  Forall (within N) (trial_log w')
  /\ exists b, batch_size_of w' = Some b /\ b <= N.
Proof.
  intros Hfn Hattr Hcap Hre Hlog w'.
  destruct (hasattr_getattr _ _ Hattr) as [b Hb].
  pose proof (prepare_search_eq w b Hfn Hb) as Hprep.
  assert (Hinv : capped_search N (prepared w)).
  { destruct (prepared_fields w) as (_ & _ & _ & _ & _ & _ & _ & _ & Pd & _).
    split; [|split].
    - destruct Hcap as (d & Hd & Hc). exists d. split; [congruence | exact Hc].
    - eexists. split; [apply (prepared_batch_size w b Hb)|].
      apply clamp_for_state_capped. exact Hcap.
    - exact Hlog. }
  pose proof (keeps_run_search (capped_search N) X
                (capped_search_trial X N) (capped_search_adjust N)
                (capped_search_reset X N Hre) fuel
                (clamp_for_state (trainer w) (init_val (self w)))
                (prepared w) Hinv) as Hkeep.
  assert (Hw' : w' = world_of (run_search X fuel
                                 (clamp_for_state (trainer w) (init_val (self w)))
                                 (prepared w))).
  { subst w'. unfold search_phase. rewrite (bind_Ok _ _ _ _ _ Hprep). cbv beta iota.
    unfold bind. destruct (run_search _ _ _ _); reflexivity. }
  rewrite <- Hw' in Hkeep. destruct Hkeep as (_ & Hsize & Hlog').
  split; [exact Hlog' | exact Hsize].
Qed.

Lemma simulated_capped_reloads fault T n :
  1 <= n -> capped_reloads (simulated fault T n) n.
Proof.
  intros Hn slot t. unfold capped, simulated, torch_loader. cbn.
  split; [reflexivity|]. split; [|lia].
  generalize (sim_batch_size t). intros b.
  destruct (Z.lt_trichotomy b 0) as [Hb | [-> | Hb]].
  - rewrite <- Z.div_opp_opp by lia.
    apply Z.div_le_upper_bound; [lia | nia].
  - rewrite Z.div_0_r. lia.
  - apply Z.div_le_upper_bound; [lia | nia].
Qed.

Lemma no_trial_above_a_capped_dataset_witness :
  let X := simulated None 1000 100 in
  let w := sim_world FITTING 100 1 (new_finder "binsearch" 1 2 25) in
  let w' := world_of (search_phase X 100 w) in
  Forall (within 100) (trial_log w')
  /\ exists b, batch_size_of w' = Some b /\ b <= 100.
Proof.
  intros X w.
  apply (no_trial_above_a_capped_dataset X 100 100 w).
  - cbn. discriminate.
  - vm_compute. reflexivity.
  - eexists. split; [reflexivity|]. vm_compute.
    split; [reflexivity|]. split; discriminate.
  - apply simulated_capped_reloads. lia.
  - constructor.
Defined.

(** ** A search that the data limits *)















(** ** The binary mode never returns a size that fails *)

Lemma prepared_search_state_clamped T w :
  state_fn (trainer w) <> TUNING ->
  lightning_hasattr (lightning_module (trainer w)) (batch_arg_name (self w)) = true ->
  roomy_trainer T (trainer w) ->
  let b0 := clamp_for_state (trainer w) (init_val (self w)) in
  prepare_search w = Ok ((default_root_dir (trainer w), uuid_supply w), b0) (prepared w)
  /\ search_state T (self w) b0 (prepared w).
Proof.
  intros Hfn Hattr Hroomy b0.
  destruct (hasattr_getattr _ _ Hattr) as [b Hb].
  split; [apply (prepare_search_eq w b Hfn Hb)|].
  destruct (prepared_fields w)
    as (Pfn & _ & _ & _ & _ & _ & _ & _ & Pdl & _ & Pmt & Pname).
  split; [apply prepared_ready; exact Hfn|].
  split; [apply (prepared_batch_size w b Hb)|].
  split; [|split; assumption].
  destruct Hroomy as (d & Hd & Hr). exists d. split; [congruence | exact Hr].
Qed.

Lemma binary_loop_result_fits X T s0 : T < 2 ^ 52 -> forall (fuel : nat) v w,
  bracketing T s0 v w ->
  fails_above X (batch_arg_name s0) 1 T ->
  roomy_reloads X T ->
  fits_within T new_size (binary_loop X fuel v w).
Proof.
  intros Hexact.
  induction fuel as [|fuel IH]; intros v w (Hst & Hlow & Hn & Hhigh) Horacle Hre;
    [exact Logic.I|].
  cbn [binary_loop].
  destruct (Z.le_gt_cases (new_size v) T) as [Hle|Hgt].
  - destruct (Z.le_gt_cases (count v + 1) (max_trials s0)) as [Hin|Hover].
    + destruct (high v) as [h|] eqn:Eh.
      * pose proof (Hhigh h eq_refl) as Hh.
        destruct (Z.le_gt_cases (h - new_size v) 1) as [Hgap|Hgap].
        -- destruct (binary_body_converges X T 1 s0 v w h)
             as (w1 & Hbody & Hst1 & _); try assumption; try lia.
           rewrite (bind_Ok _ _ _ _ _ Hbody). cbv beta iota.
           split; [cbn; lia | apply Hst1].
        -- destruct (binary_body_bisects X T 1 s0 v w h)
             as (r & w1 & Hbody & Hr & _ & Hst1 & _); try assumption; try lia.
           rewrite (bind_Ok _ _ _ _ _ Hbody). cbv beta iota.
           apply IH; [|assumption..].
           split; [exact Hst1|]. cbn [low high new_size].
           split; [lia|]. split; [lia|]. intros h' E. injection E as <-. exact Hh.
      * destruct (binary_body_doubles X T 1 s0 v w)
          as (r & w1 & Hbody & Hr & _ & Hst1 & _); try assumption; try lia.
        rewrite (bind_Ok _ _ _ _ _ Hbody). cbv beta iota.
        apply IH; [|assumption..].
        split; [exact Hst1|]. cbn [low high new_size].
        split; [lia|]. split; [lia|]. intros h' E. discriminate.
    + destruct (binary_body_out_of_budget X T 1 s0 v w)
        as (w1 & Hbody & Hst1 & _); try assumption; try lia.
      rewrite (bind_Ok _ _ _ _ _ Hbody). cbv beta iota.
      split; [cbn; lia | apply Hst1].
  - destruct (binary_body_failure X T 1 s0 v w)
      as (r & w1 & e & Hbody & Hmid & Hout & Hst1 & _); try assumption; try lia.
    rewrite (bind_Ok _ _ _ _ _ Hbody). cbv beta iota.
    assert (Hmid1 : 1 <= (new_size v + low v) / 2)
      by (apply Z.div_le_lower_bound; lia).
    destruct (Z.leb_spec (new_size v - low v) 1) as [Hgap|Hgap].
    + assert (Hfit : (new_size v + low v) / 2 <= T).
      { apply Z.lt_succ_r. apply Z.div_lt_upper_bound; lia. }
      specialize (Hmid Hfit). subst r.
      split; [cbn; lia | apply Hst1].
    + apply IH; [|assumption..].
      split; [exact Hst1|]. cbn [low high new_size].
      split; [lia|]. split.
      * destruct (Z.le_gt_cases ((new_size v + low v) / 2) T) as [Hfit|Hbig].
        -- rewrite (Hmid Hfit). exact Hmid1.
        -- specialize (Hout Hbig). lia.
      * intros h' E. injection E as <-. exact Hgt.
Qed.

(** X20: the binary search never returns a size that runs out of memory.
    When a trial fails exactly above [T >= 1], with [T < 2^52] so that the
    float product of the doubling is exact, and the loaders leave room for
    [T], then for every [init_val >= 1], every budget and every number of
    iterations, a search that ends returns a size within [1 .. T], which the
    module then holds, and it does not raise. *)
Theorem binsearch_result_fits (X : Externals) (fuel : nat) (T : Z) (w : World) :
  state_fn (trainer w) <> TUNING ->
  lightning_hasattr (lightning_module (trainer w)) (batch_arg_name (self w)) = true ->
  mode (self w) = "binsearch" ->
  1 <= init_val (self w) ->
  1 <= T < 2 ^ 52 ->
  fails_above X (batch_arg_name (self w)) 1 T ->
  roomy_trainer T (trainer w) ->
  roomy_reloads X T ->
  fits_within T snd (search_phase X fuel w).
Proof.
  intros Hfn Hattr Hmode Hinit [HT Hexact] Horacle Hroomy Hre.
  destruct (prepared_search_state_clamped T w Hfn Hattr Hroomy) as (Hprep & Hst).
  cbv zeta in Hprep, Hst.
  set (b0 := clamp_for_state (trainer w) (init_val (self w))) in *.
  assert (Hb0 : 1 <= b0).
  { destruct (clamp_for_state_roomy T (trainer w) (init_val (self w)) Hroomy)
      as [Hin Hout].
    destruct (Z.le_gt_cases (init_val (self w)) T) as [H|H].
    - subst b0. rewrite (Hin H). exact Hinit.
    - specialize (Hout H). subst b0. lia. }
  pose proof (binary_loop_result_fits X T (self w) Hexact fuel
                (mkLocals 1 None 0 b0) (prepared w)) as Hloop.
  assert (Hm : mode (self (prepared w)) = "binsearch").
  { destruct (prepared_fields w) as (_ & _ & _ & _ & _ & _ & _ & _ & _ & Pm & _).
    congruence. }
  unfold search_phase. rewrite (bind_Ok _ _ _ _ _ Hprep). cbv beta iota.
  unfold bind at 1. unfold run_search. unfold bind at 1, get_self at 1. rewrite Hm.
  change (String.eqb "binsearch" "power") with false.
  change (String.eqb "binsearch" "binsearch") with true.
  cbv beta iota. unfold _run_binary_scaling, bind.
  destruct (binary_loop X fuel (mkLocals 1 None 0 b0) (prepared w))
    as [[lo hi ct ns] w'|e w'|w']; cbn in *.
  - apply Hloop; [|assumption..].
    split; [exact Hst|]. cbn. split; [lia|]. split; [exact Hb0|]. discriminate.
  - apply Hloop; [|assumption..].
    split; [exact Hst|]. cbn. split; [lia|]. split; [exact Hb0|]. discriminate.
  - exact Logic.I.
Qed.

Lemma binsearch_result_fits_witness :
  let X := simulated None 33 100 in
  let w := sim_world FITTING 100 1 (new_finder "binsearch" 1 50 2) in
  fits_within 33 snd (search_phase X 100 w)
  /\ returned (search_phase X 100 w) = Some (("/tmp", 0%nat), 32).
Proof.
  intros X w. split; [|vm_compute; reflexivity].
  apply (binsearch_result_fits X 100 33 w).
  - cbn. discriminate.
  - vm_compute. reflexivity.
  - reflexivity.
  - cbn. lia.
  - split; [lia | reflexivity].
  - apply simulated_fails_above.
  - eexists. split; [reflexivity|]. right. cbn. lia.
  - apply simulated_roomy_reloads. lia.
Defined.

(** ** Termination of the binary search *)

(** Once a size has failed, every iteration narrows the gap between [low]
    and [high] or ends the loop. *)
Lemma binary_loop_bisection_terminates X T s0 : forall (fuel : nat) v w h,
  bracketing T s0 v w ->
  fails_above X (batch_arg_name s0) 1 T ->
  roomy_reloads X T ->
  high v = Some h ->
  low v < new_size v < h ->
  h - low v <= Z.of_nat fuel ->
  exists v' w', binary_loop X fuel v w = Ok v' w'.
Proof.
  induction fuel as [|fuel IH];
    intros v w h (Hst & Hlow & Hn & Hhigh) Horacle Hre Eh Hshape Hfuel; [lia|].
  cbn [binary_loop].
  pose proof (Hhigh h Eh) as Hh.
  destruct (Z.le_gt_cases (new_size v) T) as [Hle|Hgt].
  - destruct (Z.le_gt_cases (count v + 1) (max_trials s0)) as [Hin|Hover].
    + destruct (Z.le_gt_cases (h - new_size v) 1) as [Hgap|Hgap].
      * destruct (binary_body_converges X T 1 s0 v w h)
          as (w1 & Hbody & _); try assumption; try lia.
        rewrite (bind_Ok _ _ _ _ _ Hbody). cbv beta iota.
        eexists _, _. reflexivity.
      * destruct (binary_body_bisects X T 1 s0 v w h)
          as (r & w1 & Hbody & Hr & _ & Hst1 & _); try assumption; try lia.
        rewrite (bind_Ok _ _ _ _ _ Hbody). cbv beta iota.
        assert (Hmid : (h + new_size v) / 2 < h)
          by (apply Z.div_lt_upper_bound; lia).
        apply (IH _ w1 h); cbn [low high new_size]; try assumption;
          try reflexivity; try lia.
        split; [exact Hst1|]. cbn [low high new_size].
        split; [lia|]. split; [lia|]. intros h' E. injection E as <-. exact Hh.
    + destruct (binary_body_out_of_budget X T 1 s0 v w)
        as (w1 & Hbody & _); try assumption; try lia.
      rewrite (bind_Ok _ _ _ _ _ Hbody). cbv beta iota.
      eexists _, _. reflexivity.
  - destruct (binary_body_failure X T 1 s0 v w)
      as (r & w1 & e & Hbody & Hmid & Hout & Hst1 & _); try assumption; try lia.
    rewrite (bind_Ok _ _ _ _ _ Hbody). cbv beta iota.
    destruct (Z.leb_spec (new_size v - low v) 1) as [Hgap|Hgap].
    + eexists _, _. reflexivity.
    + assert (Hlo : low v + 1 <= (new_size v + low v) / 2)
        by (apply Z.div_le_lower_bound; lia).
      assert (Hhi : (new_size v + low v) / 2 < new_size v)
        by (apply Z.div_lt_upper_bound; lia).
      assert (Hr : low v < r < new_size v).
      { destruct (Z.le_gt_cases ((new_size v + low v) / 2) T) as [Hfit|Hbig].
        - rewrite (Hmid Hfit). lia.
        - specialize (Hout Hbig). lia. }
      apply (IH _ w1 (new_size v)); cbn [low high new_size]; try assumption;
        try reflexivity; try lia.
      split; [exact Hst1|]. cbn [low high new_size].
      split; [lia|]. split; [lia|]. intros h' E. injection E as <-. exact Hgt.
Qed.

(** Before any failure, every successful trial moves to a larger size, and
    the first failure starts the bisection. *)
Lemma binary_loop_doubling_terminates X T s0 : T < 2 ^ 52 -> forall (fuel : nat) v w,
  bracketing T s0 v w ->
  fails_above X (batch_arg_name s0) 1 T ->
  roomy_reloads X T ->
  high v = None ->
  new_size v <= T \/ low v < new_size v ->
  Z.max (T + 1 - new_size v) 0 + Z.max (new_size v) (2 * T) + 1 <= Z.of_nat fuel ->
  exists v' w', binary_loop X fuel v w = Ok v' w'.
Proof.
  intros Hexact.
  induction fuel as [|fuel IH];
    intros v w (Hst & Hlow & Hn & Hhigh) Horacle Hre Eh Hshape Hfuel; [lia|].
  destruct (Z.le_gt_cases (new_size v) T) as [Hle|Hgt].
  - cbn [binary_loop].
    destruct (Z.le_gt_cases (count v + 1) (max_trials s0)) as [Hin|Hover].
    + destruct (binary_body_doubles X T 1 s0 v w)
        as (r & w1 & Hbody & Hr & _ & Hst1 & _); try assumption; try lia.
      rewrite (bind_Ok _ _ _ _ _ Hbody). cbv beta iota.
      apply (IH _ w1); cbn [low high new_size]; try assumption;
        try reflexivity; try lia.
      split; [exact Hst1|]. cbn [low high new_size].
      split; [lia|]. split; [lia|]. intros h' E. discriminate.
    + destruct (binary_body_out_of_budget X T 1 s0 v w)
        as (w1 & Hbody & _); try assumption; try lia.
      rewrite (bind_Ok _ _ _ _ _ Hbody). cbv beta iota.
      eexists _, _. reflexivity.
  - assert (Hlt : low v < new_size v) by lia.
    cbn [binary_loop].
    destruct (binary_body_failure X T 1 s0 v w)
      as (r & w1 & e & Hbody & Hmid & Hout & Hst1 & _); try assumption; try lia.
    rewrite (bind_Ok _ _ _ _ _ Hbody). cbv beta iota.
    destruct (Z.leb_spec (new_size v - low v) 1) as [Hgap|Hgap].
    + eexists _, _. reflexivity.
    + assert (Hlo : low v + 1 <= (new_size v + low v) / 2)
        by (apply Z.div_le_lower_bound; lia).
      assert (Hhi : (new_size v + low v) / 2 < new_size v)
        by (apply Z.div_lt_upper_bound; lia).
      assert (Hr : low v < r < new_size v).
      { destruct (Z.le_gt_cases ((new_size v + low v) / 2) T) as [Hfit|Hbig].
        - rewrite (Hmid Hfit). lia.
        - specialize (Hout Hbig). lia. }
      apply (binary_loop_bisection_terminates X T s0 fuel _ w1 (new_size v));
        cbn [low high new_size]; try assumption; try reflexivity; try lia.
      split; [exact Hst1|]. cbn [low high new_size].
      split; [lia|]. split; [lia|]. intros h' E. injection E as <-. exact Hgt.
Qed.

(** X21: the [while True] loop of the binary search ends.  When a trial
    fails exactly above [T >= 1], with [T < 2^52] so that the float product
    of the doubling is exact, and the loaders leave room for [T], then
    for every [init_val >= 1] and every budget, [3 T + init_val + 1]
    iterations are enough: the search returns a size within [1 .. T] and
    leaves it in the module. *)
Theorem binsearch_terminates (X : Externals) (fuel : nat) (T : Z) (w : World) :
  state_fn (trainer w) <> TUNING ->
  lightning_hasattr (lightning_module (trainer w)) (batch_arg_name (self w)) = true ->
  mode (self w) = "binsearch" ->
  1 <= init_val (self w) ->
  1 <= T < 2 ^ 52 ->
  fails_above X (batch_arg_name (self w)) 1 T ->
  roomy_trainer T (trainer w) ->
  roomy_reloads X T ->
  3 * T + init_val (self w) + 1 <= Z.of_nat fuel ->
  exists save_path r w',
    search_phase X fuel w = Ok (save_path, r) w'
    /\ 1 <= r <= T
    /\ batch_size_of w' = Some r.
Proof.
  intros Hfn Hattr Hmode Hinit [HT Hexact] Horacle Hroomy Hre Hfuel.
  destruct (prepared_search_state_clamped T w Hfn Hattr Hroomy) as (Hprep & Hst).
  cbv zeta in Hprep, Hst.
  pose proof (clamp_for_state_le (trainer w) (init_val (self w))) as Hb0le.
  set (b0 := clamp_for_state (trainer w) (init_val (self w))) in *.
  assert (Hb0 : 1 <= b0).
  { destruct (clamp_for_state_roomy T (trainer w) (init_val (self w)) Hroomy)
      as [Hin Hout].
    destruct (Z.le_gt_cases (init_val (self w)) T) as [H|H].
    - subst b0. rewrite (Hin H). exact Hinit.
    - specialize (Hout H). subst b0. lia. }
  assert (Hbr : bracketing T (self w) (mkLocals 1 None 0 b0) (prepared w)).
  { split; [exact Hst|]. cbn. split; [lia|]. split; [exact Hb0|]. discriminate. }
  destruct (binary_loop_doubling_terminates X T (self w) Hexact fuel
              (mkLocals 1 None 0 b0) (prepared w) Hbr Horacle Hre)
    as (v' & w' & Hloop); cbn [low high new_size]; try reflexivity; try lia.
  pose proof (binary_loop_result_fits X T (self w) Hexact fuel _ _ Hbr Horacle Hre)
    as Hfit.
  rewrite Hloop in Hfit. destruct Hfit as [Hr Hsize].
  assert (Hm : mode (self (prepared w)) = "binsearch").
  { destruct (prepared_fields w) as (_ & _ & _ & _ & _ & _ & _ & _ & _ & Pm & _).
    congruence. }
  exists (default_root_dir (trainer w), uuid_supply w), (new_size v'), w'.
  split; [|split; assumption].
  unfold search_phase. rewrite (bind_Ok _ _ _ _ _ Hprep). cbv beta iota.
  rewrite (bind_Ok _ _ _ _ _ (run_search_binsearch X fuel _ _ v' w' Hm Hloop)).
  reflexivity.
Qed.

Lemma binsearch_terminates_witness :
  let X := simulated None 33 100 in
  let w := sim_world FITTING 100 1 (new_finder "binsearch" 1 50 2) in
  exists save_path r w',
    search_phase X 150 w = Ok (save_path, r) w'
    /\ 1 <= r <= 33
    /\ batch_size_of w' = Some r.
Proof.
  intros X w.
  apply (binsearch_terminates X 150 33 w).
  - cbn. discriminate.
  - vm_compute. reflexivity.
  - reflexivity.
  - cbn. lia.
  - split; [lia | reflexivity].
  - apply simulated_fails_above.
  - eexists. split; [reflexivity|]. right. cbn. lia.
  - apply simulated_roomy_reloads. lia.
  - cbn. lia.
Defined.

